(** * Conway Deploy: the token-launcher skill

    A shallow embedding of the decision logic of
    [src/skills/token-launcher/index.ts] and of the classes it drives
    ([WalletManager], [FeeHarvester], [PortfolioMonitor], [SurvivalMapper]),
    with the properties the specification states about them.

    Numbers.  A TypeScript [number] is an IEEE-754 binary64 value, which is
    what Rocq's primitive [float] is: SOL, USDC, credit and fee amounts are
    [float]s and are computed with the operations the source uses, in the
    order it uses them.  Millisecond timestamps, the cooldown and counts are
    integers in the source ([Date.now()], [parseInt], [Array.length]); they
    are modelled in [Z], where their sums and differences are exact.

    Effects.  A tool is an [async] function over the host context [ctx]
    (state, log) and the outside world (RPC node, HTTP services, clock).  It
    is modelled in a state-and-exception monad over a [World]; an [await]ed
    call that rejects is a [Thrown] outcome, [try]/[catch] is [try_catch].
    The collaborators (deployers, pool manager, RPC connection, bridge) are
    operations on the outside world about which nothing is assumed.

    Scope.  Embedded: the tools [deploy_memecoin], [deploy_utility_token],
    [harvest_fees], [check_portfolio], [check_treasury], the heartbeats
    [portfolio_check] and [fee_harvest], and [SurvivalMapper.checkStatus].
    Not embedded: [swap_to_usdc], [analyze_trends], [generate_token_concept],
    [treasury_rebalance], [strategy_review] and the wallet bootstrap. *)

From Stdlib Require Import ZArith List String Bool Lia Uint63 Floats DecimalString.
From Stdlib Require Strings.Byte.
Import ListNotations.

Set Warnings "-inexact-float".

Local Open Scope string_scope.

(** ** JavaScript values *)

Module JS.

(** [x || d] on a number that may be [undefined]: [0], [-0] and [NaN] are
    falsy. *)
Definition truthy (x : float) : bool :=
  negb ((x =? 0)%float || is_nan x).

Definition or_number (o : option float) (d : float) : float :=
  match o with
  | Some x => if truthy x then x else d
  | None => d
  end.

(** [x || d] on an integer (a timestamp) that may be [undefined]. *)
Definition or_int (o : option Z) (d : Z) : Z :=
  match o with
  | Some x => if (x =? 0)%Z then d else x
  | None => d
  end.

(** [xs || []]. *)
Definition or_array {A : Type} (o : option (list A)) : list A :=
  match o with
  | Some xs => xs
  | None => []
  end.

(** [Math.min] (for the arguments the source passes; [NaN] is contagious). *)
Definition Math_min (x y : float) : float :=
  if is_nan x then x
  else if is_nan y then y
  else if (x <? y)%float then x else y.

(** [Math.ceil (a / b)] for integers [a] and [b > 0]. *)
Definition Math_ceil_div (a b : Z) : Z := (- ((- a) / b))%Z.

(** Template interpolation of an integer. *)
Definition show_int (z : Z) : string := NilZero.string_of_int (Z.to_int z).

(** [arr.findIndex(p)]; [None] stands for [-1]. *)
Fixpoint findIndex {A : Type} (p : A -> bool) (xs : list A) : option nat :=
  match xs with
  | [] => None
  | x :: xs' => if p x then Some O
                else match findIndex p xs' with
                     | Some i => Some (S i)
                     | None => None
                     end
  end.

(** [arr[i] = f(arr[i])] on an index within the array. *)
Fixpoint update {A : Type} (i : nat) (f : A -> A) (xs : list A) : list A :=
  match xs, i with
  | [], _ => []
  | x :: xs', O => f x :: xs'
  | x :: xs', S i' => x :: update i' f xs'
  end.

End JS.


(** ** Data model ([index.ts], lines 25-60) *)

Inductive Method := pumpfun | raydium | spl_direct.

Inductive Status := active | dead | graduated.

Definition Status_eqb (a b : Status) : bool :=
  match a, b with
  | active, active | dead, dead | graduated, graduated => true
  | _, _ => false
  end.

Definition Method_eqb (a b : Method) : bool :=
  match a, b with
  | pumpfun, pumpfun | raydium, raydium | spl_direct, spl_direct => true
  | _, _ => false
  end.

Module DeployedToken.
Record t := make {
  mint : string;
  name : string;
  symbol : string;
  method : Method;
  deployedAt : Z;
  lpAddress : option string;
  initialSupply : float;
  retainedSupply : float;
  totalFeesEarned : float;
  status : Status
}.

(** [token.status = s], every other field kept. *)
Definition with_status (s : Status) (tk : t) : t :=
  make (mint tk) (name tk) (symbol tk) (method tk) (deployedAt tk)
       (lpAddress tk) (initialSupply tk) (retainedSupply tk)
       (totalFeesEarned tk) s.

(** [(t) => t.status === "active"]. *)
Definition is_active (tk : t) : bool := Status_eqb (status tk) active.
Definition is_dead (tk : t) : bool := Status_eqb (status tk) dead.
End DeployedToken.

(** The configuration fields the modelled code reads. *)
Module Config.
Record t := make {
  creatorAddress : string;
  creatorFeeSplit : float;
  pumpfunEnabled : bool;
  raydiumEnabled : bool;
  survivalReserveSol : float;
  maxConcurrentTokens : Z;
  deployCooldownMs : Z
}.
End Config.

(** What a deployer resolves to ([DeployResult] in [deployer/memecoin.ts];
    [DeployUtilityToken.deploy] returns the same fields).  The [method]
    string of the memecoin deployer, which [index.ts] never reads, is left
    out. *)
Module DeployResult.
Record t := make {
  mint : string;
  supply : float;
  retainedAmount : float;
  lpAddress : option string;
  txSignature : string
}.

(** [result.lpAddress = a]. *)
Definition with_lpAddress (a : string) (r : t) : t :=
  make (mint r) (supply r) (retainedAmount r) (Some a) (txSignature r).
End DeployResult.

Module PoolCreateResult.
Record t := make {
  poolAddress : string;
  lpMint : string;
  txSignature : string
}.
End PoolCreateResult.

(** What [RaydiumManager.collectFees] resolves to. *)
Module CollectedFees.
Record t := make {
  solFees : float;
  tokenFees : float;
  txSignature : string
}.
End CollectedFees.

(** The part of an RPC transaction [checkPumpFunCreatorFees] reads. *)
Module TransactionMeta.
Record t := make {
  preBalances : option (list float);
  postBalances : option (list float)
}.
End TransactionMeta.

Module Transaction.
Record t := make {
  meta : option TransactionMeta.t;
  staticAccountKeys : list string
}.
End Transaction.

Module BreakdownEntry.
Record t := make {
  tokenMint : string;
  symbol : string;
  lpFees : float;
  creatorFees : float
}.
End BreakdownEntry.

Module HarvestResult.
Record t := make {
  totalHarvested : float;
  breakdown : list BreakdownEntry.t;
  txSignatures : list string
}.
End HarvestResult.

Module TokenPerformance.
Record t := make {
  mint : string;
  symbol : string;
  name : string;
  status : Status;
  deployedAt : Z;
  ageHours : float;
  price : float;
  volume24h : float;
  holders : Z;
  feesEarned : float;
  retainedValue : float
}.
End TokenPerformance.

Module PortfolioSummary.
Record t := make {
  totalTokens : Z;
  activeTokens : Z;
  deadTokens : Z;
  totalValueSol : float;
  totalFeesEarned : float;
  tokens : list TokenPerformance.t
}.
End PortfolioSummary.

(** What [WalletManager.getTreasuryState] resolves to. *)
Module Treasury.
Record t := make {
  solBalance : float;
  usdcBalance : float;
  conwayCredits : float;
  walletAddress : string
}.
End Treasury.

Inductive Tier := normal | low_compute | critical | tier_dead.

Module SurvivalStatus.
Record t := make {
  tier : Tier;
  conwayCredits : float;
  runwayHours : float;
  solBalance : float;
  usdcBalance : float;
  action : string
}.
End SurvivalStatus.

(** The object [check_treasury] returns. *)
Module TreasuryReport.
Record t := make {
  treasury : Treasury.t;
  totalInvested : float;
  totalEarned : float;
  netPnl : float;
  deployedTokenCount : Z;
  activeTokens : Z
}.
End TreasuryReport.

(** Parameters of [deploy_memecoin] and [deploy_utility_token]: the fields
    the handlers read.  What only a deployer reads ([imagePrompt], [supply],
    [decimals], [freezeAuthority]) is part of how that deployer answers. *)
Module DeployParams.
Record t := make {
  name : string;
  symbol : string;
  description : string;
  initialBuySol : option float;
  lpSol : option float;
  method : option Method
}.
End DeployParams.

(** The keys of [ctx.getState()] the modelled code reads and writes; a key
    that was never set is [None] ([undefined]). *)
Module HostState.
Record t := make {
  deployedTokens : option (list DeployedToken.t);
  lastDeployTimestamp : option Z;
  totalInvested : option float;
  totalEarned : option float
}.

Definition set_deployedTokens (v : list DeployedToken.t) (s : t) : t :=
  make (Some v) (lastDeployTimestamp s) (totalInvested s) (totalEarned s).
Definition set_lastDeployTimestamp (v : Z) (s : t) : t :=
  make (deployedTokens s) (Some v) (totalInvested s) (totalEarned s).
Definition set_totalInvested (v : float) (s : t) : t :=
  make (deployedTokens s) (lastDeployTimestamp s) (Some v) (totalEarned s).
Definition set_totalEarned (v : float) (s : t) : t :=
  make (deployedTokens s) (lastDeployTimestamp s) (totalInvested s) (Some v).
End HostState.

(** What a tool hands back to the host: a payload, or [{ error }]. *)
Inductive ToolResult :=
| DeploySuccess (result : DeployResult.t)
| HarvestPayload (result : HarvestResult.t)
| PortfolioPayload (summary : PortfolioSummary.t)
| TreasuryPayload (report : TreasuryReport.t)
| ErrorResult (error : string).

(** ** Outcomes of awaited calls *)

Inductive Outcome (A : Type) :=
| Returned (a : A)
| Thrown (message : string).

Arguments Returned {A} a.
Arguments Thrown {A} message.

(** The collaborators of the skill, each an operation on the outside world
    [Ext] that resolves or rejects.  Calls that the source awaits in a row
    with nothing decided in between are one operation here. *)
Record Collaborators (Ext : Type) := {
  (** [Date.now()] *)
  Date_now : Ext -> Z * Ext;
  (** [connection.getBalance(wallet.publicKey)], in lamports *)
  getBalance : Ext -> Outcome float * Ext;
  (** [getAssociatedTokenAddress], [getAccount], [Number(account.amount)] *)
  getUsdcAmount : Ext -> Outcome float * Ext;
  (** [DeployMemecoin.deployViaPumpFun] and [deployDirect],
      [DeployUtilityToken.deploy] *)
  deployViaPumpFun : DeployParams.t -> Ext -> Outcome DeployResult.t * Ext;
  deployDirect : DeployParams.t -> Ext -> Outcome DeployResult.t * Ext;
  utilityDeploy : DeployParams.t -> Ext -> Outcome DeployResult.t * Ext;
  (** [RaydiumManager.createPool(tokenMint, solAmount)] and
      [collectFees(poolAddress)] *)
  createPool : string -> float -> Ext -> Outcome PoolCreateResult.t * Ext;
  collectFees : string -> Ext -> Outcome CollectedFees.t * Ext;
  (** [connection.getSignaturesForAddress(wallet.publicKey, { limit: 50 })],
      as the list of the signatures, and [connection.getTransaction] *)
  getSignaturesForAddress : Ext -> Outcome (list string) * Ext;
  getTransaction : string -> Ext -> Outcome (option Transaction.t) * Ext;
  (** [WalletManager.sendSol(to, amount)] *)
  sendSol : string -> float -> Ext -> Outcome string * Ext;
  (** [BridgeManager.bridgeUsdcToBase] and [topUpConwayCredits] *)
  bridgeUsdcToBase : float -> Ext -> Outcome unit * Ext;
  topUpConwayCredits : float -> Ext -> Outcome unit * Ext;
  (** [new PublicKey(mint)], [getTokenSupply], [getTokenLargestAccounts]:
      the number of accounts returned *)
  getTokenLargestAccounts : string -> Ext -> Outcome Z * Ext;
  (** the DexScreener request: [parseFloat(pair.priceUsd)] of the first
      pair, [None] without a pair *)
  fetchDexScreenerPrice : string -> Ext -> Outcome (option float) * Ext
}.

Arguments Date_now {Ext}.
Arguments getBalance {Ext}.
Arguments getUsdcAmount {Ext}.
Arguments deployViaPumpFun {Ext}.
Arguments deployDirect {Ext}.
Arguments utilityDeploy {Ext}.
Arguments createPool {Ext}.
Arguments collectFees {Ext}.
Arguments getSignaturesForAddress {Ext}.
Arguments getTransaction {Ext}.
Arguments sendSol {Ext}.
Arguments bridgeUsdcToBase {Ext}.
Arguments topUpConwayCredits {Ext}.
Arguments getTokenLargestAccounts {Ext}.
Arguments fetchDexScreenerPrice {Ext}.

(** The host context and the outside world. *)
Module World.
Record t (Ext : Type) := make {
  state : HostState.t;
  logs : list string;
  ext : Ext
}.
Arguments make {Ext}.
Arguments state {Ext}.
Arguments logs {Ext}.
Arguments ext {Ext}.
End World.


(** Library functions of the JavaScript runtime that have no counterpart on
    primitive floats.  No property below depends on what they compute. *)
Record Builtins := {
  Number_toString : float -> string;
  Number_toFixed : nat -> float -> string;
  Math_round : float -> float
}.

(** The binary64 value of an integer below [2^63] in magnitude. *)
Definition float_of_Z (z : Z) : float :=
  match z with
  | Z0 => 0%float
  | Zpos _ => of_uint63 (Uint63.of_Z z)
  | Zneg p => (- of_uint63 (Uint63.of_Z (Zpos p)))%float
  end.

(** ** The monad of tool handlers *)

Section Monad.

Context {Ext : Type}.

Definition M (A : Type) : Type := World.t Ext -> Outcome A * World.t Ext.

Definition ret {A : Type} (a : A) : M A := fun w => (Returned a, w).

Definition bind {A B : Type} (m : M A) (k : A -> M B) : M B :=
  fun w =>
    match m w with
    | (Returned a, w') => k a w'
    | (Thrown e, w') => (Thrown e, w')
    end.

(** [try { m } catch (err) { h err.message }]. *)
Definition try_catch {A : Type} (m : M A) (h : string -> M A) : M A :=
  fun w =>
    match m w with
    | (Returned a, w') => (Returned a, w')
    | (Thrown e, w') => h e w'
    end.

(** [ctx.getState()]. *)
Definition getState : M HostState.t :=
  fun w => (Returned (World.state w), w).

(** [ctx.setState(key, value)], as the update of one key. *)
Definition setState (upd : HostState.t -> HostState.t) : M unit :=
  fun w => (Returned tt,
            World.make (upd (World.state w)) (World.logs w) (World.ext w)).

(** [ctx.log(msg)]. *)
Definition log (msg : string) : M unit :=
  fun w => (Returned tt,
            World.make (World.state w) (World.logs w ++ [msg]) (World.ext w)).

(** [await op(...)] on a collaborator. *)
Definition await {A : Type} (op : Ext -> Outcome A * Ext) : M A :=
  fun w =>
    let (r, e') := op (World.ext w) in
    (r, World.make (World.state w) (World.logs w) e').

(** [Date.now()]. *)
Definition now (sys : Collaborators Ext) : M Z :=
  fun w =>
    let (t, e') := Date_now sys (World.ext w) in
    (Returned t, World.make (World.state w) (World.logs w) e').

End Monad.

Declare Scope tool_scope.
Delimit Scope tool_scope with tool.
Arguments M Ext A : clear implicits.

Notation "x <- m ;; k" := (bind m (fun x => k))
  (at level 61, m at next level, right associativity) : tool_scope.
Notation "m ;;; k" := (bind m (fun _ => k))
  (at level 61, right associativity) : tool_scope.
Notation "'try' m 'catch' x => h" := (try_catch m (fun x => h))
  (at level 61, m at next level, x name, right associativity) : tool_scope.

(** ** The skill ([register] in [index.ts]) *)

Module Skill.

Section Handlers.

Context {Ext : Type}.
Variable sys : Collaborators Ext.
Variable config : Config.t.
Variable js : Builtins.
(** [wallet.publicKey.toBase58()]. *)
Variable walletAddress : string.

Local Open Scope tool_scope.

Definition LAMPORTS_PER_SOL : float := 1000000000%float.

(** *** [WalletManager.getTreasuryState] ([treasury/wallet.ts]) *)

Definition getTreasuryState : M Ext Treasury.t :=
  lamports <- await (getBalance sys) ;;
  let solBalance := (lamports / LAMPORTS_PER_SOL)%float in
  usdcBalance <- (try (amount <- await (getUsdcAmount sys) ;;
                       ret (amount / 1000000)%float)
                  catch _ => ret 0%float) ;;
  let conwayCredits := 0%float in
  ret (Treasury.make solBalance usdcBalance conwayCredits walletAddress).

(** *** [deploy_memecoin] ([index.ts], lines 99-168) *)

Definition activeCount (tokens : list DeployedToken.t) : Z :=
  Z.of_nat (List.length (filter DeployedToken.is_active tokens)).

Definition totalCost (params : DeployParams.t) : float :=
  (JS.or_number (DeployParams.initialBuySol params) 0.5
   + JS.or_number (DeployParams.lpSol params) 1.0
   + 0.05)%float.

Definition msg_max_concurrent : string :=
  "Max concurrent tokens (" ++ JS.show_int (Config.maxConcurrentTokens config)
  ++ ") reached. Harvest or retire tokens first.".

Definition msg_insufficient_sol (cost available : float) : string :=
  "Insufficient SOL. Need " ++ Number_toString js cost ++ " but only "
  ++ Number_toString js available ++ " available after survival reserve.".

Definition msg_cooldown (waitMin : Z) : string :=
  "Cooldown active. Wait " ++ JS.show_int waitMin ++ " more minutes.".

(** The record pushed on [deployedTokens]. *)
Definition new_token (params : DeployParams.t) (method : Method)
  (deployedAt : Z) (result : DeployResult.t) : DeployedToken.t :=
  DeployedToken.make (DeployResult.mint result) (DeployParams.name params)
    (DeployParams.symbol params) method deployedAt
    (DeployResult.lpAddress result) (DeployResult.supply result)
    (DeployResult.retainedAmount result) 0%float active.

(** [if (config.raydiumEnabled && params.lpSol) { ... createPool ...;
    result.lpAddress = lpResult.poolAddress }] (lines 136-139 and 182-185). *)
Definition attach_pool (params : DeployParams.t) (result : DeployResult.t)
  : M Ext DeployResult.t :=
  match DeployParams.lpSol params with
  | Some lpSol =>
      if Config.raydiumEnabled config && JS.truthy lpSol
      then
        lpResult <- await (createPool sys (DeployResult.mint result) lpSol) ;;
        ret (DeployResult.with_lpAddress
               (PoolCreateResult.poolAddress lpResult) result)
      else ret result
  | None => ret result
  end.

(** [deployDirect], then the pool. *)
Definition deploy_direct_with_pool (params : DeployParams.t)
  : M Ext DeployResult.t :=
  result <- await (deployDirect sys params) ;;
  attach_pool params result.

(** The method a request is recorded with: [params.method || "pumpfun"]. *)
Definition method_of (params : DeployParams.t) : Method :=
  match DeployParams.method params with Some m => m | None => pumpfun end.

(** Lines 131-140: the deployer chosen by [method] and the configuration. *)
Definition run_deployer (params : DeployParams.t) (method : Method)
  : M Ext DeployResult.t :=
  if Method_eqb method pumpfun && Config.pumpfunEnabled config
  then await (deployViaPumpFun sys params)
  else deploy_direct_with_pool params.

(** Lines 142-162, "Record deployment". *)
Definition record_deployment (params : DeployParams.t) (method : Method)
  (cost : float) (result : DeployResult.t) : M Ext unit :=
  t3 <- now sys ;;
  let token := new_token params method t3 result in
  st <- getState ;;
  let tokens := JS.or_array (HostState.deployedTokens st) in
  setState (HostState.set_deployedTokens (tokens ++ [token])) ;;;
  t4 <- now sys ;;
  setState (HostState.set_lastDeployTimestamp t4) ;;;
  st <- getState ;;
  setState (HostState.set_totalInvested
              (JS.or_number (HostState.totalInvested st) 0 + cost)%float) ;;;
  log ("[conway-deploy] Deployed " ++ DeployParams.symbol params ++ ": "
       ++ DeployResult.mint result).

(** Lines 128-167: what runs once the three gates have let the request
    through. *)
Definition deploy_and_record (params : DeployParams.t) (cost : float)
  : M Ext ToolResult :=
  let method := method_of params in
  try (
    result <- run_deployer params method ;;
    record_deployment params method cost result ;;;
    ret (DeploySuccess result)
  ) catch message =>
    log ("[conway-deploy] Deploy failed: " ++ message) ;;;
    ret (ErrorResult message).

(** Lines 122-126, then the deployment. *)
Definition cooldown_gate (params : DeployParams.t) (cost : float)
  : M Ext ToolResult :=
  st <- getState ;;
  let lastDeploy := JS.or_int (HostState.lastDeployTimestamp st) 0 in
  t1 <- now sys ;;
  if (t1 - lastDeploy <? Config.deployCooldownMs config)%Z
  then
    t2 <- now sys ;;
    let waitMin :=
      JS.Math_ceil_div (Config.deployCooldownMs config - (t2 - lastDeploy))
        60000 in
    ret (ErrorResult (msg_cooldown waitMin))
  else deploy_and_record params cost.

(** Lines 117-120, then the cooldown gate. *)
Definition solvency_gate (params : DeployParams.t) (treasury : Treasury.t)
  : M Ext ToolResult :=
  let cost := totalCost params in
  if (Treasury.solBalance treasury - cost
      <? Config.survivalReserveSol config)%float
  then ret (ErrorResult
              (msg_insufficient_sol cost
                 (Treasury.solBalance treasury
                  - Config.survivalReserveSol config)%float))
  else cooldown_gate params cost.

(** The handler: the pre-flight query, the concurrency gate (lines 109-115),
    then the solvency gate. *)
Definition deploy_memecoin (params : DeployParams.t) : M Ext ToolResult :=
  treasury <- getTreasuryState ;;
  st <- getState ;;
  if (Config.maxConcurrentTokens config
      <=? activeCount (JS.or_array (HostState.deployedTokens st)))%Z
  then ret (ErrorResult msg_max_concurrent)
  else solvency_gate params treasury.

(** *** [deploy_utility_token] ([index.ts], lines 170-208) *)

Definition deploy_utility_token (params : DeployParams.t) : M Ext ToolResult :=
  try (
    result <- await (utilityDeploy sys params) ;;
    result <- attach_pool params result ;;
    t <- now sys ;;
    let token := new_token params spl_direct t result in
    st <- getState ;;
    let tokens := JS.or_array (HostState.deployedTokens st) in
    setState (HostState.set_deployedTokens (tokens ++ [token])) ;;;
    ret (DeploySuccess result)
  ) catch message => ret (ErrorResult message).

(** *** [FeeHarvester] ([liquidity/fees.ts]) *)

(** The balance change of the wallet in one transaction, in SOL; an index
    outside an array reads [undefined], which makes the difference [NaN]. *)
Definition balanceChange (tx : Transaction.t) : option float :=
  match Transaction.meta tx with
  | Some meta =>
      match TransactionMeta.postBalances meta,
            TransactionMeta.preBalances meta with
      | Some post, Some pre =>
          match JS.findIndex (String.eqb walletAddress)
                  (Transaction.staticAccountKeys tx) with
          | Some walletIdx =>
              Some ((nth walletIdx post nan - nth walletIdx pre nan)
                    / LAMPORTS_PER_SOL)%float
          | None => None
          end
      | _, _ => None
      end
  | None => None
  end.

(** The loop over the recent signatures; a rejected [getTransaction]
    propagates to the caller's [catch]. *)
Fixpoint scan_signatures (signatures : list string) (feeTotal : float)
  : M Ext float :=
  match signatures with
  | [] => ret feeTotal
  | sig :: rest =>
      tx <- await (getTransaction sys sig) ;;
      match tx with
      | None => scan_signatures rest feeTotal
      | Some tx =>
          match balanceChange tx with
          | Some change =>
              if (0 <? change)%float && (change <? 0.1)%float
              then scan_signatures rest (feeTotal + change)%float
              else scan_signatures rest feeTotal
          | None => scan_signatures rest feeTotal
          end
      end
  end.

Definition checkPumpFunCreatorFees (tokenMint : string) : M Ext float :=
  try (signatures <- await (getSignaturesForAddress sys) ;;
       scan_signatures signatures 0%float)
  catch _ => ret 0%float.

(** The LP part of one iteration: the fee collected and the signature to
    record, [(0, [])] when the position has no pool or the query fails (the
    [catch] block writes to the console, which is not part of [ctx]). *)
Definition collect_lp (token : DeployedToken.t) : M Ext (float * list string) :=
  match DeployedToken.lpAddress token with
  | Some lpAddress =>
      if negb (String.eqb lpAddress "")
      then
        try (feeResult <- await (collectFees sys lpAddress) ;;
             ret (CollectedFees.solFees feeResult,
                  if negb (String.eqb (CollectedFees.txSignature feeResult)
                             "PLACEHOLDER_TX")
                  then [CollectedFees.txSignature feeResult] else []))
        catch _ => ret (0%float, [])
      else ret (0%float, [])
  | None => ret (0%float, [])
  end.

(** The creator-fee part of one iteration (lines 390-394). *)
Definition creator_fees (token : DeployedToken.t) : M Ext float :=
  if Method_eqb (DeployedToken.method token) pumpfun
  then checkPumpFunCreatorFees (DeployedToken.mint token)
  else ret 0%float.

(** The queries of one iteration of [for (const token of activeTokens)]:
    the entry of the position and the signatures to record. *)
Definition harvest_token (token : DeployedToken.t)
  : M Ext (BreakdownEntry.t * list string) :=
  lp <- collect_lp token ;;
  let lpFees := fst lp in
  creatorFees <- creator_fees token ;;
  ret (BreakdownEntry.make (DeployedToken.mint token)
         (DeployedToken.symbol token) lpFees creatorFees,
       snd lp).

(** The end of the iteration (lines 396-404) on the three accumulators. *)
Definition push_entry (acc : HarvestResult.t)
  (x : BreakdownEntry.t * list string) : HarvestResult.t :=
  let tokenTotal :=
    (BreakdownEntry.lpFees (fst x) + BreakdownEntry.creatorFees (fst x))%float in
  HarvestResult.make
    (HarvestResult.totalHarvested acc + tokenTotal)%float
    (HarvestResult.breakdown acc ++ [fst x])
    (HarvestResult.txSignatures acc ++ snd x).

Fixpoint harvest_loop (activeTokens : list DeployedToken.t)
  (acc : HarvestResult.t) : M Ext HarvestResult.t :=
  match activeTokens with
  | [] => ret acc
  | token :: rest =>
      x <- harvest_token token ;;
      harvest_loop rest (push_entry acc x)
  end.

(** The positions a harvest works on. *)
Definition in_scope (target : string) (tokens : list DeployedToken.t)
  : list DeployedToken.t :=
  if String.eqb target "all"
  then filter DeployedToken.is_active tokens
  else filter (fun t => String.eqb (DeployedToken.mint t) target
                        && DeployedToken.is_active t) tokens.

(** The accumulators before the loop (lines 369-371). *)
Definition no_harvest : HarvestResult.t := HarvestResult.make 0%float [] [].

Definition harvest (target : string) (tokens : list DeployedToken.t)
  : M Ext HarvestResult.t :=
  harvest_loop (in_scope target tokens) no_harvest.

(** *** [harvest_fees] ([index.ts], lines 210-232) *)

(** [params.tokenMint || "all"]. *)
Definition target_of (tokenMint : option string) : string :=
  match tokenMint with
  | Some m => if String.eqb m "" then "all" else m
  | None => "all"
  end.

(** The creator's share of a harvest (line 223). *)
Definition creatorShare (totalHarvested : float) : float :=
  (totalHarvested * (Config.creatorFeeSplit config / 100))%float.

Definition harvest_fees (tokenMint : option string) : M Ext ToolResult :=
  try (
    st <- getState ;;
    result <- harvest (target_of tokenMint)
                (JS.or_array (HostState.deployedTokens st)) ;;
    let totalHarvested := HarvestResult.totalHarvested result in
    st <- getState ;;
    setState (HostState.set_totalEarned
                (JS.or_number (HostState.totalEarned st) 0
                 + totalHarvested)%float) ;;;
    (if (0 <? totalHarvested)%float
        && (0 <? Config.creatorFeeSplit config)%float
     then
       let creatorShare := creatorShare totalHarvested in
       _ <- await (sendSol sys (Config.creatorAddress config) creatorShare) ;;
       log ("[conway-deploy] Sent " ++ Number_toString js creatorShare
            ++ " SOL to creator")
     else ret tt) ;;;
    ret (HarvestPayload result)
  ) catch message => ret (ErrorResult message).

(** *** [PortfolioMonitor] ([monitor/portfolio.ts]) *)

Definition getTokenPerformance (token : DeployedToken.t)
  : M Ext TokenPerformance.t :=
  t <- now sys ;;
  let ageHours :=
    (float_of_Z (t - DeployedToken.deployedAt token) / (1000 * 60 * 60))%float in
  onchain <- (try (
                holders <- await (getTokenLargestAccounts sys
                                    (DeployedToken.mint token)) ;;
                price <- (try (pair <- await (fetchDexScreenerPrice sys
                                                (DeployedToken.mint token)) ;;
                               ret (JS.or_number pair 0%float))
                          catch _ => ret 0%float) ;;
                ret (price, holders))
              catch _ => ret (0%float, 0%Z)) ;;
  ret (TokenPerformance.make (DeployedToken.mint token)
         (DeployedToken.symbol token) (DeployedToken.name token)
         (DeployedToken.status token) (DeployedToken.deployedAt token)
         (Math_round js (ageHours * 10) / 10)%float
         (fst onchain) 0%float (snd onchain)
         (DeployedToken.totalFeesEarned token) 0%float).

(** The loop of [getFullPortfolio] on its three accumulators. *)
Fixpoint portfolio_loop (tokens : list DeployedToken.t)
  (performances : list TokenPerformance.t) (totalValueSol totalFees : float)
  : M Ext (list TokenPerformance.t * float * float) :=
  match tokens with
  | [] => ret (performances, totalValueSol, totalFees)
  | token :: rest =>
      perf <- getTokenPerformance token ;;
      portfolio_loop rest (performances ++ [perf])
        (totalValueSol + TokenPerformance.retainedValue perf)%float
        (totalFees + TokenPerformance.feesEarned perf)%float
  end.

Definition getFullPortfolio (tokens : list DeployedToken.t)
  : M Ext PortfolioSummary.t :=
  r <- portfolio_loop tokens [] 0%float 0%float ;;
  let '(performances, totalValueSol, totalFees) := r in
  ret (PortfolioSummary.make
         (Z.of_nat (List.length tokens))
         (activeCount tokens)
         (Z.of_nat (List.length (filter DeployedToken.is_dead tokens)))
         totalValueSol totalFees performances).

(** *** [check_portfolio] and [check_treasury] ([index.ts], lines 234-249) *)

Definition check_portfolio : M Ext ToolResult :=
  st <- getState ;;
  summary <- getFullPortfolio (JS.or_array (HostState.deployedTokens st)) ;;
  ret (PortfolioPayload summary).

Definition check_treasury : M Ext ToolResult :=
  state <- getState ;;
  treasury <- getTreasuryState ;;
  ret (TreasuryPayload
         (TreasuryReport.make treasury
            (JS.or_number (HostState.totalInvested state) 0)
            (JS.or_number (HostState.totalEarned state) 0)
            (JS.or_number (HostState.totalEarned state) 0
             - JS.or_number (HostState.totalInvested state) 0)%float
            (Z.of_nat (List.length (JS.or_array (HostState.deployedTokens state))))
            (activeCount (JS.or_array (HostState.deployedTokens state))))).

(** *** The [portfolio_check] heartbeat ([index.ts], lines 273-288) *)

(** [tokens[idx].status = "dead"] for the first token with this mint. *)
Definition kill_by_mint (mint : string) (tokens : list DeployedToken.t)
  : list DeployedToken.t :=
  match JS.findIndex (fun t => String.eqb (DeployedToken.mint t) mint) tokens with
  | Some idx => JS.update idx (DeployedToken.with_status dead) tokens
  | None => tokens
  end.

(** The loop over [portfolio.tokens]; [Date.now()] is read once per entry
    whose volume is zero. *)
Fixpoint mark_dead (performances : list TokenPerformance.t)
  (tokens : list DeployedToken.t) : M Ext (list DeployedToken.t) :=
  match performances with
  | [] => ret tokens
  | token :: rest =>
      if (TokenPerformance.volume24h token =? 0)%float
      then
        t <- now sys ;;
        if (86400000 <? t - TokenPerformance.deployedAt token)%Z
        then mark_dead rest (kill_by_mint (TokenPerformance.mint token) tokens)
        else mark_dead rest tokens
      else mark_dead rest tokens
  end.

Definition portfolio_check : M Ext unit :=
  st <- getState ;;
  let tokens := JS.or_array (HostState.deployedTokens st) in
  if (List.length tokens =? 0)%nat then ret tt
  else
    portfolio <- getFullPortfolio tokens ;;
    log ("[heartbeat] Portfolio: "
         ++ JS.show_int (PortfolioSummary.activeTokens portfolio)
         ++ " active, "
         ++ Number_toFixed js 4 (PortfolioSummary.totalValueSol portfolio)
         ++ " SOL value") ;;;
    tokens' <- mark_dead (PortfolioSummary.tokens portfolio) tokens ;;
    setState (HostState.set_deployedTokens tokens').

(** *** The [fee_harvest] heartbeat ([index.ts], lines 290-304) *)

Definition fee_harvest : M Ext unit :=
  st <- getState ;;
  let tokens := JS.or_array (HostState.deployedTokens st) in
  let activeTokens := filter DeployedToken.is_active tokens in
  if (List.length activeTokens =? 0)%nat then ret tt
  else
    try (
      result <- harvest "all" activeTokens ;;
      if (0 <? HarvestResult.totalHarvested result)%float
      then
        log ("[heartbeat] Harvested "
             ++ Number_toFixed js 6 (HarvestResult.totalHarvested result)
             ++ " SOL in fees") ;;;
        st <- getState ;;
        setState (HostState.set_totalEarned
                    (JS.or_number (HostState.totalEarned st) 0
                     + HarvestResult.totalHarvested result)%float)
      else ret tt
    ) catch message => log ("[heartbeat] Fee harvest error: " ++ message).

(** *** [SurvivalMapper.checkStatus] ([monitor/survival.ts]) *)

Definition CONWAY_COST_PER_HOUR_NORMAL : float := 0.5%float.
Definition CONWAY_COST_PER_HOUR_LOW : float := 0.1%float.
Definition CONWAY_COST_PER_HOUR_CRITICAL : float := 0.02%float.

(** "Determine tier": the tier, the action text and the hourly cost. *)
Definition determine_tier (credits : float) : Tier * string * float :=
  if (24 * CONWAY_COST_PER_HOUR_NORMAL <? credits)%float then
    (normal, "Operating normally. Continue deploying tokens.",
     CONWAY_COST_PER_HOUR_NORMAL)
  else if (12 * CONWAY_COST_PER_HOUR_LOW <? credits)%float then
    (low_compute,
     "Low credits. Switch to cheaper model. Prioritize fee harvesting.",
     CONWAY_COST_PER_HOUR_LOW)
  else if (0 <? credits)%float then
    (critical,
     "CRITICAL. Harvest all fees immediately. Bridge USDC to Base. Stop new deployments.",
     CONWAY_COST_PER_HOUR_CRITICAL)
  else
    (tier_dead, "No credits remaining. Agent will stop.", 0%float).

Definition needs_bridge (tier : Tier) : bool :=
  match tier with
  | low_compute | critical => true
  | _ => false
  end.

Definition checkStatus (treasury : Treasury.t) : M Ext SurvivalStatus.t :=
  let credits := Treasury.conwayCredits treasury in
  let '(tier, action, costPerHour) := determine_tier credits in
  let estimatedRunwayHours :=
    (if (0 <? costPerHour)%float then credits / costPerHour else 0)%float in
  action <- (if needs_bridge tier
                && (1 <? Treasury.usdcBalance treasury)%float
             then
               let bridgeAmount :=
                 JS.Math_min (Treasury.usdcBalance treasury * 0.8)%float 50 in
               try (_ <- await (bridgeUsdcToBase sys bridgeAmount) ;;
                    _ <- await (topUpConwayCredits sys bridgeAmount) ;;
                    ret (action ++ " Auto-bridging "
                         ++ Number_toString js bridgeAmount
                         ++ " USDC to Conway."))
               catch message =>
                 ret (action ++ " Bridge attempt failed: " ++ message)
             else ret action) ;;
  ret (SurvivalStatus.make tier credits
         (Math_round js (estimatedRunwayHours * 10) / 10)%float
         (Treasury.solBalance treasury) (Treasury.usdcBalance treasury)
         action).

End Handlers.

End Skill.

(** ** Vocabulary of the properties *)

Section Vocabulary.

Context {Ext : Type} {A : Type}.

(** A computation that leaves the state and the log as it found them. *)
Definition keeps_host (m : M Ext A) : Prop :=
  forall w r w', m w = (r, w') ->
    World.state w' = World.state w /\ World.logs w' = World.logs w.

(** A computation that always returns: no exception leaves it. *)
Definition never_throws (m : M Ext A) : Prop :=
  forall w, exists a w', m w = (Returned a, w').

End Vocabulary.

(** The sum of a breakdown, in the order and with the operations of
    [harvest]: [lpFees + creatorFees] per entry, added from the left to [0]. *)
Definition sum_breakdown (entries : list BreakdownEntry.t) : float :=
  fold_left
    (fun total e =>
       (total + (BreakdownEntry.lpFees e + BreakdownEntry.creatorFees e))%float)
    entries 0%float.

(** The [k]-th next reading of the clock when nothing but the clock is
    consulted in between. *)
Definition clock_reading {Ext : Type} (sys : Collaborators Ext) (k : nat)
  (e : Ext) : Z :=
  fst (Date_now sys (Nat.iter k (fun e' => snd (Date_now sys e')) e)).

(** The world after "Record deployment" ([index.ts], lines 142-162): two
    readings of the clock, three keys written, one line logged. *)
Definition recorded {Ext : Type} (sys : Collaborators Ext)
  (params : DeployParams.t) (cost : float)
  (result : DeployResult.t) (w : World.t Ext) : World.t Ext :=
  let t3 := clock_reading sys 0 (World.ext w) in
  let t4 := clock_reading sys 1 (World.ext w) in
  World.make
    (HostState.make
       (Some (JS.or_array (HostState.deployedTokens (World.state w))
              ++ [Skill.new_token params (Skill.method_of params) t3 result])%list)
       (Some t4)
       (Some (JS.or_number (HostState.totalInvested (World.state w)) 0
              + cost)%float)
       (HostState.totalEarned (World.state w)))
    (World.logs w
     ++ [("[conway-deploy] Deployed " ++ DeployParams.symbol params ++ ": "
          ++ DeployResult.mint result)%string])%list
    (Nat.iter 2 (fun e => snd (Date_now sys e)) (World.ext w)).

(** The tier [checkStatus] selects for a credit balance. *)
Definition tier_of (credits : float) : Tier :=
  fst (fst (Skill.determine_tier credits)).

(** What the loop of [portfolio_check] does to the registry when every
    entry reports a volume of zero, as a function of the successive clock
    readings: an entry older than 24 hours kills the first token that has
    its mint. *)
Fixpoint sweep {Ext : Type} (sys : Collaborators Ext)
  (performances : list TokenPerformance.t) (e : Ext)
  (tokens : list DeployedToken.t) : list DeployedToken.t :=
  match performances with
  | [] => tokens
  | p :: rest =>
      sweep sys rest (snd (Date_now sys e))
        (if (86400000 <? fst (Date_now sys e) - TokenPerformance.deployedAt p)%Z
         then Skill.kill_by_mint (TokenPerformance.mint p) tokens
         else tokens)
  end.

(** Whether some entry with mint [m] is older than 24 hours at its reading. *)
Fixpoint killed {Ext : Type} (sys : Collaborators Ext)
  (performances : list TokenPerformance.t) (e : Ext) (m : string) : bool :=
  match performances with
  | [] => false
  | p :: rest =>
      (String.eqb (TokenPerformance.mint p) m
       && (86400000 <? fst (Date_now sys e) - TokenPerformance.deployedAt p)%Z)
      || killed sys rest (snd (Date_now sys e)) m
  end.

(** [if (t.mint === m) t.status = "dead"], on one token. *)
Definition kill_if (m : string) (tk : DeployedToken.t) : DeployedToken.t :=
  if String.eqb (DeployedToken.mint tk) m
  then DeployedToken.with_status dead tk else tk.

(** A performance entry that describes a token and reports no volume. *)
Definition mirrors (p : TokenPerformance.t) (tk : DeployedToken.t) : Prop :=
  TokenPerformance.mint p = DeployedToken.mint tk
  /\ TokenPerformance.deployedAt p = DeployedToken.deployedAt tk
  /\ TokenPerformance.volume24h p = 0%float.

(** ** Scenarios: concrete worlds on which the handlers are run *)

Module Scenario.

(** What each collaborator answers; the outside world is the clock, which
    advances by one millisecond per reading. *)
Record Script := {
  balance : Outcome float;
  usdc : Outcome float;
  pump : Outcome DeployResult.t;
  direct : Outcome DeployResult.t;
  utility : Outcome DeployResult.t;
  pool : Outcome PoolCreateResult.t;
  fees : string -> Outcome CollectedFees.t;
  signatures : Outcome (list string);
  transaction : string -> Outcome (option Transaction.t);
  payout : Outcome string;
  bridge : Outcome unit;
  topup : Outcome unit;
  holders : Outcome Z;
  price : Outcome (option float)
}.

Definition collaborators (s : Script) : Collaborators Z := {|
  Date_now := fun t => (t, (t + 1)%Z);
  getBalance := fun t => (balance s, t);
  getUsdcAmount := fun t => (usdc s, t);
  deployViaPumpFun := fun _ t => (pump s, t);
  deployDirect := fun _ t => (direct s, t);
  utilityDeploy := fun _ t => (utility s, t);
  createPool := fun _ _ t => (pool s, t);
  collectFees := fun a t => (fees s a, t);
  getSignaturesForAddress := fun t => (signatures s, t);
  getTransaction := fun sig t => (transaction s sig, t);
  sendSol := fun _ _ t => (payout s, t);
  bridgeUsdcToBase := fun _ t => (bridge s, t);
  topUpConwayCredits := fun _ t => (topup s, t);
  getTokenLargestAccounts := fun _ t => (holders s, t);
  fetchDexScreenerPrice := fun _ t => (price s, t)
|}.

Definition builtins : Builtins := {|
  Number_toString := fun _ => "<number>";
  Number_toFixed := fun _ _ => "<number>";
  Math_round := fun x => x
|}.

Definition wallet : string := "AgentWallet".

Definition deployed (mint : string) : DeployResult.t :=
  DeployResult.make mint 1000000000 0 None "sig".

(** A wallet holding 2 SOL and no USDC account; every deployer succeeds;
    no pool pays fees; the payout goes through. *)
Definition healthy : Script := {|
  balance := Returned 2000000000%float;
  usdc := Thrown "TokenAccountNotFoundError";
  pump := Returned (deployed "MintA");
  direct := Returned (deployed "MintB");
  utility := Returned (deployed "MintU");
  pool := Returned (PoolCreateResult.make "PLACEHOLDER_POOL_ADDRESS"
                      "PLACEHOLDER_LP_MINT" "PLACEHOLDER_TX");
  fees := fun _ => Returned (CollectedFees.make 0 0 "PLACEHOLDER_TX");
  signatures := Returned [];
  transaction := fun _ => Returned None;
  payout := Returned "payout-sig";
  bridge := Returned tt;
  topup := Returned tt;
  holders := Returned 20%Z;
  price := Returned None
|}.

Definition config (reserve : float) (maxTokens cooldown : Z) : Config.t :=
  Config.make "Creator" 10 true true reserve maxTokens cooldown.

Definition params : DeployParams.t :=
  DeployParams.make "Glider" "GLDR" "a glider" None None None.

Definition token (mint : string) (method : Method) (deployedAt : Z)
  (lp : option string) (status : Status) : DeployedToken.t :=
  DeployedToken.make mint "Glider" "GLDR" method deployedAt lp
    1000000000 0 0 status.

Definition empty_state : HostState.t := HostState.make None None None None.

Definition world (st : HostState.t) (clock : Z) : World.t Z :=
  World.make st [] clock.

(** What [getTreasuryState] resolves to on [healthy]. *)
Definition two_sol : Treasury.t := Treasury.make 2 0 0 wallet.

(** A reserve that is exactly what the default request leaves of 2 SOL. *)
Definition boundary_config : Config.t :=
  config (2 - Skill.totalCost params)%float 5 3600000.

(** A registry with one active position, deployed at [1000000], whose
    deployment cost is on the ledger. *)
Definition one_position : HostState.t :=
  HostState.make (Some [token "MintA" pumpfun 1000000 None active])
    (Some 1000000%Z) (Some 1.55%float) None.

(** The same wallet behind a node that does not answer. *)
Definition node_down : Script := {|
  balance := Thrown "failed to get balance of account";
  usdc := usdc healthy;
  pump := pump healthy;
  direct := direct healthy;
  utility := utility healthy;
  pool := pool healthy;
  fees := fees healthy;
  signatures := signatures healthy;
  transaction := transaction healthy;
  payout := payout healthy;
  bridge := bridge healthy;
  topup := topup healthy;
  holders := holders healthy;
  price := price healthy
|}.

(** A deployer whose transaction is refused. *)
Definition deployer_fails : Script := {|
  balance := balance healthy;
  usdc := usdc healthy;
  pump := Thrown "Transaction simulation failed";
  direct := direct healthy;
  utility := utility healthy;
  pool := pool healthy;
  fees := fees healthy;
  signatures := signatures healthy;
  transaction := transaction healthy;
  payout := payout healthy;
  bridge := bridge healthy;
  topup := topup healthy;
  holders := holders healthy;
  price := price healthy
|}.

(** Three positions with pools; the pool of the second does not answer.
    The wallet received 0.05 SOL in one recent transaction. *)
Definition three_pools : HostState.t :=
  HostState.make
    (Some [token "MintA" spl_direct 1000000 (Some "PoolA") active;
           token "MintB" pumpfun 1000000 (Some "PoolB") active;
           token "MintC" spl_direct 1000000 (Some "PoolC") active])
    (Some 1000000%Z) None None.

Definition fee_transfer : Transaction.t :=
  Transaction.make
    (Some (TransactionMeta.make (Some [1000000000%float])
             (Some [1050000000%float])))
    [wallet].

Definition pool_b_down : Script := {|
  balance := balance healthy;
  usdc := usdc healthy;
  pump := pump healthy;
  direct := direct healthy;
  utility := utility healthy;
  pool := pool healthy;
  fees := fun a =>
    if String.eqb a "PoolA" then Returned (CollectedFees.make 0.01 0 "sigA")
    else if String.eqb a "PoolB" then Thrown "pool account not found"
    else Returned (CollectedFees.make 0.02 0 "sigC");
  signatures := Returned ["tx1"];
  transaction := fun _ => Returned (Some fee_transfer);
  payout := payout healthy;
  bridge := bridge healthy;
  topup := topup healthy;
  holders := holders healthy;
  price := price healthy
|}.

(** One bonding-curve position without a pool; the same fee transfer. *)
Definition creator_income : Script := {|
  balance := balance healthy;
  usdc := usdc healthy;
  pump := pump healthy;
  direct := direct healthy;
  utility := utility healthy;
  pool := pool healthy;
  fees := fees healthy;
  signatures := Returned ["tx1"];
  transaction := fun _ => Returned (Some fee_transfer);
  payout := payout healthy;
  bridge := bridge healthy;
  topup := topup healthy;
  holders := holders healthy;
  price := price healthy
|}.

(** A graduated position deployed at time 0 and an active one deployed a
    second before the clock of the run ([100000000]). *)
Definition old_and_young : HostState.t :=
  HostState.make
    (Some [token "MintG" pumpfun 0 None graduated;
           token "MintY" pumpfun 99999000 None active])
    None None None.

End Scenario.

(** ** More of the skill: periodic tasks, the swap, the trend analyzer *)

(** More of the JavaScript array library. *)
Module JSArray.

(** [arr.slice(-n)]: the last [n] elements, all of them when there are
    fewer. *)
Definition slice_last {A : Type} (n : nat) (xs : list A) : list A :=
  skipn (List.length xs - n) xs.

(** [arr.slice(0, n)]. *)
Definition slice_first {A : Type} (n : nat) (xs : list A) : list A :=
  firstn n xs.

End JSArray.

(** The pool manager as the repository has it ([liquidity/raydium.ts]): a
    placeholder that answers with constants.  What it writes to the console
    is not part of [ctx]. *)
Module Placeholder.

(** [RaydiumManager.collectFees] (lines 300-316 of the file). *)
Definition collectFees {Ext : Type} (poolAddress : string) (e : Ext)
  : Outcome CollectedFees.t * Ext :=
  (Returned (CollectedFees.make 0 0 "PLACEHOLDER_TX"), e).

End Placeholder.

(** One entry of the [dailyPerformance] history. *)
Module PerformanceData.
Record t := make {
  date : string;
  totalTokens : Z;
  activeTokens : Z;
  deadTokens : Z;
  totalInvested : float;
  totalEarned : float;
  netPnl : float;
  bestPerformer : option DeployedToken.t
}.
End PerformanceData.

(** What [JupiterSwap.swapSolToUsdc] resolves to. *)
Module SwapResult.
Record t := make {
  inputAmount : float;
  outputAmount : float;
  txSignature : string
}.
End SwapResult.

(** An HTTP response: [resp.ok], [resp.statusText], and what
    [await resp.json()] gives. *)
Module Response.
Record t (A : Type) := make {
  ok : bool;
  statusText : string;
  json : Outcome A
}.
Arguments make {A}.
Arguments ok {A}.
Arguments statusText {A}.
Arguments json {A}.
End Response.

(** The part of a Jupiter quote the code reads: [Number(quoteData.outAmount)]. *)
Module Quote.
Record t := make {
  outAmount : float
}.
End Quote.

(** The Jupiter aggregator and the submission of the signed transaction
    ([treasury/swap.ts]). *)
Record Jupiter (Ext : Type) := {
  (** [fetch(quoteUrl)] with [amount = inputLamports] *)
  fetchQuote : float -> Ext -> Outcome (Response.t Quote.t) * Ext;
  (** [fetch(.../swap, { method: "POST", ... })]; the body read is
      [swapData.swapTransaction] *)
  fetchSwap : Quote.t -> Ext -> Outcome (Response.t string) * Ext;
  (** [VersionedTransaction.deserialize], [tx.sign], [sendRawTransaction],
      [confirmTransaction]: the signature *)
  sendAndConfirm : string -> Ext -> Outcome string * Ext
}.

Arguments fetchQuote {Ext}.
Arguments fetchSwap {Ext}.
Arguments sendAndConfirm {Ext}.

(** What [swap_to_usdc] hands back. *)
Inductive SwapToolResult :=
| SwapPayload (result : SwapResult.t)
| SwapError (error : string).

(** A boosted token of the DexScreener answer, and a post of the Reddit
    answer, with the fields the analyzer reads; a field that may be missing
    or falsy is an option. *)
Module Boost.
Record t := make {
  chainId : string;
  tokenAddress : string;
  amount : option float;
  symbol : option string;
  name : option string
}.
End Boost.

Module Post.
Record t := make {
  title : string;
  score : option float;
  selftext : option string
}.
End Post.

Module Trend.
Record t := make {
  topic : string;
  score : float;
  context : string;
  suggestedAngle : string
}.
End Trend.

Module TopToken.
Record t := make {
  symbol : string;
  name : string;
  volume24h : float;
  priceChange24h : float;
  marketCap : float
}.
End TopToken.

Module TrendData.
Record t := make {
  source : string;
  trends : list Trend.t;
  topTokens : list TopToken.t;
  timestamp : Z
}.
End TrendData.

(** The two feeds of the analyzer ([strategy/analyzer.ts]): the parsed
    answers, [None] for a DexScreener body that is falsy ([data || []]); the
    Reddit list is [data?.data?.children || []]. *)
Record Feeds (Ext : Type) := {
  fetchBoosts : Ext -> Outcome (option (list Boost.t)) * Ext;
  fetchRedditHot : Ext -> Outcome (list Post.t) * Ext
}.

Arguments fetchBoosts {Ext}.
Arguments fetchRedditHot {Ext}.

Module Periodic.

Section Tasks.

Context {Ext : Type}.
Variable sys : Collaborators Ext.
Variable jupiter : Jupiter Ext.
Variable feeds : Feeds Ext.
Variable config : Config.t.
Variable js : Builtins.
Variable walletAddress : string.
(** [new Date().toISOString()], from the reading of the clock, and
    [Math.floor]: library functions that are not modelled. *)
Variable toISOString : Z -> string.
Variable Math_floor : float -> float.

Local Open Scope tool_scope.

(** *** [JupiterSwap.swapSolToUsdc] ([treasury/swap.ts], lines 28-83) *)

Definition swapSolToUsdc (solAmount : float) : M Ext SwapResult.t :=
  let inputLamports :=
    Math_floor (solAmount * Skill.LAMPORTS_PER_SOL)%float in
  quoteResp <- await (fetchQuote jupiter inputLamports) ;;
  if negb (Response.ok quoteResp)
  then fun w => (Thrown ("Jupiter quote failed: "
                         ++ Response.statusText quoteResp), w)
  else
  quoteData <- (fun w => (Response.json quoteResp, w)) ;;
  swapResp <- await (fetchSwap jupiter quoteData) ;;
  if negb (Response.ok swapResp)
  then fun w => (Thrown ("Jupiter swap failed: "
                         ++ Response.statusText swapResp), w)
  else
  swapTransaction <- (fun w => (Response.json swapResp, w)) ;;
  signature <- await (sendAndConfirm jupiter swapTransaction) ;;
  let outputUsdc := (Quote.outAmount quoteData / 1000000)%float in
  ret (SwapResult.make solAmount outputUsdc signature).

(** *** [swap_to_usdc] ([index.ts], lines 251-258) *)

Definition swap_to_usdc (amountSol : float) : M Ext SwapToolResult :=
  try (result <- swapSolToUsdc amountSol ;;
       ret (SwapPayload result))
  catch message => ret (SwapError message).

(** *** The [treasury_rebalance] heartbeat ([index.ts], lines 306-327) *)

Definition tier_name (tier : Tier) : string :=
  match tier with
  | normal => "normal"
  | low_compute => "low_compute"
  | critical => "critical"
  | tier_dead => "dead"
  end.

Definition excessSol (treasury : Treasury.t) : float :=
  (Treasury.solBalance treasury - Config.survivalReserveSol config - 0.5)%float.

Definition treasury_rebalance : M Ext unit :=
  treasury <- Skill.getTreasuryState sys walletAddress ;;
  log ("[heartbeat] Treasury: "
       ++ Number_toFixed js 4 (Treasury.solBalance treasury) ++ " SOL, "
       ++ Number_toFixed js 2 (Treasury.usdcBalance treasury) ++ " USDC") ;;;
  let excessSol := excessSol treasury in
  (if (0.1 <? excessSol)%float
   then
     try (let swapAmount := (excessSol * 0.5)%float in
          _ <- swapSolToUsdc swapAmount ;;
          log ("[heartbeat] Swapped " ++ Number_toFixed js 4 swapAmount
               ++ " SOL → USDC"))
     catch message => log ("[heartbeat] USDC swap failed: " ++ message)
   else ret tt) ;;;
  survivalStatus <- Skill.checkStatus sys js treasury ;;
  if match SurvivalStatus.tier survivalStatus with normal => false | _ => true end
  then log ("[heartbeat] ⚠️ Survival tier: "
            ++ tier_name (SurvivalStatus.tier survivalStatus) ++ " - "
            ++ SurvivalStatus.action survivalStatus)
  else ret tt.

(** *** The [strategy_review] heartbeat ([index.ts], lines 329-352) *)

(** [tokens.reduce((best, t) => t.totalFeesEarned >
    (best?.totalFeesEarned || 0) ? t : best, null)]. *)
Definition bestPerformer (tokens : list DeployedToken.t)
  : option DeployedToken.t :=
  fold_left
    (fun best t =>
       if (JS.or_number (option_map DeployedToken.totalFeesEarned best) 0
           <? DeployedToken.totalFeesEarned t)%float
       then Some t else best)
    tokens None.

Definition performanceData (state : HostState.t) (date : string)
  : PerformanceData.t :=
  let tokens := JS.or_array (HostState.deployedTokens state) in
  let pnl := (JS.or_number (HostState.totalEarned state) 0
              - JS.or_number (HostState.totalInvested state) 0)%float in
  PerformanceData.make date
    (Z.of_nat (List.length tokens))
    (Z.of_nat (List.length (filter DeployedToken.is_active tokens)))
    (Z.of_nat (List.length (filter DeployedToken.is_dead tokens)))
    (JS.or_number (HostState.totalInvested state) 0)
    (JS.or_number (HostState.totalEarned state) 0)
    pnl
    (bestPerformer tokens).

(** The handler, on the [dailyPerformance] key, which it alone reads and
    writes: the key's value comes in as an argument and the value written
    is what is returned. *)
Definition strategy_review
  (dailyPerformance : option (list PerformanceData.t))
  : M Ext (list PerformanceData.t) :=
  state <- getState ;;
  let tokens := JS.or_array (HostState.deployedTokens state) in
  let pnl := (JS.or_number (HostState.totalEarned state) 0
              - JS.or_number (HostState.totalInvested state) 0)%float in
  log ("[heartbeat] Daily review: "
       ++ JS.show_int (Z.of_nat (List.length tokens)) ++ " tokens, PnL: "
       ++ Number_toFixed js 4 pnl ++ " SOL") ;;;
  t <- now sys ;;
  let history := JS.or_array dailyPerformance in
  ret (JSArray.slice_last 30
         (history ++ [performanceData state (toISOString t)])).

(** *** [TrendAnalyzer] ([strategy/analyzer.ts]) *)

Definition or_string (o : option string) (d : string) : string :=
  match o with
  | Some s => if String.eqb s "" then d else s
  | None => d
  end.

Definition empty_trends (source : string) : M Ext TrendData.t :=
  t <- now sys ;;
  ret (TrendData.make source [] [] t).

Definition analyzeDexScreener : M Ext TrendData.t :=
  try (
    data <- await (fetchBoosts feeds) ;;
    let solanaTokens :=
      JSArray.slice_first 10
        (filter (fun t => String.eqb (Boost.chainId t) "solana")
           (JS.or_array data)) in
    t <- now sys ;;
    ret (TrendData.make "dexscreener"
           (map (fun t => Trend.make (Boost.tokenAddress t)
                            (JS.or_number (Boost.amount t) 0)
                            "Boosted token on Solana"
                            "Trending token pattern") solanaTokens)
           (map (fun t => TopToken.make (or_string (Boost.symbol t) "UNKNOWN")
                            (or_string (Boost.name t) "Unknown") 0 0 0)
              solanaTokens)
           t)
  ) catch _ => empty_trends "dexscreener".

Definition analyzeTwitterTrends : M Ext TrendData.t := empty_trends "twitter".

Definition analyzeRedditTrends : M Ext TrendData.t :=
  try (
    posts <- await (fetchRedditHot feeds) ;;
    let trends :=
      JSArray.slice_first 10
        (map (fun p => Trend.make (Post.title p)
                         (JS.or_number (Post.score p) 0)
                         (or_string (option_map (String.substring 0 200)
                                       (Post.selftext p)) "")
                         "Reddit crypto narrative") posts) in
    t <- now sys ;;
    ret (TrendData.make "reddit" trends [] t)
  ) catch _ => empty_trends "reddit".

(** The [switch] of [analyze]: a source it does not know adds nothing. *)
Definition analyze_source (source : string) : option (M Ext TrendData.t) :=
  if String.eqb source "dexscreener" then Some analyzeDexScreener
  else if String.eqb source "twitter" then Some analyzeTwitterTrends
  else if String.eqb source "reddit" then Some analyzeRedditTrends
  else None.

Fixpoint analyze_loop (sources : list string) (results : list TrendData.t)
  : M Ext (list TrendData.t) :=
  match sources with
  | [] => ret results
  | source :: rest =>
      match analyze_source source with
      | Some run => r <- run ;; analyze_loop rest (results ++ [r])
      | None => analyze_loop rest results
      end
  end.

Definition analyze (sources : list string) : M Ext (list TrendData.t) :=
  analyze_loop sources [].

(** [analyze_trends] ([index.ts], lines 260-262): [params.sources ||
    ["dexscreener"]]. *)
Definition analyze_trends (sources : option (list string))
  : M Ext (list TrendData.t) :=
  analyze (match sources with Some s => s | None => ["dexscreener"] end).

End Tasks.

End Periodic.

(** ** Instruction data ([deployer/metadata.ts], [deployer/memecoin.ts]) *)

(** Node's [Buffer], as the list of its bytes. *)
Module Buffer.

(** The byte [Buffer.from([v])] holds: [v & 255]. *)
Definition of_number (v : Z) : Byte.byte :=
  match Byte.of_N (Z.to_N (v mod 256)) with
  | Some b => b
  | None => Byte.x00
  end.

(** [Buffer.alloc(n)]. *)
Definition alloc (n : nat) : list Byte.byte := repeat Byte.x00 n.

(** [width] bytes of [v], the least significant first. *)
Fixpoint little_endian (width : nat) (v : Z) : list Byte.byte :=
  match width with
  | O => []
  | S width' => of_number v :: little_endian width' (v / 256)
  end.

(** [writeUInt16LE], [writeUInt32LE] and [writeBigUInt64LE] on a fresh
    buffer of their width: a value outside [0, 2^(8 width)) is a
    [RangeError], which [None] stands for. *)
Definition writeUIntLE (width : nat) (v : Z) : option (list Byte.byte) :=
  if (0 <=? v)%Z && (v <? 2 ^ (8 * Z.of_nat width))%Z
  then Some (little_endian width v)
  else None.

Definition writeUInt16LE : Z -> option (list Byte.byte) := writeUIntLE 2.
Definition writeUInt32LE : Z -> option (list Byte.byte) := writeUIntLE 4.
Definition writeBigUInt64LE : Z -> option (list Byte.byte) := writeUIntLE 8.

(** [buf.write(...)] and [buf.writeBigUInt64LE(v, offset)] at an offset
    where the bytes fit: the bytes replace what was there. *)
Definition write (bytes : list Byte.byte) (offset : nat) (buf : list Byte.byte)
  : list Byte.byte :=
  (firstn offset buf ++ bytes
   ++ skipn (offset + List.length bytes) buf)%list.

(** The number a little-endian reader ([readUIntLE], Borsh) gets back. *)
Fixpoint read_little_endian (bytes : list Byte.byte) : Z :=
  match bytes with
  | [] => 0%Z
  | b :: rest => (Z.of_N (Byte.to_N b) + 256 * read_little_endian rest)%Z
  end.

(** [BigInt(Math.floor(x))]: the integer below [x]; a [RangeError] for
    [NaN] and the infinities. *)
Definition BigInt_floor (x : float) : option Z :=
  match Prim2SF x with
  | S754_zero _ => Some 0%Z
  | S754_finite s m e =>
      let z := if s then Zneg m else Zpos m in
      Some (if (0 <=? e)%Z then z * 2 ^ e else z / 2 ^ (- e))%Z
  | S754_infinity _ | S754_nan => None
  end.

End Buffer.

Module Creator.
Record t := make {
  (** [address.toBuffer()]: the 32 bytes of the public key *)
  address : list Byte.byte;
  verified : bool;
  share : Z
}.
End Creator.

(** The argument of [serializeCreateMetadataV3]; [collection] and [uses]
    are [null] by their type. *)
Module MetadataArgs.
Record t := make {
  name : string;
  symbol : string;
  uri : string;
  sellerFeeBasisPoints : Z;
  creators : option (list Creator.t)
}.
End MetadataArgs.

Module Instruction.

Section Serializer.

(** [Buffer.from(text)]: the UTF-8 encoding, which is not modelled. *)
Variable Buffer_from : string -> list Byte.byte.

(** A string field: the length of its bytes on 4 bytes, then the bytes. *)
Definition length_prefixed (text : string) : option (list Byte.byte) :=
  let bytes := Buffer_from text in
  match Buffer.writeUInt32LE (Z.of_nat (List.length bytes)) with
  | Some lenBuf => Some (lenBuf ++ bytes)%list
  | None => None
  end.

Definition creator_bytes (c : Creator.t) : list Byte.byte :=
  (Creator.address c
   ++ [Buffer.of_number (if Creator.verified c then 1 else 0)]
   ++ [Buffer.of_number (Creator.share c)])%list.

(** [Option<Vec<Creator>>]; an empty array is truthy in JavaScript, so it
    is [Some] with a count of 0. *)
Definition creators_bytes (creators : option (list Creator.t))
  : option (list Byte.byte) :=
  match creators with
  | Some cs =>
      match Buffer.writeUInt32LE (Z.of_nat (List.length cs)) with
      | Some countBuf =>
          Some ([Buffer.of_number 1] ++ countBuf
                ++ List.concat (map creator_bytes cs))%list
      | None => None
      end
  | None => Some [Buffer.of_number 0]
  end.

(** [TokenMetadataManager.serializeCreateMetadataV3] (lines 162-226):
    [Buffer.concat(buffers)], or [None] when one of the writes throws. *)
Definition serializeCreateMetadataV3 (args : MetadataArgs.t)
  : option (list Byte.byte) :=
  match length_prefixed (MetadataArgs.name args),
        length_prefixed (MetadataArgs.symbol args),
        length_prefixed (MetadataArgs.uri args),
        Buffer.writeUInt16LE (MetadataArgs.sellerFeeBasisPoints args),
        creators_bytes (MetadataArgs.creators args) with
  | Some name, Some symbol, Some uri, Some feeBuf, Some creators =>
      Some ([Buffer.of_number 33] ++ name ++ symbol ++ uri ++ feeBuf
            ++ creators
            ++ [Buffer.of_number 0] ++ [Buffer.of_number 0]
            ++ [Buffer.of_number 1] ++ [Buffer.of_number 0])%list
  | _, _, _, _, _ => None
  end.

(** The [data] of the instruction [createOnChainMetadata] builds (lines
    118-132), for the wallet's public key. *)
Definition createOnChainMetadata_data (wallet : list Byte.byte)
  (name symbol uri : string) : option (list Byte.byte) :=
  serializeCreateMetadataV3
    (MetadataArgs.make (String.substring 0 32 name)
       (String.substring 0 10 symbol) (String.substring 0 200 uri) 0
       (Some [Creator.make wallet true 100])).

End Serializer.

(** The bytes [data.write("buy", 0)] writes. *)
Definition buy_tag : list Byte.byte := String.list_byte_of_string "buy".

(** The [data] of [DeployMemecoin.buildPumpFunBuyInstruction]
    ([deployer/memecoin.ts], lines 244-262). *)
Definition buildPumpFunBuyInstruction_data (solAmount : float)
  : option (list Byte.byte) :=
  match Buffer.BigInt_floor (solAmount * Skill.LAMPORTS_PER_SOL)%float with
  | Some lamports =>
      match Buffer.writeBigUInt64LE lamports with
      | Some amount =>
          Some (Buffer.write amount 8
                  (Buffer.write buy_tag 0 (Buffer.alloc 64)))
      | None => None
      end
  | None => None
  end.

End Instruction.

(** More worlds for the runs. *)
Module Cases.

(** A pool manager that refuses to create the pool. *)
Definition pool_refused : Scenario.Script := {|
  Scenario.balance := Scenario.balance Scenario.healthy;
  Scenario.usdc := Scenario.usdc Scenario.healthy;
  Scenario.pump := Scenario.pump Scenario.healthy;
  Scenario.direct := Scenario.direct Scenario.healthy;
  Scenario.utility := Scenario.utility Scenario.healthy;
  Scenario.pool := Thrown "insufficient funds for rent";
  Scenario.fees := Scenario.fees Scenario.healthy;
  Scenario.signatures := Scenario.signatures Scenario.healthy;
  Scenario.transaction := Scenario.transaction Scenario.healthy;
  Scenario.payout := Scenario.payout Scenario.healthy;
  Scenario.bridge := Scenario.bridge Scenario.healthy;
  Scenario.topup := Scenario.topup Scenario.healthy;
  Scenario.holders := Scenario.holders Scenario.healthy;
  Scenario.price := Scenario.price Scenario.healthy
|}.

(** Two bonding-curve positions without pools. *)
Definition two_curves : HostState.t :=
  HostState.make
    (Some [Scenario.token "MintA" pumpfun 1000000 None active;
           Scenario.token "MintB" pumpfun 1000000 None active])
    (Some 1000000%Z) None None.

(** Two records with the same mint: a young one first, an old one second. *)
Definition twins : list DeployedToken.t :=
  [Scenario.token "MintT" pumpfun 99999000 None active;
   Scenario.token "MintT" pumpfun 0 None active].

(** A Jupiter that quotes and swaps; one whose quote endpoint is down. *)
Definition jupiter_up : Jupiter Z := {|
  fetchQuote := fun _ t =>
    (Returned (Response.make true "OK" (Returned (Quote.make 150000000))), t);
  fetchSwap := fun _ t =>
    (Returned (Response.make true "OK" (Returned "base64-transaction")), t);
  sendAndConfirm := fun _ t => (Returned "swap-sig", t)
|}.

Definition jupiter_down : Jupiter Z := {|
  fetchQuote := fun _ t =>
    (Returned (Response.make false "Service Unavailable"
                 (Thrown "Unexpected token < in JSON")), t);
  fetchSwap := fetchSwap jupiter_up;
  sendAndConfirm := sendAndConfirm jupiter_up
|}.

Definition boost (chain address : string) : Boost.t :=
  Boost.make chain address (Some 500%float) None None.

(** Twelve boosted tokens, one of them on another chain. *)
Definition feeds_up : Feeds Z := {|
  fetchBoosts := fun t =>
    (Returned (Some [boost "solana" "T1"; boost "solana" "T2";
                     boost "ethereum" "E1"; boost "solana" "T3";
                     boost "solana" "T4"; boost "solana" "T5";
                     boost "solana" "T6"; boost "solana" "T7";
                     boost "solana" "T8"; boost "solana" "T9";
                     boost "solana" "T10"; boost "solana" "T11"]), t);
  fetchRedditHot := fun t => (Thrown "429 Too Many Requests", t)
|}.

(** An indexer that does not answer the holder look-up. *)
Definition indexer_down : Scenario.Script := {|
  Scenario.balance := Scenario.balance Scenario.healthy;
  Scenario.usdc := Scenario.usdc Scenario.healthy;
  Scenario.pump := Scenario.pump Scenario.healthy;
  Scenario.direct := Scenario.direct Scenario.healthy;
  Scenario.utility := Scenario.utility Scenario.healthy;
  Scenario.pool := Scenario.pool Scenario.healthy;
  Scenario.fees := Scenario.fees Scenario.healthy;
  Scenario.signatures := Scenario.signatures Scenario.healthy;
  Scenario.transaction := Scenario.transaction Scenario.healthy;
  Scenario.payout := Scenario.payout Scenario.healthy;
  Scenario.bridge := Scenario.bridge Scenario.healthy;
  Scenario.topup := Scenario.topup Scenario.healthy;
  Scenario.holders := Thrown "429 Too Many Requests";
  Scenario.price := Scenario.price Scenario.healthy
|}.

(** A bridge whose attestation does not arrive. *)
Definition bridge_down : Scenario.Script := {|
  Scenario.balance := Scenario.balance Scenario.healthy;
  Scenario.usdc := Scenario.usdc Scenario.healthy;
  Scenario.pump := Scenario.pump Scenario.healthy;
  Scenario.direct := Scenario.direct Scenario.healthy;
  Scenario.utility := Scenario.utility Scenario.healthy;
  Scenario.pool := Scenario.pool Scenario.healthy;
  Scenario.fees := Scenario.fees Scenario.healthy;
  Scenario.signatures := Scenario.signatures Scenario.healthy;
  Scenario.transaction := Scenario.transaction Scenario.healthy;
  Scenario.payout := Scenario.payout Scenario.healthy;
  Scenario.bridge := Thrown "attestation timed out";
  Scenario.topup := Scenario.topup Scenario.healthy;
  Scenario.holders := Scenario.holders Scenario.healthy;
  Scenario.price := Scenario.price Scenario.healthy
|}.

(** Two recent transactions: a fee transfer, and one the node cannot load. *)
Definition lookup_fails : Scenario.Script := {|
  Scenario.balance := Scenario.balance Scenario.healthy;
  Scenario.usdc := Scenario.usdc Scenario.healthy;
  Scenario.pump := Scenario.pump Scenario.healthy;
  Scenario.direct := Scenario.direct Scenario.healthy;
  Scenario.utility := Scenario.utility Scenario.healthy;
  Scenario.pool := Scenario.pool Scenario.healthy;
  Scenario.fees := Scenario.fees Scenario.healthy;
  Scenario.signatures := Returned ["tx1"; "tx2"];
  Scenario.transaction := fun sig =>
    if String.eqb sig "tx1" then Returned (Some Scenario.fee_transfer)
    else Thrown "503 Service Unavailable";
  Scenario.payout := Scenario.payout Scenario.healthy;
  Scenario.bridge := Scenario.bridge Scenario.healthy;
  Scenario.topup := Scenario.topup Scenario.healthy;
  Scenario.holders := Scenario.holders Scenario.healthy;
  Scenario.price := Scenario.price Scenario.healthy
|}.

(** A wallet with 100 USDC and 5 Conway credits. *)
Definition low_on_credits : Treasury.t := Treasury.make 2 100 5 Scenario.wallet.

(** A configuration without a creator split; one with pump.fun disabled. *)
Definition split_off : Config.t :=
  Config.make "Creator" 0 true true 0.5 5 3600000.

Definition pumpfun_off : Config.t :=
  Config.make "Creator" 10 false true 0 5 3600000.

(** A request for a utility token with a pool of 1 SOL. *)
Definition with_pool : DeployParams.t :=
  DeployParams.make "Util" "UTL" "a utility" None (Some 1%float) None.

(** A pool manager that collects 0.03 SOL and answers with the placeholder
    signature; a registry with one pooled position. *)
Definition placeholder_pays : Scenario.Script := {|
  Scenario.balance := Scenario.balance Scenario.healthy;
  Scenario.usdc := Scenario.usdc Scenario.healthy;
  Scenario.pump := Scenario.pump Scenario.healthy;
  Scenario.direct := Scenario.direct Scenario.healthy;
  Scenario.utility := Scenario.utility Scenario.healthy;
  Scenario.pool := Scenario.pool Scenario.healthy;
  Scenario.fees := fun _ =>
    Returned (CollectedFees.make 0.03 0 "PLACEHOLDER_TX");
  Scenario.signatures := Scenario.signatures Scenario.healthy;
  Scenario.transaction := Scenario.transaction Scenario.healthy;
  Scenario.payout := Scenario.payout Scenario.healthy;
  Scenario.bridge := Scenario.bridge Scenario.healthy;
  Scenario.topup := Scenario.topup Scenario.healthy;
  Scenario.holders := Scenario.holders Scenario.healthy;
  Scenario.price := Scenario.price Scenario.healthy
|}.

Definition one_pool : HostState.t :=
  HostState.make
    (Some [Scenario.token "MintA" spl_direct 1000000 (Some "PoolA") active])
    (Some 1000000%Z) None None.

(** A registry made of [twins]. *)
Definition twin_registry : HostState.t :=
  HostState.make (Some twins) None None None.

(** [Buffer.from] on ASCII text; a public key; the metadata of a token
    with one creator. *)
Definition ascii_bytes (text : string) : list Byte.byte :=
  String.list_byte_of_string text.

Definition key : list Byte.byte := repeat Byte.x07 32.

Definition metadata (share : Z) : MetadataArgs.t :=
  MetadataArgs.make "Glider" "GLDR" "data:application/json;base64,e30=" 0
    (Some [Creator.make key true share]).

End Cases.

(** * Properties *)

(** ** Order on binary64 *)

Section FloatOrder.

Local Open Scope float_scope.

Lemma SFcompare_swap (x y : spec_float) :
  SFcompare y x = option_map CompOpp (SFcompare x y).
Proof.
  destruct x as [sx|sx| |sx mx ex], y as [sy|sy| |sy my ey]; simpl;
    try reflexivity;
    try (destruct sx; reflexivity);
    try (destruct sy; reflexivity);
    try (destruct sx, sy; reflexivity).
  f_equal.
  destruct sx, sy; simpl; try reflexivity.
  - rewrite (Z.compare_antisym ex ey).
    destruct (ex ?= ey)%Z; simpl; try reflexivity.
    change (Pos.compare_cont Eq my mx) with (Pos.compare my mx).
    change (Pos.compare_cont Eq mx my) with (Pos.compare mx my).
    rewrite (Pos.compare_antisym mx my).
    destruct (mx ?= my)%positive; reflexivity.
  - rewrite (Z.compare_antisym ex ey).
    destruct (ex ?= ey)%Z; simpl; try reflexivity.
    change (Pos.compare_cont Eq my mx) with (Pos.compare my mx).
    change (Pos.compare_cont Eq mx my) with (Pos.compare mx my).
    rewrite (Pos.compare_antisym mx my).
    destruct (mx ?= my)%positive; reflexivity.
Qed.

Lemma SFeqb_refl (x : spec_float) : SFeqb x x = true <-> x <> S754_nan.
Proof.
  unfold SFeqb. destruct x as [s|s| |s m e]; simpl.
  - split; [discriminate | reflexivity].
  - destruct s; split; (discriminate || reflexivity).
  - split; [discriminate | congruence].
  - rewrite Z.compare_refl.
    change (Pos.compare_cont Eq m m) with (Pos.compare m m).
    rewrite Pos.compare_refl.
    destruct s; split; (discriminate || reflexivity).
Qed.

Lemma is_nan_spec (x : float) : is_nan x = false <-> Prim2SF x <> S754_nan.
Proof.
  unfold is_nan. rewrite FloatAxioms.eqb_spec, negb_false_iff. apply SFeqb_refl.
Qed.

Lemma SFcompare_None (x y : spec_float) :
  SFcompare x y = None -> x = S754_nan \/ y = S754_nan.
Proof.
  destruct x, y; simpl; intros H; try discriminate H; auto.
Qed.

(** On numbers that are not [NaN], [x < y] fails exactly when [y <= x]. *)
Lemma ltb_false_iff_leb (x y : float) :
  is_nan x = false -> is_nan y = false ->
  ((x <? y) = false <-> (y <=? x) = true).
Proof.
  rewrite !is_nan_spec, FloatAxioms.ltb_spec, FloatAxioms.leb_spec. intros Hx Hy.
  unfold SFltb, SFleb. rewrite (SFcompare_swap (Prim2SF x) (Prim2SF y)).
  destruct (SFcompare (Prim2SF x) (Prim2SF y)) as [[]|] eqn:E; simpl;
    split; try congruence.
  destruct (SFcompare_None _ _ E); contradiction.
Qed.

Lemma leb_refl (x : float) : is_nan x = false -> (x <=? x) = true.
Proof.
  unfold is_nan. rewrite negb_false_iff, FloatAxioms.eqb_spec, FloatAxioms.leb_spec.
  unfold SFeqb, SFleb. destruct (SFcompare _ _) as [[]|]; congruence.
Qed.

End FloatOrder.

(** ** Integer ceiling *)

(** [Math_ceil_div a 60000] is the least whole number of minutes that covers
    [a] milliseconds. *)
Lemma Math_ceil_div_spec (a b : Z) :
  (0 < b)%Z ->
  (b * (JS.Math_ceil_div a b - 1) < a <= b * JS.Math_ceil_div a b)%Z.
Proof.
  intros Hb. unfold JS.Math_ceil_div.
  pose proof (Z.div_mod (- a) b) as Hdm.
  pose proof (Z.mod_pos_bound (- a) b Hb) as Hm.
  nia.
Qed.

(** ** Laws of the handler monad *)

Section MonadLaws.

Context {Ext : Type}.
Variable sys : Collaborators Ext.

Local Open Scope tool_scope.

Lemma bind_Returned {A B : Type} (m : M Ext A) (k : A -> M Ext B) w a w' :
  m w = (Returned a, w') -> bind m k w = k a w'.
Proof. intros H. unfold bind. now rewrite H. Qed.

Lemma bind_Thrown {A B : Type} (m : M Ext A) (k : A -> M Ext B) w e w' :
  m w = (Thrown e, w') -> bind m k w = (Thrown e, w').
Proof. intros H. unfold bind. now rewrite H. Qed.

Lemma now_eq w :
  now sys w =
    (Returned (fst (Date_now sys (World.ext w))),
     World.make (World.state w) (World.logs w)
       (snd (Date_now sys (World.ext w)))).
Proof. unfold now. destruct (Date_now sys (World.ext w)); reflexivity. Qed.

(** *** Computations that keep the state and the log *)

Lemma keeps_host_ret {A : Type} (a : A) : keeps_host (@ret Ext A a).
Proof. intros w r w' H. inversion H. auto. Qed.

Lemma keeps_host_bind {A B : Type} (m : M Ext A) (k : A -> M Ext B) :
  keeps_host m -> (forall a, keeps_host (k a)) -> keeps_host (bind m k).
Proof.
  intros Hm Hk w r w'. unfold bind.
  destruct (m w) as [[a|e] w1] eqn:E; intros H.
  - destruct (Hk a _ _ _ H) as [-> ->]. exact (Hm _ _ _ E).
  - inversion H; subst. exact (Hm _ _ _ E).
Qed.

Lemma keeps_host_try {A : Type} (m : M Ext A) (h : string -> M Ext A) :
  keeps_host m -> (forall e, keeps_host (h e)) -> keeps_host (try_catch m h).
Proof.
  intros Hm Hh w r w'. unfold try_catch.
  destruct (m w) as [[a|e] w1] eqn:E; intros H.
  - inversion H; subst. exact (Hm _ _ _ E).
  - destruct (Hh e _ _ _ H) as [-> ->]. exact (Hm _ _ _ E).
Qed.

Lemma keeps_host_await {A : Type} (op : Ext -> Outcome A * Ext) :
  keeps_host (await op).
Proof.
  intros w r w'. unfold await. destruct (op (World.ext w)).
  intros H. inversion H. auto.
Qed.

Lemma keeps_host_now : keeps_host (now sys).
Proof.
  intros w r w'. unfold now. destruct (Date_now sys (World.ext w)).
  intros H. inversion H. auto.
Qed.

Lemma keeps_host_getState : keeps_host (@getState Ext).
Proof. intros w r w' H. inversion H. auto. Qed.

Lemma keeps_host_if {A : Type} (b : bool) (m1 m2 : M Ext A) :
  keeps_host m1 -> keeps_host m2 -> keeps_host (if b then m1 else m2).
Proof. destruct b; auto. Qed.

(** *** Computations that never throw *)

Lemma never_throws_ret {A : Type} (a : A) : never_throws (@ret Ext A a).
Proof. intros w. now exists a, w. Qed.

Lemma never_throws_bind {A B : Type} (m : M Ext A) (k : A -> M Ext B) :
  never_throws m -> (forall a, never_throws (k a)) -> never_throws (bind m k).
Proof.
  intros Hm Hk w. destruct (Hm w) as (a & w1 & E).
  destruct (Hk a w1) as (b & w2 & E2).
  exists b, w2. now rewrite (bind_Returned _ _ _ _ _ E).
Qed.

Lemma never_throws_try {A : Type} (m : M Ext A) (h : string -> M Ext A) :
  (forall e, never_throws (h e)) -> never_throws (try_catch m h).
Proof.
  intros Hh w. unfold try_catch. destruct (m w) as [[a|e] w1].
  - now exists a, w1.
  - apply Hh.
Qed.

Lemma never_throws_now : never_throws (now sys).
Proof.
  intros w. unfold now. destruct (Date_now sys (World.ext w)) as [t e].
  now eexists _, _.
Qed.

Lemma never_throws_getState : never_throws (@getState Ext).
Proof. intros w. now eexists _, _. Qed.

Lemma never_throws_setState upd : never_throws (@setState Ext upd).
Proof. intros w. now eexists _, _. Qed.

Lemma never_throws_log msg : never_throws (@log Ext msg).
Proof. intros w. now eexists _, _. Qed.

Lemma never_throws_if {A : Type} (b : bool) (m1 m2 : M Ext A) :
  never_throws m1 -> never_throws m2 -> never_throws (if b then m1 else m2).
Proof. destruct b; auto. Qed.

End MonadLaws.

Create HintDb frame discriminated.
#[export] Hint Resolve keeps_host_ret keeps_host_bind keeps_host_try
  keeps_host_await keeps_host_now keeps_host_getState keeps_host_if : frame.
#[export] Hint Resolve never_throws_ret never_throws_bind never_throws_try
  never_throws_now never_throws_getState never_throws_setState
  never_throws_log never_throws_if : frame.

(** ** The admission gates of [deploy_memecoin] *)

Section Admission.

Context {Ext : Type}.
Variable sys : Collaborators Ext.
Variable config : Config.t.
Variable js : Builtins.
Variable walletAddress : string.

Local Abbreviation getTreasuryState := (Skill.getTreasuryState sys walletAddress).
Local Abbreviation deploy_memecoin :=
  (Skill.deploy_memecoin sys config js walletAddress).
Local Abbreviation solvency_gate := (Skill.solvency_gate sys config js).
Local Abbreviation cooldown_gate := (Skill.cooldown_gate sys config).
Local Abbreviation deploy_and_record := (Skill.deploy_and_record sys config).
Local Abbreviation run_deployer := (Skill.run_deployer sys config).
Local Abbreviation record_deployment := (Skill.record_deployment sys).
Local Abbreviation msg_max_concurrent := (Skill.msg_max_concurrent config).
Local Abbreviation msg_insufficient_sol := (Skill.msg_insufficient_sol js).
Local Abbreviation totalCost := Skill.totalCost.
Local Abbreviation activeCount := Skill.activeCount.
Local Abbreviation msg_cooldown := Skill.msg_cooldown.
Local Abbreviation method_of := Skill.method_of.
Local Abbreviation recorded := (recorded sys).

Lemma getTreasuryState_keeps_host : keeps_host getTreasuryState.
Proof. unfold Skill.getTreasuryState. auto 10 with frame. Qed.

Lemma run_deployer_keeps_host params method :
  keeps_host (run_deployer params method).
Proof.
  unfold Skill.run_deployer, Skill.deploy_direct_with_pool, Skill.attach_pool.
  destruct (DeployParams.lpSol params); auto 10 with frame.
Qed.

(** The three rejection texts start with different letters, so no two of
    them are equal, whatever numbers they carry. *)
Lemma rejections_distinct cost available waitMin :
  msg_max_concurrent <> msg_insufficient_sol cost available
  /\ msg_max_concurrent <> msg_cooldown waitMin
  /\ msg_insufficient_sol cost available <> msg_cooldown waitMin.
Proof.
  unfold Skill.msg_max_concurrent, Skill.msg_insufficient_sol,
    Skill.msg_cooldown.
  repeat split; simpl; discriminate.
Qed.

(** What the handler does once the treasury query has returned. *)
Lemma deploy_memecoin_after_query params w treasury w1 :
  getTreasuryState w = (Returned treasury, w1) ->
  deploy_memecoin params w =
    if (Config.maxConcurrentTokens config
        <=? activeCount (JS.or_array (HostState.deployedTokens (World.state w))))%Z
    then (Returned (ErrorResult msg_max_concurrent), w1)
    else solvency_gate params treasury w1.
Proof.
  intros H. unfold Skill.deploy_memecoin.
  rewrite (bind_Returned _ _ _ _ _ H).
  unfold bind at 1. simpl.
  destruct (getTreasuryState_keeps_host _ _ _ H) as [-> _].
  destruct (_ <=? _)%Z; reflexivity.
Qed.


(** The cooldown gate in closed form: one reading of the clock decides, a
    second one is taken for the text of the rejection. *)
Lemma cooldown_gate_eq params cost w :
  cooldown_gate params cost w =
    let lastDeploy :=
      JS.or_int (HostState.lastDeployTimestamp (World.state w)) 0 in
    let e1 := snd (Date_now sys (World.ext w)) in
    if (clock_reading sys 0 (World.ext w) - lastDeploy
        <? Config.deployCooldownMs config)%Z
    then
      (Returned
         (ErrorResult
            (msg_cooldown
               (JS.Math_ceil_div
                  (Config.deployCooldownMs config
                   - (clock_reading sys 1 (World.ext w) - lastDeploy))
                  60000))),
       World.make (World.state w) (World.logs w) (snd (Date_now sys e1)))
    else
      deploy_and_record params cost
        (World.make (World.state w) (World.logs w) e1).
Proof.
  unfold Skill.cooldown_gate.
  rewrite (bind_Returned getState _ w (World.state w) w eq_refl).
  rewrite (bind_Returned (now sys) _ _ _ _ (now_eq sys w)).
  cbv zeta. unfold clock_reading. cbn [Nat.iter].
  destruct (_ <? _)%Z; [|reflexivity].
  rewrite (bind_Returned (now sys) _ _ _ _ (now_eq sys _)). reflexivity.
Qed.

(** The gates of a request whose pre-flight query has returned.  They are
    tried in the order concurrency, solvency, cooldown.  The first one that
    fails ends the call with its own text, the state and the log being as
    they were; the three texts are pairwise different; the cooldown text
    carries the least whole number of minutes that covers the remaining
    wait. *)
Theorem gates_checked_in_order params w treasury w1 :
  getTreasuryState w = (Returned treasury, w1) ->
  let msg_max_concurrent :=
    ("Max concurrent tokens ("
     ++ JS.show_int (Config.maxConcurrentTokens config)
     ++ ") reached. Harvest or retire tokens first.")%string in
  let msg_insufficient_sol := fun need available : float =>
    ("Insufficient SOL. Need " ++ Number_toString js need ++ " but only "
     ++ Number_toString js available
     ++ " available after survival reserve.")%string in
  let msg_cooldown := fun waitMin : Z =>
    ("Cooldown active. Wait " ++ JS.show_int waitMin
     ++ " more minutes.")%string in
  let tokens := JS.or_array (HostState.deployedTokens (World.state w)) in
  let cost := totalCost params in
  let available :=
    (Treasury.solBalance treasury - Config.survivalReserveSol config)%float in
  let short :=
    (Treasury.solBalance treasury - cost <? Config.survivalReserveSol config)%float in
  let lastDeploy :=
    JS.or_int (HostState.lastDeployTimestamp (World.state w)) 0 in
  let t1 := clock_reading sys 0 (World.ext w1) in
  let t2 := clock_reading sys 1 (World.ext w1) in
  let remaining := (Config.deployCooldownMs config - (t2 - lastDeploy))%Z in
  let waitMin := JS.Math_ceil_div remaining 60000 in
  (World.state w1 = World.state w /\ World.logs w1 = World.logs w)
  /\ ((Config.maxConcurrentTokens config <= activeCount tokens)%Z ->
      deploy_memecoin params w = (Returned (ErrorResult msg_max_concurrent), w1))
  /\ ((activeCount tokens < Config.maxConcurrentTokens config)%Z ->
      short = true ->
      deploy_memecoin params w =
        (Returned (ErrorResult (msg_insufficient_sol cost available)), w1))
  /\ ((activeCount tokens < Config.maxConcurrentTokens config)%Z ->
      short = false ->
      (t1 - lastDeploy < Config.deployCooldownMs config)%Z ->
      exists w2,
        deploy_memecoin params w = (Returned (ErrorResult (msg_cooldown waitMin)), w2)
        /\ World.state w2 = World.state w /\ World.logs w2 = World.logs w
        /\ (60000 * (waitMin - 1) < remaining <= 60000 * waitMin)%Z)
  /\ ((activeCount tokens < Config.maxConcurrentTokens config)%Z ->
      short = false ->
      (Config.deployCooldownMs config <= t1 - lastDeploy)%Z ->
      exists w2,
        deploy_memecoin params w = deploy_and_record params cost w2
        /\ World.state w2 = World.state w /\ World.logs w2 = World.logs w)
  /\ (forall c a m,
        msg_max_concurrent <> msg_insufficient_sol c a
        /\ msg_max_concurrent <> msg_cooldown m
        /\ msg_insufficient_sol c a <> msg_cooldown m).
Proof.
  intros Hq text_max text_short text_cooldown
    tokens cost available short lastDeploy t1 t2 remaining waitMin.
  destruct (getTreasuryState_keeps_host _ _ _ Hq) as [Hst Hlg].
  pose proof (deploy_memecoin_after_query params _ _ _ Hq) as Hdm.
  fold tokens in Hdm.
  assert (Hpass : (activeCount tokens < Config.maxConcurrentTokens config)%Z ->
                  deploy_memecoin params w = solvency_gate params treasury w1).
  { intros Hc. rewrite Hdm.
    destruct (Z.leb_spec (Config.maxConcurrentTokens config) (activeCount tokens));
      [lia | reflexivity]. }
  assert (Hsolv : (activeCount tokens < Config.maxConcurrentTokens config)%Z ->
                  short = false ->
                  deploy_memecoin params w = cooldown_gate params cost w1).
  { intros Hc Hs. rewrite (Hpass Hc). unfold Skill.solvency_gate.
    fold cost. fold short. now rewrite Hs. }
  split; [now split|]. split; [|split; [|split; [|split]]].
  - intros Hc. rewrite Hdm.
    destruct (Z.leb_spec (Config.maxConcurrentTokens config) (activeCount tokens));
      [reflexivity | lia].
  - intros Hc Hs. rewrite (Hpass Hc). unfold Skill.solvency_gate.
    fold cost. fold short. now rewrite Hs.
  - intros Hc Hs Hcool. rewrite (Hsolv Hc Hs), cooldown_gate_eq.
    cbv zeta. rewrite Hst. fold lastDeploy. fold t1. fold t2.
    destruct (Z.ltb_spec (t1 - lastDeploy) (Config.deployCooldownMs config));
      [|lia].
    eexists. split; [reflexivity|]. cbn [World.state World.logs].
    split; [reflexivity|]. split; [exact Hlg|].
    apply Math_ceil_div_spec. lia.
  - intros Hc Hs Hcool. rewrite (Hsolv Hc Hs), cooldown_gate_eq.
    cbv zeta. rewrite Hst. fold lastDeploy. fold t1.
    destruct (Z.ltb_spec (t1 - lastDeploy) (Config.deployCooldownMs config));
      [lia|].
    eexists. split; [reflexivity|]. cbn [World.state World.logs].
    split; [reflexivity | exact Hlg].
  - intros c a m. exact (rejections_distinct c a m).
Qed.

(** *** Deployment and bookkeeping *)

Lemma record_deployment_eq params cost result w :
  record_deployment params (method_of params) cost result w =
    (Returned tt, recorded params cost result w).
Proof.
  unfold Skill.record_deployment, recorded.
  rewrite (bind_Returned (now sys) _ _ _ _ (now_eq sys w)).
  unfold bind, getState, setState, log. cbn [World.state World.logs World.ext].
  rewrite now_eq. reflexivity.
Qed.

(** The deployment stage in closed form: the outcome of the deployer decides
    between recording a position and reporting the failure. *)
Lemma deploy_and_record_eq params cost w :
  deploy_and_record params cost w =
    match run_deployer params (method_of params) w with
    | (Returned result, w3) =>
        (Returned (DeploySuccess result), recorded params cost result w3)
    | (Thrown message, w3) =>
        (Returned (ErrorResult message),
         World.make (World.state w3)
           (World.logs w3 ++ [("[conway-deploy] Deploy failed: " ++ message)%string])%list
           (World.ext w3))
    end.
Proof.
  unfold Skill.deploy_and_record. cbv zeta.
  unfold try_catch. unfold bind at 1.
  destruct (run_deployer params (method_of params) w) as [[result|message] w3].
  - unfold bind. rewrite record_deployment_eq. reflexivity.
  - reflexivity.
Qed.

(** Once the three gates are passed, the request is the deployment stage
    on the state of the call, one clock reading later. *)
Lemma deploy_memecoin_admitted params w treasury w1 :
  getTreasuryState w = (Returned treasury, w1) ->
  (activeCount (JS.or_array (HostState.deployedTokens (World.state w)))
   < Config.maxConcurrentTokens config)%Z ->
  (Treasury.solBalance treasury - totalCost params
   <? Config.survivalReserveSol config)%float = false ->
  (Config.deployCooldownMs config
   <= clock_reading sys 0 (World.ext w1)
      - JS.or_int (HostState.lastDeployTimestamp (World.state w)) 0)%Z ->
  deploy_memecoin params w
  = deploy_and_record params (totalCost params)
      (World.make (World.state w) (World.logs w)
         (snd (Date_now sys (World.ext w1)))).
Proof.
  intros Hq Hmax Hshort Hcool.
  destruct (getTreasuryState_keeps_host _ _ _ Hq) as [Hst Hlg].
  rewrite (deploy_memecoin_after_query params _ _ _ Hq).
  destruct (Z.leb_spec (Config.maxConcurrentTokens config)
              (activeCount (JS.or_array (HostState.deployedTokens (World.state w)))));
    [lia|].
  unfold Skill.solvency_gate. rewrite Hshort.
  rewrite cooldown_gate_eq. cbv zeta. rewrite Hst, Hlg.
  destruct (Z.ltb_spec
              (clock_reading sys 0 (World.ext w1)
               - JS.or_int (HostState.lastDeployTimestamp (World.state w)) 0)
              (Config.deployCooldownMs config)); [lia|reflexivity].
Qed.

Lemma attach_pool_not_wanted params result :
  match DeployParams.lpSol params with
  | Some lpSol => Config.raydiumEnabled config && JS.truthy lpSol
  | None => false
  end = false ->
  Skill.attach_pool sys config params result = ret result.
Proof.
  unfold Skill.attach_pool.
  destruct (DeployParams.lpSol params) as [lpSol|]; [|reflexivity].
  now intros ->.
Qed.

Lemma attach_pool_wanted params result lpSol :
  DeployParams.lpSol params = Some lpSol ->
  Config.raydiumEnabled config && JS.truthy lpSol = true ->
  Skill.attach_pool sys config params result
  = bind (await (createPool sys (DeployResult.mint result) lpSol))
      (fun lpResult =>
         ret (DeployResult.with_lpAddress
                (PoolCreateResult.poolAddress lpResult) result)).
Proof.
  unfold Skill.attach_pool. now intros -> ->.
Qed.

(** C3.  Write [recorded_world result e] for the world a recorded
    deployment leaves: the registry with one more record (the mint, supply,
    retained amount and pool address of [result], the name and symbol of
    the request, its method or ["pumpfun"], the next clock reading as
    [deployedAt], no fees, [status = "active"]), [lastDeployTimestamp] set
    to the clock reading after that, [totalInvested] increased by the cost
    of the request, and one line logged; and [failed_world message e] for
    the state of the call with the failure logged.
    (a) A call that does not return success leaves [deployedTokens],
    [lastDeployTimestamp] and [totalInvested] (the whole state) as they
    were.  (b) A call that returns success has run the deployer to that
    result and has left the recorded world.  (c) When the gates are passed:
    on the pump.fun path, [deployViaPumpFun] returning is success and the
    recorded world, and its throwing is [{ error }] with that message and
    the failed world; on the direct path the same holds of [deployDirect]
    when no pool is asked for, and when one is asked for, of [createPool]
    after it: a pool that is created is recorded as [lpAddress], and a
    pool that fails is [{ error }] with its message and the failed world,
    nothing being recorded of the mint.  In every case the outside world is
    the one the last collaborator call left, read twice by the clock on
    success: nothing is called again. *)
Theorem deploy_failure_leaves_ledger params w :
  let state := World.state w in
  let tokens := JS.or_array (HostState.deployedTokens state) in
  let method :=
    match DeployParams.method params with Some m => m | None => pumpfun end in
  let cost :=
    (JS.or_number (DeployParams.initialBuySol params) 0.5
     + JS.or_number (DeployParams.lpSol params) 1.0 + 0.05)%float in
  let via_pumpfun := Method_eqb method pumpfun && Config.pumpfunEnabled config in
  let pool_wanted :=
    match DeployParams.lpSol params with
    | Some lpSol => Config.raydiumEnabled config && JS.truthy lpSol
    | None => false
    end in
  let recorded_world := fun (result : DeployResult.t) (e : Ext) =>
    World.make
      (HostState.make
         (Some (tokens
                ++ [DeployedToken.make (DeployResult.mint result)
                      (DeployParams.name params) (DeployParams.symbol params)
                      method (clock_reading sys 0 e)
                      (DeployResult.lpAddress result)
                      (DeployResult.supply result)
                      (DeployResult.retainedAmount result) 0%float active])%list)
         (Some (clock_reading sys 1 e))
         (Some (JS.or_number (HostState.totalInvested state) 0 + cost)%float)
         (HostState.totalEarned state))
      (World.logs w
       ++ [("[conway-deploy] Deployed " ++ DeployParams.symbol params ++ ": "
            ++ DeployResult.mint result)%string])%list
      (snd (Date_now sys (snd (Date_now sys e)))) in
  let failed_world := fun (message : string) (e : Ext) =>
    World.make state
      (World.logs w
       ++ [("[conway-deploy] Deploy failed: " ++ message)%string])%list e in
  (* (a) *)
  ((forall result,
      fst (deploy_memecoin params w) <> Returned (DeploySuccess result)) ->
   World.state (snd (deploy_memecoin params w)) = state)
  /\ (* (b) *)
  (forall result,
     fst (deploy_memecoin params w) = Returned (DeploySuccess result) ->
     exists w2 w3,
       World.state w2 = state
       /\ run_deployer params method w2 = (Returned result, w3)
       /\ snd (deploy_memecoin params w) = recorded_world result (World.ext w3))
  /\ (* (c) *)
  (forall treasury w1,
     getTreasuryState w = (Returned treasury, w1) ->
     (Z.of_nat (List.length (filter DeployedToken.is_active tokens))
      < Config.maxConcurrentTokens config)%Z ->
     (Treasury.solBalance treasury - cost
      <? Config.survivalReserveSol config)%float = false ->
     (Config.deployCooldownMs config
      <= clock_reading sys 0 (World.ext w1)
         - JS.or_int (HostState.lastDeployTimestamp state) 0)%Z ->
     let e2 := snd (Date_now sys (World.ext w1)) in
     (via_pumpfun = true ->
      (forall result e3,
         deployViaPumpFun sys params e2 = (Returned result, e3) ->
         deploy_memecoin params w
         = (Returned (DeploySuccess result), recorded_world result e3))
      /\ (forall message e3,
            deployViaPumpFun sys params e2 = (Thrown message, e3) ->
            deploy_memecoin params w
            = (Returned (ErrorResult message), failed_world message e3)))
     /\ (via_pumpfun = false ->
         (forall message e3,
            deployDirect sys params e2 = (Thrown message, e3) ->
            deploy_memecoin params w
            = (Returned (ErrorResult message), failed_world message e3))
         /\ (forall result e3,
               deployDirect sys params e2 = (Returned result, e3) ->
               (pool_wanted = false ->
                deploy_memecoin params w
                = (Returned (DeploySuccess result), recorded_world result e3))
               /\ (forall lpSol,
                     DeployParams.lpSol params = Some lpSol ->
                     pool_wanted = true ->
                     (forall pool e4,
                        createPool sys (DeployResult.mint result) lpSol e3
                        = (Returned pool, e4) ->
                        let result' :=
                          DeployResult.make (DeployResult.mint result)
                            (DeployResult.supply result)
                            (DeployResult.retainedAmount result)
                            (Some (PoolCreateResult.poolAddress pool))
                            (DeployResult.txSignature result) in
                        deploy_memecoin params w
                        = (Returned (DeploySuccess result'),
                           recorded_world result' e4))
                     /\ (forall message e4,
                           createPool sys (DeployResult.mint result) lpSol e3
                           = (Thrown message, e4) ->
                           deploy_memecoin params w
                           = (Returned (ErrorResult message),
                              failed_world message e4)))))).
Proof.
  intros state tokens method cost via_pumpfun pool_wanted recorded_world
    failed_world.
  assert (Hrec : forall result w3,
            World.state w3 = state -> World.logs w3 = World.logs w ->
            recorded params cost result w3
            = recorded_world result (World.ext w3)).
  { intros result [s3 l3 e3].
    cbn [World.state World.logs World.ext]. intros Hs Hl. subst s3 l3.
    reflexivity. }
  assert (Hfail : forall message w3,
            World.state w3 = state -> World.logs w3 = World.logs w ->
            World.make (World.state w3)
              (World.logs w3
               ++ [("[conway-deploy] Deploy failed: " ++ message)%string])%list
              (World.ext w3)
            = failed_world message (World.ext w3)).
  { intros message w3 Hs Hl. unfold failed_world. now rewrite Hs, Hl. }
  split; [|split].
  - (* (a) *)
    destruct (getTreasuryState w) as [[treasury|e] w1] eqn:Hq.
    2:{ unfold Skill.deploy_memecoin. rewrite (bind_Thrown _ _ _ _ _ Hq).
        intros _. exact (proj1 (getTreasuryState_keeps_host _ _ _ Hq)). }
    destruct (getTreasuryState_keeps_host _ _ _ Hq) as [Hst Hlg].
    rewrite (deploy_memecoin_after_query params _ _ _ Hq).
    destruct (_ <=? _)%Z; [intros _; exact Hst|].
    unfold Skill.solvency_gate.
    destruct (_ <? _)%float; [intros _; exact Hst|].
    rewrite cooldown_gate_eq. cbv zeta.
    destruct (_ <? _)%Z; [intros _; exact Hst|].
    rewrite deploy_and_record_eq.
    match goal with
    | |- context [run_deployer params ?m ?w0] =>
        destruct (run_deployer params m w0) as [[result|message] w3] eqn:Hrun
    end.
    + intros Hno. exfalso. now apply (Hno result).
    + intros _. destruct (run_deployer_keeps_host _ _ _ _ _ Hrun) as [Hst3 _].
      cbn [snd World.state] in *. unfold state. congruence.
  - (* (b) *)
    intros result.
    destruct (getTreasuryState w) as [[treasury|e] w1] eqn:Hq.
    2:{ unfold Skill.deploy_memecoin. rewrite (bind_Thrown _ _ _ _ _ Hq).
        discriminate. }
    destruct (getTreasuryState_keeps_host _ _ _ Hq) as [Hst Hlg].
    rewrite (deploy_memecoin_after_query params _ _ _ Hq).
    destruct (_ <=? _)%Z; [discriminate|].
    unfold Skill.solvency_gate.
    destruct (_ <? _)%float; [discriminate|].
    rewrite cooldown_gate_eq. cbv zeta.
    destruct (_ <? _)%Z; [discriminate|].
    rewrite deploy_and_record_eq.
    match goal with
    | |- context [run_deployer params ?m ?w0] =>
        destruct (run_deployer params m w0) as [[result'|message] w3] eqn:Hrun;
        [|discriminate];
        destruct (run_deployer_keeps_host _ _ _ _ _ Hrun) as [Hst3 Hlg3];
        intros H; inversion H; subst result'; exists w0, w3
    end.
    cbn [World.state World.logs snd] in *.
    split; [exact Hst|]. split; [exact Hrun|].
    apply Hrec; unfold state; congruence.
  - (* (c) *)
    intros treasury w1 Hq Hmax Hshort Hcool e2.
    pose proof (deploy_memecoin_admitted params w treasury w1 Hq Hmax Hshort Hcool)
      as Hdm.
    fold e2 in Hdm. rewrite Hdm, deploy_and_record_eq.
    unfold Skill.run_deployer.
    change (Method_eqb (method_of params) pumpfun && Config.pumpfunEnabled config)
      with via_pumpfun.
    split.
    + intros Hvia. rewrite Hvia. unfold await. cbn [World.ext World.state World.logs].
      split.
      * intros result e3 Hcall. rewrite Hcall.
        reflexivity.
      * intros message e3 Hcall. rewrite Hcall. reflexivity.
    + intros Hvia. rewrite Hvia.
      unfold Skill.deploy_direct_with_pool, bind, await.
      cbn [World.ext World.state World.logs].
      split.
      * intros message e3 Hcall. rewrite Hcall. reflexivity.
      * intros result e3 Hcall. rewrite Hcall.
        split.
        -- intros Hno. rewrite (attach_pool_not_wanted params result Hno).
           reflexivity.
        -- intros lpSol Hlp Hyes. unfold pool_wanted in Hyes.
           rewrite Hlp in Hyes.
           rewrite (attach_pool_wanted params result lpSol Hlp Hyes).
           unfold bind, await, ret. cbn [World.ext World.state World.logs].
           split.
           ++ intros pool e4 Hpool. cbv zeta. rewrite Hpool. reflexivity.
           ++ intros message e4 Hpool. rewrite Hpool. reflexivity.
Qed.

End Admission.

(** ** The fee harvest *)

Section Harvest.

Context {Ext : Type}.
Variable sys : Collaborators Ext.
Variable config : Config.t.
Variable js : Builtins.
Variable walletAddress : string.

Local Abbreviation scan_signatures := (Skill.scan_signatures sys walletAddress).
Local Abbreviation checkPumpFunCreatorFees :=
  (Skill.checkPumpFunCreatorFees sys walletAddress).
Local Abbreviation collect_lp := (Skill.collect_lp sys).
Local Abbreviation creator_fees := (Skill.creator_fees sys walletAddress).
Local Abbreviation harvest_token := (Skill.harvest_token sys walletAddress).
Local Abbreviation harvest_loop := (Skill.harvest_loop sys walletAddress).
Local Abbreviation harvest := (Skill.harvest sys walletAddress).
Local Abbreviation harvest_fees := (Skill.harvest_fees sys config js walletAddress).
Local Abbreviation fee_harvest := (Skill.fee_harvest sys js walletAddress).
Local Abbreviation push_entry := Skill.push_entry.
Local Abbreviation in_scope := Skill.in_scope.
Local Abbreviation target_of := Skill.target_of.
Local Abbreviation creatorShare := (Skill.creatorShare config).

Local Abbreviation no_harvest := Skill.no_harvest.

(** *** The queries keep the host and never throw *)

Lemma scan_signatures_keeps_host sigs total :
  keeps_host (scan_signatures sigs total).
Proof.
  revert total. induction sigs as [|sig rest IH]; intros total; cbn.
  - auto with frame.
  - apply keeps_host_bind; [auto with frame|].
    intros [tx|]; [|apply IH].
    destruct (Skill.balanceChange walletAddress tx); [|apply IH].
    destruct (_ && _); apply IH.
Qed.

Lemma checkPumpFunCreatorFees_keeps_host mint :
  keeps_host (checkPumpFunCreatorFees mint).
Proof.
  unfold Skill.checkPumpFunCreatorFees.
  apply keeps_host_try; [|auto with frame].
  apply keeps_host_bind; [auto with frame|].
  intros sigs. apply scan_signatures_keeps_host.
Qed.

Lemma checkPumpFunCreatorFees_never_throws mint :
  never_throws (checkPumpFunCreatorFees mint).
Proof. unfold Skill.checkPumpFunCreatorFees. auto with frame. Qed.

Lemma creator_fees_keeps_host token : keeps_host (creator_fees token).
Proof.
  unfold Skill.creator_fees.
  apply keeps_host_if; [apply checkPumpFunCreatorFees_keeps_host|auto with frame].
Qed.

Lemma creator_fees_never_throws token : never_throws (creator_fees token).
Proof.
  unfold Skill.creator_fees.
  apply never_throws_if;
    [apply checkPumpFunCreatorFees_never_throws|auto with frame].
Qed.

Lemma collect_lp_keeps_host token : keeps_host (collect_lp token).
Proof.
  unfold Skill.collect_lp.
  destruct (DeployedToken.lpAddress token); auto 10 with frame.
Qed.

Lemma collect_lp_never_throws token : never_throws (collect_lp token).
Proof.
  unfold Skill.collect_lp.
  destruct (DeployedToken.lpAddress token); auto 10 with frame.
Qed.

Lemma harvest_token_keeps_host token : keeps_host (harvest_token token).
Proof.
  unfold Skill.harvest_token.
  apply keeps_host_bind; [apply collect_lp_keeps_host|]. intros lp.
  apply keeps_host_bind; [apply creator_fees_keeps_host|]. auto with frame.
Qed.

Lemma harvest_token_never_throws token : never_throws (harvest_token token).
Proof.
  unfold Skill.harvest_token.
  apply never_throws_bind; [apply collect_lp_never_throws|]. intros lp.
  apply never_throws_bind; [apply creator_fees_never_throws|]. auto with frame.
Qed.

Lemma harvest_loop_keeps_host tokens acc : keeps_host (harvest_loop tokens acc).
Proof.
  revert acc. induction tokens as [|token rest IH]; intros acc; cbn.
  - auto with frame.
  - apply keeps_host_bind; [apply harvest_token_keeps_host|]. intros x. apply IH.
Qed.

Lemma harvest_loop_never_throws tokens acc :
  never_throws (harvest_loop tokens acc).
Proof.
  revert acc. induction tokens as [|token rest IH]; intros acc; cbn.
  - auto with frame.
  - apply never_throws_bind; [apply harvest_token_never_throws|].
    intros x. apply IH.
Qed.

(** *** The accumulators *)

Lemma harvest_loop_app l1 l2 acc w :
  harvest_loop (l1 ++ l2) acc w
  = bind (harvest_loop l1 acc) (fun acc' => harvest_loop l2 acc') w.
Proof.
  revert acc w. induction l1 as [|token rest IH]; intros acc w; cbn.
  - reflexivity.
  - unfold bind at 1. unfold bind at 1 in IH. unfold bind.
    destruct (harvest_token token w) as [[x|e] w1]; [apply IH | reflexivity].
Qed.

(** The total of the accumulators is the total they started from, with the
    new entries added in order; one entry is added per position. *)
Lemma harvest_loop_accumulates tokens acc w r w' :
  harvest_loop tokens acc w = (Returned r, w') ->
  exists entries,
    HarvestResult.breakdown r = (HarvestResult.breakdown acc ++ entries)%list
    /\ List.length entries = List.length tokens
    /\ HarvestResult.totalHarvested r =
         fold_left
           (fun total e =>
              (total + (BreakdownEntry.lpFees e + BreakdownEntry.creatorFees e))%float)
           entries (HarvestResult.totalHarvested acc).
Proof.
  revert acc w. induction tokens as [|token rest IH]; intros acc w; cbn.
  - intros H. inversion H; subst. exists []. now rewrite app_nil_r.
  - unfold bind. destruct (harvest_token token w) as [[x|e] w1]; [|discriminate].
    intros H. destruct (IH _ _ H) as (entries & Hb & Hl & Ht).
    exists (fst x :: entries). cbn in *.
    rewrite Hb, <- app_assoc. cbn. now rewrite Hl, Ht.
Qed.

Lemma harvest_total_is_sum target tokens w r w' :
  harvest target tokens w = (Returned r, w') ->
  HarvestResult.totalHarvested r = sum_breakdown (HarvestResult.breakdown r)
  /\ List.length (HarvestResult.breakdown r)
     = List.length (in_scope target tokens).
Proof.
  unfold Skill.harvest. intros H.
  destruct (harvest_loop_accumulates _ _ _ _ _ H) as (entries & Hb & Hl & Ht).
  cbn in Hb, Ht. rewrite Hb, Ht, Hl. now split.
Qed.

Lemma harvest_never_throws target tokens : never_throws (harvest target tokens).
Proof. apply harvest_loop_never_throws. Qed.

Lemma harvest_keeps_host target tokens : keeps_host (harvest target tokens).
Proof. apply harvest_loop_keeps_host. Qed.

(** *** The tool *)

(** [harvest_fees] in closed form: the ledger is written before the payout
    is attempted, and nothing undoes it. *)
Lemma harvest_fees_eq tokenMint w result w1 :
  harvest (target_of tokenMint)
    (JS.or_array (HostState.deployedTokens (World.state w))) w
  = (Returned result, w1) ->
  let total := HarvestResult.totalHarvested result in
  let st' :=
    HostState.set_totalEarned
      (JS.or_number (HostState.totalEarned (World.state w)) 0 + total)%float
      (World.state w) in
  harvest_fees tokenMint w =
    if (0 <? total)%float && (0 <? Config.creatorFeeSplit config)%float
    then
      match sendSol sys (Config.creatorAddress config) (creatorShare total)
              (World.ext w1) with
      | (Returned _, e) =>
          (Returned (HarvestPayload result),
           World.make st'
             (World.logs w
              ++ [("[conway-deploy] Sent "
                   ++ Number_toString js (creatorShare total)
                   ++ " SOL to creator")%string])%list e)
      | (Thrown message, e) =>
          (Returned (ErrorResult message), World.make st' (World.logs w) e)
      end
    else (Returned (HarvestPayload result),
          World.make st' (World.logs w) (World.ext w1)).
Proof.
  intros H total st'.
  destruct (harvest_keeps_host _ _ _ _ _ H) as [Hst Hlg].
  unfold Skill.harvest_fees, try_catch.
  rewrite (bind_Returned getState _ w (World.state w) w eq_refl).
  rewrite (bind_Returned _ _ _ _ _ H). fold total.
  unfold bind at 1. unfold getState at 1.
  unfold bind at 1. unfold setState at 1. rewrite Hst, Hlg. fold st'.
  destruct ((0 <? total)%float && (0 <? Config.creatorFeeSplit config)%float).
  - unfold bind, await, log. cbn [World.ext World.state World.logs].
    destruct (sendSol sys (Config.creatorAddress config) (creatorShare total)
                (World.ext w1)) as [[sig|message] e]; reflexivity.
  - destruct w1; reflexivity.
Qed.

(** C6.  The harvest of a [harvest_fees] call always returns; its total is
    the sum of its breakdown; and afterwards [totalEarned] is its former
    value (or 0) plus that sum, whether the payout was not due, went
    through (the tool returns the harvest) or threw (the tool returns
    [{ error }] with the ledger written all the same). *)
Theorem harvest_fees_updates_ledger tokenMint w :
  exists result w1,
    harvest (target_of tokenMint)
      (JS.or_array (HostState.deployedTokens (World.state w))) w
    = (Returned result, w1)
    /\ HarvestResult.totalHarvested result
       = sum_breakdown (HarvestResult.breakdown result)
    /\ HostState.totalEarned (World.state (snd (harvest_fees tokenMint w)))
       = Some (JS.or_number (HostState.totalEarned (World.state w)) 0
               + sum_breakdown (HarvestResult.breakdown result))%float
    /\ (fst (harvest_fees tokenMint w) = Returned (HarvestPayload result)
        \/ exists message e,
             sendSol sys (Config.creatorAddress config)
               (creatorShare (HarvestResult.totalHarvested result))
               (World.ext w1) = (Thrown message, e)
             /\ fst (harvest_fees tokenMint w) = Returned (ErrorResult message)).
Proof.
  destruct (harvest_never_throws (target_of tokenMint)
              (JS.or_array (HostState.deployedTokens (World.state w))) w)
    as (result & w1 & H).
  exists result, w1. split; [exact H|].
  destruct (harvest_total_is_sum _ _ _ _ _ H) as [Hsum _].
  split; [exact Hsum|].
  rewrite (harvest_fees_eq _ _ _ _ H). cbv zeta. rewrite <- Hsum.
  destruct (_ && _).
  - destruct (sendSol sys (Config.creatorAddress config) _ (World.ext w1))
      as [[sig|message] e] eqn:E; cbn [fst snd World.state]; split;
      try reflexivity.
    + now left.
    + right. now exists message, e.
  - cbn [fst snd World.state]. split; [reflexivity | now left].
Qed.

(** The [fee_harvest] heartbeat writes at most the same key. *)
Lemma fee_harvest_writes w :
  World.state (snd (fee_harvest w)) = World.state w
  \/ exists earned,
       World.state (snd (fee_harvest w))
       = HostState.set_totalEarned earned (World.state w).
Proof.
  unfold Skill.fee_harvest.
  rewrite (bind_Returned getState _ w (World.state w) w eq_refl).
  destruct (_ =? _)%nat; [now left|].
  unfold try_catch.
  match goal with
  | |- context [bind (harvest ?t ?l) _ w] =>
      destruct (harvest_never_throws t l w) as (result & w1 & H);
      destruct (harvest_keeps_host _ _ _ _ _ H) as [Hst Hlg]
  end.
  rewrite (bind_Returned _ _ _ _ _ H).
  destruct (0 <? _)%float.
  - right. unfold bind, log, getState, setState.
    cbn [fst snd World.state]. rewrite Hst. now eexists.
  - left. exact Hst.
Qed.

(** C8, as the code has it.  A [harvest_fees] call changes one key of the
    state, [totalEarned]; [deployedTokens] is left as it was, so every
    position keeps its [totalFeesEarned].  The same holds of the
    [fee_harvest] heartbeat. *)
Theorem harvest_fees_keeps_registry tokenMint w :
  (exists earned,
     World.state (snd (harvest_fees tokenMint w))
     = HostState.set_totalEarned earned (World.state w))
  /\ HostState.deployedTokens (World.state (snd (harvest_fees tokenMint w)))
     = HostState.deployedTokens (World.state w)
  /\ map DeployedToken.totalFeesEarned
       (JS.or_array
          (HostState.deployedTokens (World.state (snd (harvest_fees tokenMint w)))))
     = map DeployedToken.totalFeesEarned
         (JS.or_array (HostState.deployedTokens (World.state w)))
  /\ HostState.deployedTokens (World.state (snd (fee_harvest w)))
     = HostState.deployedTokens (World.state w).
Proof.
  destruct (harvest_never_throws (target_of tokenMint)
              (JS.or_array (HostState.deployedTokens (World.state w))) w)
    as (result & w1 & H).
  assert (Hhb : HostState.deployedTokens (World.state (snd (fee_harvest w)))
                = HostState.deployedTokens (World.state w)).
  { destruct (fee_harvest_writes w) as [->|(earned & ->)]; reflexivity. }
  rewrite (harvest_fees_eq _ _ _ _ H). cbv zeta.
  destruct (_ && _).
  - destruct (sendSol sys (Config.creatorAddress config) _ (World.ext w1))
      as [[sig|message] e]; cbn [fst snd World.state];
      (split; [now eexists|]); repeat split; exact Hhb.
  - cbn [fst snd World.state].
    (split; [now eexists|]); repeat split; exact Hhb.
Qed.

(** *** A failing liquidity-fee query *)

Lemma collect_lp_failed token addr w message e1 :
  DeployedToken.lpAddress token = Some addr ->
  addr <> "" ->
  collectFees sys addr (World.ext w) = (Thrown message, e1) ->
  collect_lp token w
  = (Returned (0%float, []), World.make (World.state w) (World.logs w) e1).
Proof.
  intros Hlp Hne Hfail. unfold Skill.collect_lp. rewrite Hlp.
  destruct (String.eqb_spec addr ""); [contradiction|]. cbn [negb].
  unfold try_catch, bind, await. rewrite Hfail. reflexivity.
Qed.

(** C7.  Let the positions in scope be [before ++ token :: after] and let
    the liquidity-fee query of [token] throw.  The harvest still returns.
    The entries of [before] are the ones harvested before the failure; the
    entry of [token] has [lpFees = 0] and the creator fees its own query
    returned; the positions of [after] are harvested on from there as in any
    other run.  The breakdown has one entry per position in scope, and the
    total is the sum over the breakdown. *)
Theorem harvest_isolates_failed_lp_query
  target tokens before token after addr message w r1 w1 e1 :
  in_scope target tokens = (before ++ token :: after)%list ->
  harvest_loop before no_harvest w = (Returned r1, w1) ->
  DeployedToken.lpAddress token = Some addr ->
  addr <> "" ->
  collectFees sys addr (World.ext w1) = (Thrown message, e1) ->
  exists creatorFees w2 r w3,
    let entry :=
      BreakdownEntry.make (DeployedToken.mint token)
        (DeployedToken.symbol token) 0%float creatorFees in
    creator_fees token (World.make (World.state w1) (World.logs w1) e1)
      = (Returned creatorFees, w2)
    /\ harvest target tokens w = (Returned r, w3)
    /\ harvest_loop after (push_entry r1 (entry, [])) w2 = (Returned r, w3)
    /\ (exists rest,
          HarvestResult.breakdown r
          = (HarvestResult.breakdown r1 ++ entry :: rest)%list
          /\ List.length (HarvestResult.breakdown r1) = List.length before
          /\ List.length rest = List.length after)
    /\ List.length (HarvestResult.breakdown r)
       = List.length (in_scope target tokens)
    /\ HarvestResult.totalHarvested r
       = sum_breakdown (HarvestResult.breakdown r).
Proof.
  intros Hscope Hbefore Hlp Hne Hfail.
  destruct (creator_fees_never_throws token
              (World.make (World.state w1) (World.logs w1) e1))
    as (creatorFees & w2 & Hcreator).
  set (entry := BreakdownEntry.make (DeployedToken.mint token)
                  (DeployedToken.symbol token) 0%float creatorFees).
  destruct (harvest_loop_never_throws after (push_entry r1 (entry, [])) w2)
    as (r & w3 & Hafter).
  assert (Htoken : harvest_token token w1 = (Returned (entry, []), w2)).
  { unfold Skill.harvest_token.
    rewrite (bind_Returned _ _ _ _ _ (collect_lp_failed _ _ _ _ _ Hlp Hne Hfail)).
    cbn [fst snd]. now rewrite (bind_Returned _ _ _ _ _ Hcreator). }
  assert (Hall : harvest target tokens w = (Returned r, w3)).
  { unfold Skill.harvest. rewrite Hscope, harvest_loop_app.
    rewrite (bind_Returned _ _ _ _ _ Hbefore). cbn [Skill.harvest_loop].
    now rewrite (bind_Returned _ _ _ _ _ Htoken). }
  exists creatorFees, w2, r, w3. cbv zeta. fold entry.
  split; [exact Hcreator|]. split; [exact Hall|]. split; [exact Hafter|].
  destruct (harvest_total_is_sum _ _ _ _ _ Hall) as [Hsum Hlen].
  split; [|now split].
  destruct (harvest_loop_accumulates _ _ _ _ _ Hafter) as (rest & Hb & Hl & _).
  destruct (harvest_loop_accumulates _ _ _ _ _ Hbefore) as (first & Hb1 & Hl1 & _).
  exists rest. split; [|split; [|exact Hl]].
  - rewrite Hb. cbn. now rewrite <- app_assoc.
  - rewrite Hb1. exact Hl1.
Qed.

End Harvest.

(** ** The survival tier *)

Section Survival.

Context {Ext : Type}.
Variable sys : Collaborators Ext.
Variable js : Builtins.

Local Abbreviation checkStatus := (Skill.checkStatus sys js).
Local Abbreviation determine_tier := Skill.determine_tier.

Local Open Scope float_scope.

(** The thresholds, in the order the code tries them. *)
Lemma tier_of_thresholds (credits : float) :
  (tier_of credits = normal <->
     (24 * Skill.CONWAY_COST_PER_HOUR_NORMAL <? credits) = true)
  /\ (tier_of credits = low_compute <->
        (24 * Skill.CONWAY_COST_PER_HOUR_NORMAL <? credits) = false
        /\ (12 * Skill.CONWAY_COST_PER_HOUR_LOW <? credits) = true)
  /\ (tier_of credits = critical <->
        (24 * Skill.CONWAY_COST_PER_HOUR_NORMAL <? credits) = false
        /\ (12 * Skill.CONWAY_COST_PER_HOUR_LOW <? credits) = false
        /\ (0 <? credits) = true)
  /\ (tier_of credits = tier_dead <->
        (24 * Skill.CONWAY_COST_PER_HOUR_NORMAL <? credits) = false
        /\ (12 * Skill.CONWAY_COST_PER_HOUR_LOW <? credits) = false
        /\ (0 <? credits) = false).
Proof.
  unfold tier_of, Skill.determine_tier.
  destruct (24 * Skill.CONWAY_COST_PER_HOUR_NORMAL <? credits);
    destruct (12 * Skill.CONWAY_COST_PER_HOUR_LOW <? credits);
    destruct (0 <? credits); cbn [fst];
    repeat split; intros; try discriminate; try tauto;
    repeat match goal with H : _ /\ _ |- _ => destruct H end;
    try discriminate; auto.
Qed.

Lemma checkStatus_tier treasury w :
  exists status w',
    checkStatus treasury w = (Returned status, w')
    /\ SurvivalStatus.tier status = tier_of (Treasury.conwayCredits treasury)
    /\ SurvivalStatus.conwayCredits status = Treasury.conwayCredits treasury.
Proof.
  unfold Skill.checkStatus, tier_of.
  destruct (Skill.determine_tier (Treasury.conwayCredits treasury))
    as [[tier action] costPerHour].
  cbn [fst].
  match goal with
  | |- context [bind ?m ?k] =>
      assert (Hm : never_throws m)
  end.
  { apply never_throws_if; [|auto with frame].
    cbv zeta. apply never_throws_try. auto with frame. }
  destruct (Hm w) as (action' & w' & E).
  eexists _, w'. rewrite (bind_Returned _ _ _ _ _ E).
  split; [reflexivity|]. now split.
Qed.

(** C5, as the code has it.  [checkStatus] always returns, and the tier it
    returns is a function of the credit balance alone, [tier_of]: it does
    not depend on the other balances, on the bridge or on the world.  The
    thresholds are [24 * 0.5] (normal above it), [12 * 0.1] (low_compute
    above it), [0] (critical above it), dead otherwise, so dead at [0].
    For [credits = 11] the tier is low_compute, since [11 > 12 * 0.1]. *)
Theorem survival_tier_function_of_credits :
  (forall treasury w,
     exists status w',
       checkStatus treasury w = (Returned status, w')
       /\ SurvivalStatus.tier status = tier_of (Treasury.conwayCredits treasury))
  /\ (forall credits,
        (tier_of credits = normal <->
           (24 * Skill.CONWAY_COST_PER_HOUR_NORMAL <? credits) = true)
        /\ (tier_of credits = low_compute <->
              (24 * Skill.CONWAY_COST_PER_HOUR_NORMAL <? credits) = false
              /\ (12 * Skill.CONWAY_COST_PER_HOUR_LOW <? credits) = true)
        /\ (tier_of credits = critical <->
              (24 * Skill.CONWAY_COST_PER_HOUR_NORMAL <? credits) = false
              /\ (12 * Skill.CONWAY_COST_PER_HOUR_LOW <? credits) = false
              /\ (0 <? credits) = true)
        /\ (tier_of credits = tier_dead <->
              (24 * Skill.CONWAY_COST_PER_HOUR_NORMAL <? credits) = false
              /\ (12 * Skill.CONWAY_COST_PER_HOUR_LOW <? credits) = false
              /\ (0 <? credits) = false))
  /\ Skill.CONWAY_COST_PER_HOUR_NORMAL = 0.5
  /\ Skill.CONWAY_COST_PER_HOUR_LOW = 0.1
  /\ Skill.CONWAY_COST_PER_HOUR_CRITICAL = 0.02
  /\ tier_of 0 = tier_dead
  /\ tier_of 11 = low_compute.
Proof.
  split.
  { intros treasury w.
    destruct (checkStatus_tier treasury w) as (status & w' & E & Ht & _).
    now exists status, w'. }
  split; [exact tier_of_thresholds|].
  repeat split; reflexivity.
Qed.

End Survival.

(** C5, as the specification words it, fails: with 11 credits [checkStatus]
    answers low_compute, not critical. *)
Lemma eleven_credits_not_critical :
  exists status w',
    Skill.checkStatus (Scenario.collaborators Scenario.healthy)
      Scenario.builtins (Treasury.make 2 0 11 Scenario.wallet)
      (Scenario.world Scenario.empty_state 0)
    = (Returned status, w')
    /\ SurvivalStatus.tier status = low_compute
    /\ SurvivalStatus.tier status <> critical
    /\ (12 * Skill.CONWAY_COST_PER_HOUR_LOW <? 11)%float = true.
Proof.
  eexists _, _. split; [vm_compute; reflexivity|].
  split; [reflexivity|]. split; [discriminate | reflexivity].
Qed.

(** ** The portfolio heartbeat *)

Section Portfolio.

Context {Ext : Type}.
Variable sys : Collaborators Ext.
Variable js : Builtins.

Local Abbreviation getTokenPerformance := (Skill.getTokenPerformance sys js).
Local Abbreviation portfolio_loop := (Skill.portfolio_loop sys js).
Local Abbreviation getFullPortfolio := (Skill.getFullPortfolio sys js).
Local Abbreviation mark_dead := (Skill.mark_dead sys).
Local Abbreviation portfolio_check := (Skill.portfolio_check sys js).
Local Abbreviation kill_by_mint := Skill.kill_by_mint.

(** *** The monitor *)

Lemma getTokenPerformance_spec token w :
  exists perf w',
    getTokenPerformance token w = (Returned perf, w')
    /\ mirrors perf token
    /\ World.state w' = World.state w /\ World.logs w' = World.logs w.
Proof.
  unfold Skill.getTokenPerformance.
  rewrite (bind_Returned _ _ _ _ _ (now_eq sys w)).
  match goal with
  | |- context [bind ?m ?k] =>
      assert (Hn : never_throws m) by auto 10 with frame;
      assert (Hk : keeps_host m) by auto 10 with frame
  end.
  match goal with
  | |- context [bind ?m ?k ?w0] => destruct (Hn w0) as (onchain & w' & E);
      destruct (Hk _ _ _ E) as [Hst Hlg]
  end.
  rewrite (bind_Returned _ _ _ _ _ E).
  eexists _, w'. split; [reflexivity|]. split; [now repeat split|].
  now split.
Qed.

Lemma portfolio_loop_spec tokens performances totalValueSol totalFees w :
  exists news value fees w',
    portfolio_loop tokens performances totalValueSol totalFees w
    = (Returned ((performances ++ news)%list, value, fees), w')
    /\ Forall2 mirrors news tokens
    /\ World.state w' = World.state w /\ World.logs w' = World.logs w.
Proof.
  revert performances totalValueSol totalFees w.
  induction tokens as [|token rest IH]; intros performances value fees w; cbn.
  - exists [], value, fees, w. rewrite app_nil_r. now repeat split.
  - destruct (getTokenPerformance_spec token w) as (perf & w1 & E & Hm & Hst & Hlg).
    rewrite (bind_Returned _ _ _ _ _ E).
    destruct (IH (performances ++ [perf])%list
                 (value + TokenPerformance.retainedValue perf)%float
                 (fees + TokenPerformance.feesEarned perf)%float w1)
      as (news & value' & fees' & w' & E' & HF & Hst' & Hlg').
    exists (perf :: news), value', fees', w'. rewrite E', <- app_assoc.
    split; [reflexivity|]. split; [now constructor|].
    split; congruence.
Qed.

Lemma getFullPortfolio_spec tokens w :
  exists summary w',
    getFullPortfolio tokens w = (Returned summary, w')
    /\ Forall2 mirrors (PortfolioSummary.tokens summary) tokens
    /\ World.state w' = World.state w /\ World.logs w' = World.logs w.
Proof.
  unfold Skill.getFullPortfolio.
  destruct (portfolio_loop_spec tokens [] 0%float 0%float w)
    as (news & value & fees & w' & E & HF & Hst & Hlg).
  rewrite (bind_Returned _ _ _ _ _ E). cbn.
  eexists _, w'. split; [reflexivity|]. now repeat split.
Qed.

(** *** The loop over the portfolio *)

Lemma mark_dead_sweep performances tokens w :
  Forall (fun p => TokenPerformance.volume24h p = 0%float) performances ->
  exists w',
    mark_dead performances tokens w
    = (Returned (sweep sys performances (World.ext w) tokens), w')
    /\ World.state w' = World.state w /\ World.logs w' = World.logs w.
Proof.
  intros HF. revert tokens w.
  induction HF as [|p rest Hp _ IH]; intros tokens w; cbn.
  - now exists w.
  - rewrite Hp. change (0 =? 0)%float with true. cbv iota.
    rewrite (bind_Returned _ _ _ _ _ (now_eq sys w)).
    destruct (86400000 <? _)%Z.
    + destruct (IH (kill_by_mint (TokenPerformance.mint p) tokens)
                  (World.make (World.state w) (World.logs w)
                     (snd (Date_now sys (World.ext w)))))
        as (w' & E & Hst & Hlg).
      exists w'. now rewrite E.
    + destruct (IH tokens
                  (World.make (World.state w) (World.logs w)
                     (snd (Date_now sys (World.ext w)))))
        as (w' & E & Hst & Hlg).
      exists w'. now rewrite E.
Qed.

(** *** Killing by mint *)

Lemma kill_if_mint m tk : DeployedToken.mint (kill_if m tk) = DeployedToken.mint tk.
Proof. unfold kill_if. now destruct (String.eqb _ _). Qed.

Lemma map_kill_if_absent m tokens :
  ~ In m (map DeployedToken.mint tokens) -> map (kill_if m) tokens = tokens.
Proof.
  induction tokens as [|tk rest IH]; cbn; intros Hn; [reflexivity|].
  rewrite IH by tauto. unfold kill_if.
  destruct (String.eqb_spec (DeployedToken.mint tk) m); [|reflexivity].
  exfalso. apply Hn. now left.
Qed.

(** With pairwise different mints, killing the first token that has the mint
    is killing every token that has it. *)
Lemma kill_by_mint_map m tokens :
  NoDup (map DeployedToken.mint tokens) ->
  kill_by_mint m tokens = map (kill_if m) tokens.
Proof.
  unfold Skill.kill_by_mint.
  induction tokens as [|tk rest IH]; cbn; intros Hnd; [reflexivity|].
  inversion Hnd as [|? ? Hnotin Hnd']; subst.
  unfold kill_if at 1.
  destruct (String.eqb_spec (DeployedToken.mint tk) m) as [Heq|Hne].
  - cbn. rewrite map_kill_if_absent; [reflexivity|]. now rewrite <- Heq.
  - specialize (IH Hnd').
    destruct (JS.findIndex _ rest) as [i|]; cbn; now rewrite <- IH.
Qed.

Lemma sweep_map performances e tokens :
  NoDup (map DeployedToken.mint tokens) ->
  sweep sys performances e tokens
  = map (fun tk => if killed sys performances e (DeployedToken.mint tk)
                   then DeployedToken.with_status dead tk else tk) tokens.
Proof.
  revert e tokens. induction performances as [|p rest IH]; intros e tokens Hnd.
  - cbn. now rewrite map_id.
  - cbn [sweep killed].
    destruct (86400000 <? fst (Date_now sys e) - TokenPerformance.deployedAt p)%Z.
    + rewrite kill_by_mint_map by exact Hnd.
      rewrite IH.
      2:{ rewrite map_map. erewrite map_ext; [exact Hnd|].
          intros tk. apply kill_if_mint. }
      rewrite map_map. apply map_ext. intros tk.
      rewrite kill_if_mint. unfold kill_if.
      rewrite (String.eqb_sym (TokenPerformance.mint p)).
      destruct (String.eqb (DeployedToken.mint tk) (TokenPerformance.mint p));
        cbn [andb orb]; [|reflexivity].
      now destruct (killed sys rest _ _).
    + rewrite IH by exact Hnd. apply map_ext. intros tk.
      now rewrite andb_false_r.
Qed.

Lemma clock_reading_S k e :
  clock_reading sys (S k) e = clock_reading sys k (snd (Date_now sys e)).
Proof. unfold clock_reading. now rewrite Nat.iter_succ_r. Qed.

Lemma killed_true_iff performances e m :
  killed sys performances e m = true <->
  exists j p,
    nth_error performances j = Some p
    /\ TokenPerformance.mint p = m
    /\ (86400000 < clock_reading sys j e - TokenPerformance.deployedAt p)%Z.
Proof.
  revert e. induction performances as [|p rest IH]; intros e; cbn.
  - split; [discriminate|]. intros (j & q & H & _). now destruct j.
  - rewrite orb_true_iff, andb_true_iff, IH, Z.ltb_lt. split.
    + intros [[Hm Hold]|(j & q & Hj & Hm & Hold)].
      * exists O, p. apply String.eqb_eq in Hm. now repeat split.
      * exists (S j), q. rewrite clock_reading_S. now repeat split.
    + intros (j & q & Hj & Hm & Hold). destruct j as [|j].
      * left. inversion Hj; subst q. split; [now apply String.eqb_eq|exact Hold].
      * right. exists j, q. rewrite clock_reading_S in Hold. now repeat split.
Qed.

Lemma Forall2_mirrors_nth performances tokens :
  Forall2 mirrors performances tokens ->
  (forall i tk, nth_error tokens i = Some tk ->
     exists p, nth_error performances i = Some p /\ mirrors p tk)
  /\ (forall j p, nth_error performances j = Some p ->
        exists tk, nth_error tokens j = Some tk /\ mirrors p tk).
Proof.
  induction 1 as [|p tk ps tks Hm _ [IH1 IH2]]; split.
  - intros [|i] tk H; discriminate H.
  - intros [|j] p H; discriminate H.
  - intros [|i] tk' H; cbn in *.
    + inversion H; subst. now exists p.
    + now apply IH1.
  - intros [|j] p' H; cbn in *.
    + inversion H; subst. now exists tk.
    + now apply IH2.
Qed.

Lemma mirrors_no_volume performances tokens :
  Forall2 mirrors performances tokens ->
  Forall (fun p => TokenPerformance.volume24h p = 0%float) performances.
Proof. induction 1 as [|p tk ps tks (_ & _ & Hv)]; constructor; auto. Qed.

(** Which tokens a sweep kills, position by position. *)
Lemma sweep_by_position performances e tokens :
  Forall2 mirrors performances tokens ->
  NoDup (map DeployedToken.mint tokens) ->
  forall i tk,
    nth_error tokens i = Some tk ->
    ((86400000 < clock_reading sys i e - DeployedToken.deployedAt tk)%Z ->
     nth_error (sweep sys performances e tokens) i
     = Some (DeployedToken.with_status dead tk))
    /\ ((clock_reading sys i e - DeployedToken.deployedAt tk <= 86400000)%Z ->
        nth_error (sweep sys performances e tokens) i = Some tk).
Proof.
  intros HF Hnd i tk Hi.
  destruct (Forall2_mirrors_nth _ _ HF) as [Hto Hfrom].
  rewrite (sweep_map _ _ _ Hnd), nth_error_map, Hi. cbn [option_map].
  split; intros Hage.
  - destruct (Hto _ _ Hi) as (p & Hp & Hmint & Hat & _).
    assert (Hk : killed sys performances e (DeployedToken.mint tk) = true).
    { apply killed_true_iff. exists i, p. rewrite Hat. now repeat split. }
    now rewrite Hk.
  - destruct (killed sys performances e (DeployedToken.mint tk)) eqn:Hk;
      [|reflexivity].
    exfalso. apply killed_true_iff in Hk. destruct Hk as (j & q & Hj & Hmint & Hold).
    destruct (Hfrom _ _ Hj) as (tk' & Hj' & Hmint' & Hat' & _).
    assert (Hij : j = i).
    { apply (proj1 (NoDup_nth_error (map DeployedToken.mint tokens)) Hnd).
      - rewrite length_map. apply nth_error_Some. congruence.
      - rewrite !nth_error_map, Hi, Hj'. cbn. congruence. }
    subst j. rewrite Hi in Hj'. inversion Hj'; subst tk'.
    rewrite Hat' in Hold. lia.
Qed.

(** C10.  The monitor reports a 24h volume of zero for every position.
    With pairwise different mints in the registry, one run of
    [portfolio_check] returns, and the registry it leaves has, at each
    position, the token that was there, with [status = "dead"] when the clock
    reading of its turn is more than 86400000 ms after its [deployedAt]
    (whatever its status was), and untouched otherwise. *)
Theorem portfolio_check_kills_old_tokens w :
  let tokens := JS.or_array (HostState.deployedTokens (World.state w)) in
  NoDup (map DeployedToken.mint tokens) ->
  exists summary w1 w',
    getFullPortfolio tokens w = (Returned summary, w1)
    /\ Forall (fun p => TokenPerformance.volume24h p = 0%float)
         (PortfolioSummary.tokens summary)
    /\ portfolio_check w = (Returned tt, w')
    /\ forall i tk,
         nth_error tokens i = Some tk ->
         let age :=
           (clock_reading sys i (World.ext w1) - DeployedToken.deployedAt tk)%Z in
         ((86400000 < age)%Z ->
          nth_error (JS.or_array (HostState.deployedTokens (World.state w'))) i
          = Some (DeployedToken.with_status dead tk))
         /\ ((age <= 86400000)%Z ->
             nth_error (JS.or_array (HostState.deployedTokens (World.state w'))) i
             = Some tk).
Proof.
  intros tokens Hnd.
  destruct (getFullPortfolio_spec tokens w) as (summary & w1 & E & HF & Hst & Hlg).
  exists summary, w1.
  pose proof (mirrors_no_volume _ _ HF) as Hvol.
  unfold Skill.portfolio_check.
  rewrite (bind_Returned getState _ w (World.state w) w eq_refl).
  fold tokens.
  destruct tokens as [|tk0 rest] eqn:Htokens.
  - exists w. split; [exact E|]. split; [exact Hvol|]. split; [reflexivity|].
    intros [|i] tk H; discriminate H.
  - rewrite <- Htokens in *. 
    replace (List.length tokens =? 0)%nat with false
      by (rewrite Htokens; reflexivity).
    rewrite (bind_Returned _ _ _ _ _ E).
    unfold bind at 1. unfold log at 1.
    match goal with
    | |- context [bind (mark_dead _ _) _ ?w0] =>
        destruct (mark_dead_sweep (PortfolioSummary.tokens summary) tokens w0 Hvol)
          as (w2 & E2 & Hst2 & Hlg2)
    end.
    rewrite (bind_Returned _ _ _ _ _ E2). unfold setState.
    eexists. split; [exact E|]. split; [exact Hvol|]. split; [reflexivity|].
    cbn [World.state World.ext HostState.set_deployedTokens
           HostState.deployedTokens JS.or_array].
    intros i tk Hi. apply sweep_by_position; assumption.
Qed.

End Portfolio.

(** ** Sibling tools that catch what their collaborators throw *)

Section Boundary.

Context {Ext : Type}.
Variable sys : Collaborators Ext.
Variable config : Config.t.
Variable js : Builtins.
Variable walletAddress : string.

Lemma deploy_utility_token_never_throws params :
  never_throws (Skill.deploy_utility_token sys config params).
Proof. unfold Skill.deploy_utility_token. auto with frame. Qed.

(** X1.  [deploy_utility_token] writes one key, [deployedTokens], and only
    on success.  A call that returns success has appended one record to
    the registry (the mint, supply, retained amount and pool address of
    the result, the name and symbol of the request, the method
    ["spl_direct"], no fees, [status = "active"], and as [deployedAt] the
    clock reading taken in the world the deployer and the pool step
    left), and nothing else: the cooldown timestamp, the ledger and the log
    are as they were.  A call that does not return success leaves the
    state and the log as they were. *)
Lemma deploy_utility_token_writes params w :
  let run := Skill.deploy_utility_token sys config params w in
  let state := World.state w in
  let deployed :=
    bind (await (utilityDeploy sys params))
      (Skill.attach_pool sys config params) w in
  (forall result,
     fst run = Returned (DeploySuccess result) ->
     exists e,
       snd deployed = World.make state (World.logs w) e
       /\ fst deployed = Returned result
       /\ snd run
       = World.make
           (HostState.make
              (Some (JS.or_array (HostState.deployedTokens state)
                     ++ [DeployedToken.make (DeployResult.mint result)
                           (DeployParams.name params)
                           (DeployParams.symbol params) spl_direct
                           (fst (Date_now sys e))
                           (DeployResult.lpAddress result)
                           (DeployResult.supply result)
                           (DeployResult.retainedAmount result)
                           0%float active])%list)
              (HostState.lastDeployTimestamp state)
              (HostState.totalInvested state)
              (HostState.totalEarned state))
           (World.logs w) (snd (Date_now sys e)))
  /\ ((forall result, fst run <> Returned (DeploySuccess result)) ->
      World.state (snd run) = state /\ World.logs (snd run) = World.logs w).
Proof.
  cbv zeta.
  unfold Skill.deploy_utility_token, Skill.attach_pool, try_catch, bind, await,
    now, getState, setState, ret.
  destruct (utilityDeploy sys params (World.ext w)) as [[r|e] e1].
  2:{ cbn [fst snd World.state World.logs]. split; [discriminate|now split]. }
  destruct (DeployParams.lpSol params) as [lpSol|].
  - destruct (Config.raydiumEnabled config && JS.truthy lpSol).
    + cbn [World.ext World.state World.logs].
      destruct (createPool sys (DeployResult.mint r) lpSol e1) as [[lp|e] e2].
      * cbn [World.ext World.state World.logs].
        destruct (Date_now sys e2) as [t e3] eqn:Hnow.
        cbn [fst snd World.ext World.state World.logs]. split.
        -- intros result H. inversion H; subst result. exists e2.
           rewrite Hnow. now repeat split.
        -- intros Hno. exfalso. now apply (Hno _ eq_refl).
      * cbn [fst snd World.state World.logs]. split; [discriminate|now split].
    + cbn [World.ext World.state World.logs].
      destruct (Date_now sys e1) as [t e3] eqn:Hnow.
      cbn [fst snd World.ext World.state World.logs]. split.
      * intros result H. inversion H; subst result. exists e1.
        rewrite Hnow. now repeat split.
      * intros Hno. exfalso. now apply (Hno _ eq_refl).
  - cbn [World.ext World.state World.logs].
    destruct (Date_now sys e1) as [t e3] eqn:Hnow.
    cbn [fst snd World.ext World.state World.logs]. split.
    + intros result H. inversion H; subst result. exists e1.
      rewrite Hnow. now repeat split.
    + intros Hno. exfalso. now apply (Hno _ eq_refl).
Qed.

Lemma harvest_fees_never_throws tokenMint :
  never_throws (Skill.harvest_fees sys config js walletAddress tokenMint).
Proof. unfold Skill.harvest_fees. auto with frame. Qed.

Lemma check_portfolio_never_throws : never_throws (Skill.check_portfolio sys js).
Proof.
  unfold Skill.check_portfolio. apply never_throws_bind; [auto with frame|].
  intros st. apply never_throws_bind; [|auto with frame].
  intros w. destruct (getFullPortfolio_spec sys js (JS.or_array (HostState.deployedTokens st)) w)
    as (summary & w' & E & _).
  now exists summary, w'.
Qed.

End Boundary.

(** ** The properties on concrete runs *)


(** The difference the gate compares is the binary64 one.  With 2.05 SOL
    and a reserve of 0.5 the default request is turned down: [2.05 - 1.55]
    is computed as 0.49999999999999978. *)
Example solvency_gate_compares_doubles :
  Skill.totalCost Scenario.params = 1.55%float
  /\ (2.05 - Skill.totalCost Scenario.params <? 0.5)%float = true.
Proof. split; reflexivity. Qed.

(** The gates on three runs.  One rejection per gate, 100 seconds after a
    deployment, with one active position and 2 SOL: a limit of one
    position; a reserve of 1 SOL; a cooldown of an hour (59 minutes are
    left, rounded up). *)
Lemma gates_rejections_run :
  fst (Skill.deploy_memecoin (Scenario.collaborators Scenario.healthy)
         (Scenario.config 0.5 1 3600000) Scenario.builtins Scenario.wallet
         Scenario.params (Scenario.world Scenario.one_position 1100000))
  = Returned (ErrorResult
      "Max concurrent tokens (1) reached. Harvest or retire tokens first.")
  /\ fst (Skill.deploy_memecoin (Scenario.collaborators Scenario.healthy)
            (Scenario.config 1 5 3600000) Scenario.builtins Scenario.wallet
            Scenario.params (Scenario.world Scenario.one_position 1100000))
     = Returned (ErrorResult
         "Insufficient SOL. Need <number> but only <number> available after survival reserve.")
  /\ fst (Skill.deploy_memecoin (Scenario.collaborators Scenario.healthy)
            (Scenario.config 0.25 5 3600000) Scenario.builtins Scenario.wallet
            Scenario.params (Scenario.world Scenario.one_position 1100000))
     = Returned (ErrorResult "Cooldown active. Wait 59 more minutes.").
Proof.
  split; [|split].
  - pose proof (gates_checked_in_order (Scenario.collaborators Scenario.healthy)
                  (Scenario.config 0.5 1 3600000) Scenario.builtins
                  Scenario.wallet Scenario.params
                  (Scenario.world Scenario.one_position 1100000)
                  Scenario.two_sol
                  (Scenario.world Scenario.one_position 1100000) eq_refl) as T.
    cbv zeta in T. destruct T as (_ & T & _).
    rewrite T; [reflexivity|]. vm_compute. discriminate.
  - pose proof (gates_checked_in_order (Scenario.collaborators Scenario.healthy)
                  (Scenario.config 1 5 3600000) Scenario.builtins
                  Scenario.wallet Scenario.params
                  (Scenario.world Scenario.one_position 1100000)
                  Scenario.two_sol
                  (Scenario.world Scenario.one_position 1100000) eq_refl) as T.
    cbv zeta in T. destruct T as (_ & _ & T & _).
    rewrite T; [reflexivity| vm_compute; reflexivity | reflexivity].
  - pose proof (gates_checked_in_order (Scenario.collaborators Scenario.healthy)
                  (Scenario.config 0.25 5 3600000) Scenario.builtins
                  Scenario.wallet Scenario.params
                  (Scenario.world Scenario.one_position 1100000)
                  Scenario.two_sol
                  (Scenario.world Scenario.one_position 1100000) eq_refl) as T.
    cbv zeta in T. destruct T as (_ & _ & _ & T & _).
    destruct T as (w2 & E & _);
      [vm_compute; reflexivity | reflexivity | vm_compute; reflexivity |].
    rewrite E. reflexivity.
Defined.

(** C3 on two runs, 2 SOL in the wallet and one position on the books.
    A deployer that throws after the gates: the tool returns its message,
    and the state is the one before the call.  A deployer that returns:
    the mint is recorded as a second, active position, deployed at the
    clock reading after the gates, the cooldown starts at the reading after
    that, and 1.55 SOL are added to the 1.55 already invested. *)
Lemma deployer_failure_run :
  Skill.deploy_memecoin (Scenario.collaborators Scenario.deployer_fails)
    (Scenario.config 0.25 5 3600000) Scenario.builtins Scenario.wallet
    Scenario.params (Scenario.world Scenario.one_position 1700000000000)
  = (Returned (ErrorResult "Transaction simulation failed"),
     World.make Scenario.one_position
       ["[conway-deploy] Deploy failed: Transaction simulation failed"]
       1700000000001%Z)
  /\ Skill.deploy_memecoin (Scenario.collaborators Scenario.healthy)
       (Scenario.config 0.25 5 3600000) Scenario.builtins Scenario.wallet
       Scenario.params (Scenario.world Scenario.one_position 1700000000000)
     = (Returned (DeploySuccess
          (DeployResult.make "MintA" 1000000000 0 None "sig")),
        World.make
          (HostState.make
             (Some [DeployedToken.make "MintA" "Glider" "GLDR" pumpfun 1000000
                      None 1000000000 0 0 active;
                    DeployedToken.make "MintA" "Glider" "GLDR" pumpfun
                      1700000000001 None 1000000000 0 0 active])
             (Some 1700000000002%Z) (Some (1.55 + 1.55)%float) None)
          ["[conway-deploy] Deployed GLDR: MintA"]
          1700000000003%Z).
Proof.
  split.
  - pose proof (deploy_failure_leaves_ledger
                  (Scenario.collaborators Scenario.deployer_fails)
                  (Scenario.config 0.25 5 3600000) Scenario.builtins
                  Scenario.wallet Scenario.params
                  (Scenario.world Scenario.one_position 1700000000000)) as T.
    cbv zeta in T. destruct T as (_ & _ & T).
    destruct (T Scenario.two_sol
                (Scenario.world Scenario.one_position 1700000000000))
      as [Tpump _].
    + reflexivity.
    + vm_compute. reflexivity.
    + reflexivity.
    + vm_compute. discriminate.
    + destruct (Tpump eq_refl) as [_ Tfail].
      exact (Tfail "Transaction simulation failed" 1700000000001%Z eq_refl).
  - pose proof (deploy_failure_leaves_ledger
                  (Scenario.collaborators Scenario.healthy)
                  (Scenario.config 0.25 5 3600000) Scenario.builtins
                  Scenario.wallet Scenario.params
                  (Scenario.world Scenario.one_position 1700000000000)) as T.
    cbv zeta in T. destruct T as (_ & _ & T).
    destruct (T Scenario.two_sol
                (Scenario.world Scenario.one_position 1700000000000))
      as [Tpump _].
    + reflexivity.
    + vm_compute. reflexivity.
    + reflexivity.
    + vm_compute. discriminate.
    + destruct (Tpump eq_refl) as [Tok _].
      rewrite (Tok (DeployResult.make "MintA" 1000000000 0 None "sig")
                 1700000000001%Z eq_refl).
      reflexivity.
Defined.

(** C4 fails on the code.  [deploy_utility_token] where every gate of
    [deploy_memecoin] is shut:
    the limit of one position is reached, the reserve of 10 SOL exceeds the
    balance, the last deployment is 100 seconds old.  [deploy_memecoin] is
    rejected; [deploy_utility_token] succeeds, appends a second active
    position, pays for a pool, and leaves [lastDeployTimestamp] and
    [totalInvested] as they were. *)
Lemma utility_token_bypasses_gates :
  fst (Skill.deploy_memecoin (Scenario.collaborators Scenario.healthy)
         (Scenario.config 10 1 3600000) Scenario.builtins Scenario.wallet
         Scenario.params (Scenario.world Scenario.one_position 1100000))
  = Returned (ErrorResult
      "Max concurrent tokens (1) reached. Harvest or retire tokens first.")
  /\ Skill.deploy_utility_token (Scenario.collaborators Scenario.healthy)
       (Scenario.config 10 1 3600000)
       (DeployParams.make "Util" "UTL" "a utility" None (Some 1%float) None)
       (Scenario.world Scenario.one_position 1100000)
     = (Returned (DeploySuccess
          (DeployResult.make "MintU" 1000000000 0
             (Some "PLACEHOLDER_POOL_ADDRESS") "sig")),
        World.make
          (HostState.make
             (Some [Scenario.token "MintA" pumpfun 1000000 None active;
                    DeployedToken.make "MintU" "Util" "UTL" spl_direct 1100000
                      (Some "PLACEHOLDER_POOL_ADDRESS") 1000000000 0 0 active])
             (Some 1000000%Z) (Some 1.55%float) None)
          [] 1100001%Z).
Proof. split; vm_compute; reflexivity. Qed.

(** C2 fails on the code.  A request that the first gate alone decides:
    the limit of one position is reached.  Behind a node that answers it
    is rejected with the text of the concurrency gate, and nothing is
    touched.  Behind a node that does not answer, the same request on the
    same state is not rejected: [deploy_memecoin] awaits the balance (line
    109) before it looks at the registry (lines 110-115), outside its
    [try], and the rejection of [getBalance] leaves the tool as an
    exception.  No gate is tried and no reason is given. *)
Lemma concurrency_rejection_needs_balance :
  Skill.deploy_memecoin (Scenario.collaborators Scenario.healthy)
    (Scenario.config 0.5 1 3600000) Scenario.builtins Scenario.wallet
    Scenario.params (Scenario.world Scenario.one_position 1100000)
  = (Returned (ErrorResult
       "Max concurrent tokens (1) reached. Harvest or retire tokens first."),
     Scenario.world Scenario.one_position 1100000)
  /\ Skill.deploy_memecoin (Scenario.collaborators Scenario.node_down)
       (Scenario.config 0.5 1 3600000) Scenario.builtins Scenario.wallet
       Scenario.params (Scenario.world Scenario.one_position 1100000)
     = (Thrown "failed to get balance of account",
        Scenario.world Scenario.one_position 1100000).
Proof. split; vm_compute; reflexivity. Qed.

(** C9 fails on the code.  [check_treasury] and [deploy_memecoin] behind a
    node that does not answer: the rejection of [getBalance] leaves the tool
    as an exception, not as [{ error }]. *)
Lemma check_treasury_rethrows :
  fst (Skill.check_treasury (Scenario.collaborators Scenario.node_down)
         Scenario.wallet (Scenario.world Scenario.one_position 1100000))
  = Thrown "failed to get balance of account"
  /\ fst (Skill.deploy_memecoin (Scenario.collaborators Scenario.node_down)
            (Scenario.config 0.5 5 3600000) Scenario.builtins Scenario.wallet
            Scenario.params (Scenario.world Scenario.one_position 1100000))
     = Thrown "failed to get balance of account".
Proof. split; vm_compute; reflexivity. Qed.

(** C7 on a run.  Three positions in scope, the pool of the second one down: the harvest
    returns the fees of the first and third pools, and for the second
    position an entry without LP fees and with its creator fees. *)
Lemma harvest_with_failing_pool_run :
  exists r w3,
    Skill.harvest (Scenario.collaborators Scenario.pool_b_down)
      Scenario.wallet "all"
      (JS.or_array (HostState.deployedTokens Scenario.three_pools))
      (Scenario.world Scenario.three_pools 1100000)
    = (Returned r, w3)
    /\ HarvestResult.breakdown r
       = [BreakdownEntry.make "MintA" "GLDR" 0.01 0;
          BreakdownEntry.make "MintB" "GLDR" 0 0.05;
          BreakdownEntry.make "MintC" "GLDR" 0.02 0]
    /\ HarvestResult.totalHarvested r
       = sum_breakdown (HarvestResult.breakdown r).
Proof.
  destruct (harvest_isolates_failed_lp_query
              (Scenario.collaborators Scenario.pool_b_down) Scenario.wallet
              "all" (JS.or_array (HostState.deployedTokens Scenario.three_pools))
              [Scenario.token "MintA" spl_direct 1000000 (Some "PoolA") active]
              (Scenario.token "MintB" pumpfun 1000000 (Some "PoolB") active)
              [Scenario.token "MintC" spl_direct 1000000 (Some "PoolC") active]
              "PoolB" "pool account not found"
              (Scenario.world Scenario.three_pools 1100000)
              (HarvestResult.make (0 + (0.01 + 0))
                 [BreakdownEntry.make "MintA" "GLDR" 0.01 0] ["sigA"])
              (Scenario.world Scenario.three_pools 1100000)
              1100000%Z)
    as (creatorFees & w2 & r & w3 & Hc & Hall & Hafter & _ & _ & Hsum).
  - reflexivity.
  - reflexivity.
  - reflexivity.
  - discriminate.
  - reflexivity.
  - exists r, w3. split; [exact Hall|]. split; [|exact Hsum].
    cbv zeta in Hafter.
    assert (Hcf : creatorFees = 0.05%float).
    { vm_compute in Hc. now inversion Hc. }
    subst creatorFees. vm_compute in Hc. inversion Hc; subst w2.
    vm_compute in Hafter. inversion Hafter. reflexivity.
Defined.

(** C8, as the specification words it, fails: a position earns 0.05 SOL of
    creator fees in a harvest, and its [totalFeesEarned] is 0 before and
    after, not 0 plus the harvested amount. *)
Lemma harvest_fees_does_not_credit_position :
  exists result w',
    Skill.harvest_fees (Scenario.collaborators Scenario.creator_income)
      (Scenario.config 0.5 5 3600000) Scenario.builtins Scenario.wallet None
      (Scenario.world Scenario.one_position 1100000)
    = (Returned (HarvestPayload result), w')
    /\ HarvestResult.breakdown result
       = [BreakdownEntry.make "MintA" "GLDR" 0 0.05]
    /\ map DeployedToken.totalFeesEarned
         (JS.or_array (HostState.deployedTokens Scenario.one_position))
       = [0%float]
    /\ map DeployedToken.totalFeesEarned
         (JS.or_array (HostState.deployedTokens (World.state w')))
       = [0%float]
    /\ (0%float <> 0 + (0 + 0.05))%float.
Proof.
  eexists _, _. split; [vm_compute; reflexivity|].
  split; [reflexivity|]. split; [reflexivity|]. split; [reflexivity|].
  intros H.
  pose proof (f_equal (fun x => (x =? 0)%float) H) as H'.
  vm_compute in H'. discriminate H'.
Qed.

(** C10 on a run.  A graduated position more than 24 hours old and an active
    one a second old: one run of [portfolio_check] marks the first dead and leaves the
    second. *)
Lemma portfolio_check_run :
  exists w',
    Skill.portfolio_check (Scenario.collaborators Scenario.healthy)
      Scenario.builtins (Scenario.world Scenario.old_and_young 100000000)
    = (Returned tt, w')
    /\ nth_error (JS.or_array (HostState.deployedTokens (World.state w'))) 0
       = Some (Scenario.token "MintG" pumpfun 0 None dead)
    /\ nth_error (JS.or_array (HostState.deployedTokens (World.state w'))) 1
       = Some (Scenario.token "MintY" pumpfun 99999000 None active).
Proof.
  destruct (portfolio_check_kills_old_tokens
              (Scenario.collaborators Scenario.healthy) Scenario.builtins
              (Scenario.world Scenario.old_and_young 100000000))
    as (summary & w1 & w' & E & _ & Hrun & Hpos).
  - vm_compute. repeat constructor; simpl; intuition discriminate.
  - exists w'. split; [exact Hrun|].
    vm_compute in E. inversion E; subst summary w1. clear E.
    destruct (Hpos 0%nat (Scenario.token "MintG" pumpfun 0 None graduated) eq_refl)
      as [Hold _].
    destruct (Hpos 1%nat (Scenario.token "MintY" pumpfun 99999000 None active) eq_refl)
      as [_ Hyoung].
    split.
    + apply Hold. vm_compute. reflexivity.
    + apply Hyoung. vm_compute. discriminate.
Defined.

(** * Further properties of the code *)

(** ** More on binary64 *)

Lemma ltb_leb (x y : float) : (x <? y)%float = true -> (x <=? y)%float = true.
Proof.
  rewrite FloatAxioms.ltb_spec, FloatAxioms.leb_spec. unfold SFltb, SFleb.
  destruct (SFcompare (Prim2SF x) (Prim2SF y)) as [[]|]; congruence.
Qed.

(** ** More on the harvest *)

Section HarvestScope.

Context {Ext : Type}.
Variable sys : Collaborators Ext.
Variable config : Config.t.
Variable js : Builtins.
Variable walletAddress : string.

Local Abbreviation checkPumpFunCreatorFees :=
  (Skill.checkPumpFunCreatorFees sys walletAddress).
Local Abbreviation scan_signatures := (Skill.scan_signatures sys walletAddress).
Local Abbreviation collect_lp := (Skill.collect_lp sys).
Local Abbreviation creator_fees := (Skill.creator_fees sys walletAddress).
Local Abbreviation harvest_token := (Skill.harvest_token sys walletAddress).
Local Abbreviation harvest_loop := (Skill.harvest_loop sys walletAddress).
Local Abbreviation harvest := (Skill.harvest sys walletAddress).
Local Abbreviation harvest_fees := (Skill.harvest_fees sys config js walletAddress).
Local Abbreviation fee_harvest := (Skill.fee_harvest sys js walletAddress).
Local Abbreviation in_scope := Skill.in_scope.
Local Abbreviation no_harvest := Skill.no_harvest.
Local Abbreviation target_of := Skill.target_of.

Lemma collect_lp_no_placeholder token w lp w' :
  collect_lp token w = (Returned lp, w') -> ~ In "PLACEHOLDER_TX" (snd lp).
Proof.
  unfold Skill.collect_lp.
  destruct (DeployedToken.lpAddress token) as [addr|];
    [|intros H; inversion H; subst; cbn; tauto].
  destruct (negb (addr =? ""));
    [|intros H; inversion H; subst; cbn; tauto].
  unfold try_catch, bind, await, ret.
  destruct (collectFees sys addr (World.ext w)) as [[fr|e] e1];
    intros H; inversion H; subst; cbn; [|tauto].
  destruct (String.eqb_spec (CollectedFees.txSignature fr) "PLACEHOLDER_TX");
    cbn; [tauto|]. intros [Heq|[]]. congruence.
Qed.

Lemma harvest_token_entry token w x w' :
  harvest_token token w = (Returned x, w') ->
  BreakdownEntry.tokenMint (fst x) = DeployedToken.mint token
  /\ BreakdownEntry.symbol (fst x) = DeployedToken.symbol token
  /\ ~ In "PLACEHOLDER_TX" (snd x).
Proof.
  unfold Skill.harvest_token. unfold bind at 1.
  destruct (collect_lp token w) as [[lp|e] w1] eqn:Hlp; [|discriminate].
  unfold bind. destruct (creator_fees token w1) as [[cf|e] w2]; [|discriminate].
  intros H. inversion H; subst. cbn [fst snd BreakdownEntry.tokenMint
                                      BreakdownEntry.symbol].
  repeat split. exact (collect_lp_no_placeholder _ _ _ _ Hlp).
Qed.

Lemma harvest_loop_entries tokens acc w r w' :
  harvest_loop tokens acc w = (Returned r, w') ->
  exists entries sigs,
    HarvestResult.breakdown r = (HarvestResult.breakdown acc ++ entries)%list
    /\ HarvestResult.txSignatures r
       = (HarvestResult.txSignatures acc ++ sigs)%list
    /\ map BreakdownEntry.tokenMint entries = map DeployedToken.mint tokens
    /\ map BreakdownEntry.symbol entries = map DeployedToken.symbol tokens
    /\ ~ In "PLACEHOLDER_TX" sigs.
Proof.
  revert acc w. induction tokens as [|token rest IH]; intros acc w; cbn.
  - intros H. inversion H; subst. exists [], []. rewrite !app_nil_r.
    repeat split. tauto.
  - unfold bind.
    destruct (harvest_token token w) as [[x|e] w1] eqn:Hx; [|discriminate].
    intros H. destruct (IH _ _ H) as (entries & sigs & Hb & Hs & Hm & Hsy & Hp).
    destruct (harvest_token_entry _ _ _ _ Hx) as (Hxm & Hxs & Hxp).
    exists (fst x :: entries), (snd x ++ sigs)%list. cbn in Hb, Hs.
    rewrite Hb, Hs, <- !app_assoc. cbn. rewrite Hxm, Hxs, Hm, Hsy.
    repeat split. rewrite in_app_iff. tauto.
Qed.


Lemma collect_lp_answered token addr w feeResult e1 :
  DeployedToken.lpAddress token = Some addr ->
  addr <> "" ->
  collectFees sys addr (World.ext w) = (Returned feeResult, e1) ->
  collect_lp token w
  = (Returned
       (CollectedFees.solFees feeResult,
        if CollectedFees.txSignature feeResult =? "PLACEHOLDER_TX"
        then [] else [CollectedFees.txSignature feeResult]),
     World.make (World.state w) (World.logs w) e1).
Proof.
  intros Hlp Hne Hans. unfold Skill.collect_lp. rewrite Hlp.
  destruct (String.eqb_spec addr ""); [contradiction|]. cbn [negb].
  unfold try_catch, bind, await, ret. rewrite Hans.
  now destruct (CollectedFees.txSignature feeResult =? "PLACEHOLDER_TX").
Qed.

(** X3.  The signatures a harvest reports never include the placeholder
    ["PLACEHOLDER_TX"], whatever the pool manager answers, and an answer
    that carries it is not discarded.  Let the positions in scope be
    [before ++ token :: after] and let the pool of [token] answer with
    [feeResult]: the entry of [token] has [lpFees = feeResult.solFees],
    whatever the signature; the signature is appended to the ones reported
    unless it is the placeholder, in which case none is; and the total is
    the sum over the breakdown, this entry included. *)
Theorem harvest_reports_no_placeholder target tokens w r w' :
  harvest target tokens w = (Returned r, w') ->
  ~ In "PLACEHOLDER_TX" (HarvestResult.txSignatures r)
  /\ HarvestResult.totalHarvested r
     = fold_left
         (fun total e =>
            (total + (BreakdownEntry.lpFees e
                      + BreakdownEntry.creatorFees e))%float)
         (HarvestResult.breakdown r) 0%float
  /\ forall before token after addr r1 w1 feeResult e1,
       in_scope target tokens = (before ++ token :: after)%list ->
       harvest_loop before no_harvest w = (Returned r1, w1) ->
       DeployedToken.lpAddress token = Some addr ->
       addr <> "" ->
       collectFees sys addr (World.ext w1) = (Returned feeResult, e1) ->
       exists creatorFees w2 rest later,
         creator_fees token (World.make (World.state w1) (World.logs w1) e1)
         = (Returned creatorFees, w2)
         /\ HarvestResult.breakdown r
            = (HarvestResult.breakdown r1
               ++ BreakdownEntry.make (DeployedToken.mint token)
                    (DeployedToken.symbol token)
                    (CollectedFees.solFees feeResult) creatorFees
               :: rest)%list
         /\ List.length rest = List.length after
         /\ HarvestResult.txSignatures r
            = (HarvestResult.txSignatures r1
               ++ (if CollectedFees.txSignature feeResult =? "PLACEHOLDER_TX"
                   then [] else [CollectedFees.txSignature feeResult])
               ++ later)%list.
Proof.
  intros H. split; [|split].
  - revert H. unfold Skill.harvest. intros H.
    destruct (harvest_loop_entries _ _ _ _ _ H)
      as (entries & sigs & _ & Hs & _ & _ & Hp).
    cbn in Hs. now rewrite Hs.
  - exact (proj1 (harvest_total_is_sum sys walletAddress _ _ _ _ _ H)).
  - intros before token after addr r1 w1 feeResult e1
      Hscope Hbefore Hlp Hne Hans.
    destruct (creator_fees_never_throws sys walletAddress token
                (World.make (World.state w1) (World.logs w1) e1))
      as (creatorFees & w2 & Hcreator).
    exists creatorFees, w2.
    set (x := (BreakdownEntry.make (DeployedToken.mint token)
                 (DeployedToken.symbol token)
                 (CollectedFees.solFees feeResult) creatorFees,
               if CollectedFees.txSignature feeResult =? "PLACEHOLDER_TX"
               then [] else [CollectedFees.txSignature feeResult])).
    assert (Htoken : harvest_token token w1 = (Returned x, w2)).
    { unfold Skill.harvest_token.
      rewrite (bind_Returned _ _ _ _ _
                 (collect_lp_answered _ _ _ _ _ Hlp Hne Hans)).
      cbn [fst snd]. now rewrite (bind_Returned _ _ _ _ _ Hcreator). }
    assert (Hafter : harvest_loop after (Skill.push_entry r1 x) w2
                     = (Returned r, w')).
    { revert H. unfold Skill.harvest.
      rewrite Hscope, (harvest_loop_app sys walletAddress).
      rewrite (bind_Returned _ _ _ _ _ Hbefore). cbn [Skill.harvest_loop].
      now rewrite (bind_Returned _ _ _ _ _ Htoken). }
    destruct (harvest_loop_entries _ _ _ _ _ Hafter)
      as (rest & later & Hb & Hs & Hm & _ & _).
    exists rest, later. split; [exact Hcreator|].
    cbn [Skill.push_entry HarvestResult.breakdown HarvestResult.txSignatures
           fst snd] in Hb, Hs.
    subst x. cbn [fst snd] in Hb, Hs.
    rewrite Hb, Hs, <- !app_assoc. cbn [app].
    split; [reflexivity|]. split; [|reflexivity].
    rewrite <- (length_map BreakdownEntry.tokenMint), Hm. apply length_map.
Qed.

(** X4.  A harvest whose scope is empty (no active position, or none with the
    requested mint) consults nobody and returns the empty result; the tool
    then still writes [totalEarned], as its former value (or 0) plus 0, pays
    nothing and returns the empty harvest. *)
Theorem harvest_of_nothing tokenMint w :
  in_scope (target_of tokenMint)
    (JS.or_array (HostState.deployedTokens (World.state w))) = [] ->
  harvest (target_of tokenMint)
    (JS.or_array (HostState.deployedTokens (World.state w))) w
  = (Returned no_harvest, w)
  /\ harvest_fees tokenMint w
     = (Returned (HarvestPayload no_harvest),
        World.make
          (HostState.set_totalEarned
             (JS.or_number (HostState.totalEarned (World.state w)) 0 + 0)%float
             (World.state w))
          (World.logs w) (World.ext w)).
Proof.
  intros Hscope.
  assert (H : harvest (target_of tokenMint)
                (JS.or_array (HostState.deployedTokens (World.state w))) w
              = (Returned no_harvest, w)).
  { unfold Skill.harvest. now rewrite Hscope. }
  split; [exact H|].
  rewrite (harvest_fees_eq sys config js walletAddress _ _ _ _ H).
  reflexivity.
Qed.

(** *** Creator fees *)

Lemma scan_signatures_app pre post feeTotal w :
  scan_signatures (pre ++ post)%list feeTotal w
  = bind (scan_signatures pre feeTotal)
      (fun f => scan_signatures post f) w.
Proof.
  revert feeTotal w. induction pre as [|sig rest IH]; intros feeTotal w.
  - reflexivity.
  - cbn [app Skill.scan_signatures]. unfold bind in IH |- *.
    destruct (await (getTransaction sys sig) w) as [[[tx|]|e] w1];
      [|apply IH|reflexivity].
    destruct (Skill.balanceChange walletAddress tx); [|apply IH].
    destruct (_ && _); apply IH.
Qed.

(** X5.  The creator-fee figure is all or nothing: when the look-up of one
    transaction throws, [checkPumpFunCreatorFees] answers 0, whatever the
    transactions before it had added up to. *)
Theorem creator_fees_lost_on_failed_lookup
  tokenMint pre sig post w e1 feeTotal w1 message e2 :
  getSignaturesForAddress sys (World.ext w)
  = (Returned (pre ++ sig :: post)%list, e1) ->
  scan_signatures pre 0%float (World.make (World.state w) (World.logs w) e1)
  = (Returned feeTotal, w1) ->
  getTransaction sys sig (World.ext w1) = (Thrown message, e2) ->
  checkPumpFunCreatorFees tokenMint w
  = (Returned 0%float, World.make (World.state w) (World.logs w) e2).
Proof.
  intros Hsigs Hpre Htx.
  destruct (scan_signatures_keeps_host sys walletAddress _ _ _ _ _ Hpre)
    as [Hst Hlg].
  cbn [World.state World.logs] in Hst, Hlg.
  unfold Skill.checkPumpFunCreatorFees, try_catch.
  unfold bind at 1. unfold await at 1. rewrite Hsigs.
  rewrite scan_signatures_app, (bind_Returned _ _ _ _ _ Hpre).
  cbn [Skill.scan_signatures]. unfold bind, await. rewrite Htx.
  unfold ret. now rewrite Hst, Hlg.
Qed.

Lemma await_read_only {A : Type} (op : Ext -> Outcome A * Ext) w r w' :
  (forall e, snd (op e) = e) -> await op w = (r, w') -> w' = w.
Proof.
  intros Hop. unfold await. specialize (Hop (World.ext w)).
  destruct (op (World.ext w)) as [r0 e]. cbn in Hop. subst e.
  intros H. inversion H. now destruct w.
Qed.

Section ReadOnlyNode.

Hypothesis signatures_read_only :
  forall e, snd (getSignaturesForAddress sys e) = e.
Hypothesis transaction_read_only :
  forall sig e, snd (getTransaction sys sig e) = e.
Hypothesis fees_read_only :
  forall poolAddress e, snd (collectFees sys poolAddress e) = e.

Lemma scan_signatures_same_world sigs feeTotal w r w' :
  scan_signatures sigs feeTotal w = (r, w') -> w' = w.
Proof.
  revert feeTotal w. induction sigs as [|sig rest IH]; intros feeTotal w; cbn.
  - intros H. now inversion H.
  - unfold bind.
    destruct (await (getTransaction sys sig) w) as [[[tx|]|e] w1] eqn:E;
      pose proof (await_read_only _ _ _ _ (transaction_read_only sig) E);
      subst w1.
    + destruct (Skill.balanceChange walletAddress tx); [|apply IH].
      destruct (_ && _); apply IH.
    + apply IH.
    + intros H. now inversion H.
Qed.

Lemma checkPumpFunCreatorFees_same_world tokenMint w r w' :
  checkPumpFunCreatorFees tokenMint w = (r, w') -> w' = w.
Proof.
  unfold Skill.checkPumpFunCreatorFees, try_catch, bind.
  destruct (await (getSignaturesForAddress sys) w) as [[sigs|e] w1] eqn:E;
    pose proof (await_read_only _ _ _ _ signatures_read_only E); subst w1.
  - destruct (scan_signatures sigs 0%float w) as [[f|e] w2] eqn:E2;
      pose proof (scan_signatures_same_world _ _ _ _ _ E2); subst w2;
      intros H; now inversion H.
  - intros H. now inversion H.
Qed.

Lemma collect_lp_same_world token w r w' :
  collect_lp token w = (r, w') -> w' = w.
Proof.
  unfold Skill.collect_lp.
  destruct (DeployedToken.lpAddress token) as [addr|];
    [|intros H; now inversion H].
  destruct (negb (addr =? "")); [|intros H; now inversion H].
  unfold try_catch, bind.
  destruct (await (collectFees sys addr) w) as [[fr|e] w1] eqn:E;
    pose proof (await_read_only _ _ _ _ (fees_read_only addr) E); subst w1;
    intros H; now inversion H.
Qed.

(** X6.  Against a node and a pool manager whose queries change nothing, every
    bonding-curve position of one harvest is credited the same creator fees:
    the figure [checkPumpFunCreatorFees] computes from the wallet's recent
    transactions does not depend on the mint it is asked about, so the
    wallet's fee income is counted once per such position. *)
Theorem creator_fees_repeat_per_position
  target tokens w r w' tokenMint fees w0 :
  checkPumpFunCreatorFees tokenMint w = (Returned fees, w0) ->
  harvest target tokens w = (Returned r, w') ->
  w' = w
  /\ map BreakdownEntry.creatorFees (HarvestResult.breakdown r)
     = map (fun t => if Method_eqb (DeployedToken.method t) pumpfun
                     then fees else 0%float)
         (in_scope target tokens).
Proof.
  intros Hfees. unfold Skill.harvest.
  assert (Hbase : w0 = w) by exact (checkPumpFunCreatorFees_same_world _ _ _ _ Hfees).
  subst w0.
  assert (Hloop : forall l acc r0 w1,
            harvest_loop l acc w = (Returned r0, w1) ->
            w1 = w
            /\ map BreakdownEntry.creatorFees (HarvestResult.breakdown r0)
               = (map BreakdownEntry.creatorFees (HarvestResult.breakdown acc)
                  ++ map (fun t => if Method_eqb (DeployedToken.method t) pumpfun
                                   then fees else 0%float) l)%list).
  { induction l as [|token rest IH]; intros acc r0 w1; cbn.
    - intros H. inversion H; subst. now rewrite app_nil_r.
    - unfold bind at 1. unfold Skill.harvest_token. unfold bind at 1.
      destruct (collect_lp token w) as [[lp|e] w2] eqn:Hlp;
        pose proof (collect_lp_same_world _ _ _ _ Hlp); subst w2;
        [|discriminate].
      unfold bind at 1. unfold Skill.creator_fees.
      destruct (Method_eqb (DeployedToken.method token) pumpfun).
      + change (checkPumpFunCreatorFees (DeployedToken.mint token) w)
          with (checkPumpFunCreatorFees tokenMint w).
        rewrite Hfees. unfold ret at 1. intros H.
        destruct (IH _ _ _ H) as [-> Hmap]. split; [reflexivity|].
        rewrite Hmap. cbn. now rewrite map_app, <- app_assoc.
      + unfold ret at 1 2. intros H.
        destruct (IH _ _ _ H) as [-> Hmap]. split; [reflexivity|].
        rewrite Hmap. cbn. now rewrite map_app, <- app_assoc. }
  intros H. destruct (Hloop _ _ _ _ H) as [-> Hmap]. now split.
Qed.

End ReadOnlyNode.

(** *** The pool manager of the repository *)

(** X7.  With [RaydiumManager.collectFees] as the repository has it, a harvest
    collects no LP fees and reports no signature, for any registry: what it
    adds to the ledger is creator fees only. *)
Theorem placeholder_pools_pay_nothing target tokens w r w' :
  (forall poolAddress e,
     collectFees sys poolAddress e = Placeholder.collectFees poolAddress e) ->
  harvest target tokens w = (Returned r, w') ->
  HarvestResult.txSignatures r = []
  /\ Forall (fun e => BreakdownEntry.lpFees e = 0%float)
       (HarvestResult.breakdown r).
Proof.
  intros Hplace. unfold Skill.harvest.
  assert (Hlp : forall token w1 lp w2,
            collect_lp token w1 = (Returned lp, w2) -> lp = (0%float, [])).
  { intros token w1 lp w2. unfold Skill.collect_lp.
    destruct (DeployedToken.lpAddress token) as [addr|];
      [|intros H; now inversion H].
    destruct (negb (addr =? "")); [|intros H; now inversion H].
    unfold try_catch, bind, await. rewrite Hplace.
    unfold Placeholder.collectFees. intros H. now inversion H. }
  assert (Hloop : forall l acc r0 w1 w2,
            harvest_loop l acc w1 = (Returned r0, w2) ->
            HarvestResult.txSignatures acc = [] ->
            Forall (fun e => BreakdownEntry.lpFees e = 0%float)
              (HarvestResult.breakdown acc) ->
            HarvestResult.txSignatures r0 = []
            /\ Forall (fun e => BreakdownEntry.lpFees e = 0%float)
                 (HarvestResult.breakdown r0)).
  { induction l as [|token rest IH]; intros acc r0 w1 w2; cbn.
    - intros H. inversion H; subst. now split.
    - unfold bind at 1. unfold Skill.harvest_token. unfold bind at 1.
      destruct (collect_lp token w1) as [[lp|e] w3] eqn:E; [|discriminate].
      rewrite (Hlp _ _ _ _ E). unfold bind at 1.
      destruct (creator_fees token w3) as [[cf|e] w4]; [|discriminate].
      unfold ret at 1. intros H Hs HF. apply (IH _ _ _ _ H).
      + cbn. now rewrite Hs.
      + cbn. apply Forall_app. split; [exact HF|]. now repeat constructor. }
  intros H. apply (Hloop _ _ _ _ _ H); [reflexivity | constructor].
Qed.

(** *** The tool and the heartbeat *)

(** X8.  With a creator split that is not positive, [harvest_fees] never pays
    and never returns an error: it returns the harvest, having written the
    ledger, and the world is as the harvest left it. *)
Theorem harvest_fees_without_split tokenMint w :
  (0 <? Config.creatorFeeSplit config)%float = false ->
  exists result w1,
    harvest (target_of tokenMint)
      (JS.or_array (HostState.deployedTokens (World.state w))) w
    = (Returned result, w1)
    /\ harvest_fees tokenMint w
       = (Returned (HarvestPayload result),
          World.make
            (HostState.set_totalEarned
               (JS.or_number (HostState.totalEarned (World.state w)) 0
                + HarvestResult.totalHarvested result)%float
               (World.state w))
            (World.logs w) (World.ext w1)).
Proof.
  intros Hsplit.
  destruct (harvest_never_throws sys walletAddress (target_of tokenMint)
              (JS.or_array (HostState.deployedTokens (World.state w))) w)
    as (result & w1 & H).
  exists result, w1. split; [exact H|].
  rewrite (harvest_fees_eq sys config js walletAddress _ _ _ _ H).
  cbv zeta. rewrite Hsplit, andb_false_r. reflexivity.
Qed.

Lemma in_scope_all_filtered tokens :
  in_scope "all" (filter DeployedToken.is_active tokens)
  = in_scope "all" tokens.
Proof.
  unfold Skill.in_scope. rewrite String.eqb_refl.
  induction tokens as [|t rest IH]; cbn [filter]; [reflexivity|].
  destruct (DeployedToken.is_active t) eqn:E; cbn [filter];
    [rewrite E|]; now rewrite IH.
Qed.

(** X9.  The [fee_harvest] heartbeat runs the harvest that [harvest_fees] runs
    without a mint, never throws, and differs from the tool in what follows:
    it writes [totalEarned] only when the total is positive, and it never pays
    the creator split.  Without an active position it does nothing. *)
Theorem fee_harvest_outcome w :
  exists result w1,
    harvest (target_of None)
      (JS.or_array (HostState.deployedTokens (World.state w))) w
    = (Returned result, w1)
    /\ fee_harvest w =
       if (List.length
             (filter DeployedToken.is_active
                (JS.or_array (HostState.deployedTokens (World.state w))))
           =? 0)%nat
       then (Returned tt, w)
       else if (0 <? HarvestResult.totalHarvested result)%float
       then (Returned tt,
             World.make
               (HostState.set_totalEarned
                  (JS.or_number (HostState.totalEarned (World.state w)) 0
                   + HarvestResult.totalHarvested result)%float
                  (World.state w))
               (World.logs w
                ++ [("[heartbeat] Harvested "
                     ++ Number_toFixed js 6 (HarvestResult.totalHarvested result)
                     ++ " SOL in fees")%string])%list
               (World.ext w1))
       else (Returned tt, World.make (World.state w) (World.logs w) (World.ext w1)).
Proof.
  destruct (harvest_never_throws sys walletAddress (target_of None)
              (JS.or_array (HostState.deployedTokens (World.state w))) w)
    as (result & w1 & H).
  exists result, w1. split; [exact H|].
  destruct (harvest_keeps_host sys walletAddress _ _ _ _ _ H) as [Hst Hlg].
  unfold Skill.fee_harvest.
  rewrite (bind_Returned getState _ w (World.state w) w eq_refl).
  destruct (_ =? 0)%nat; [reflexivity|].
  assert (H' : harvest "all"
                 (filter DeployedToken.is_active
                    (JS.or_array (HostState.deployedTokens (World.state w)))) w
               = (Returned result, w1)).
  { unfold Skill.harvest. rewrite in_scope_all_filtered. exact H. }
  unfold try_catch. rewrite (bind_Returned _ _ _ _ _ H').
  destruct (0 <? _)%float.
  - unfold bind, log, getState, setState.
    cbn [World.state World.logs World.ext]. now rewrite Hst, Hlg.
  - unfold ret. rewrite <- Hst, <- Hlg. now destruct w1.
Qed.

End HarvestScope.

(** ** More on the portfolio *)

Section Registry.

Context {Ext : Type}.
Variable sys : Collaborators Ext.
Variable js : Builtins.

Local Abbreviation getTokenPerformance := (Skill.getTokenPerformance sys js).
Local Abbreviation portfolio_loop := (Skill.portfolio_loop sys js).
Local Abbreviation getFullPortfolio := (Skill.getFullPortfolio sys js).
Local Abbreviation mark_dead := (Skill.mark_dead sys).
Local Abbreviation portfolio_check := (Skill.portfolio_check sys js).
Local Abbreviation kill_by_mint := Skill.kill_by_mint.

(** *** What the monitor reports *)

Lemma getTokenPerformance_fields token w :
  exists perf w',
    getTokenPerformance token w = (Returned perf, w')
    /\ (TokenPerformance.mint perf = DeployedToken.mint token
        /\ TokenPerformance.status perf = DeployedToken.status token
        /\ TokenPerformance.feesEarned perf = DeployedToken.totalFeesEarned token
        /\ TokenPerformance.volume24h perf = 0%float
        /\ TokenPerformance.retainedValue perf = 0%float)
    /\ World.state w' = World.state w /\ World.logs w' = World.logs w.
Proof.
  unfold Skill.getTokenPerformance.
  rewrite (bind_Returned _ _ _ _ _ (now_eq sys w)).
  match goal with
  | |- context [bind ?m ?k] =>
      assert (Hn : never_throws m) by auto 10 with frame;
      assert (Hk : keeps_host m) by auto 10 with frame
  end.
  match goal with
  | |- context [bind ?m ?k ?w0] => destruct (Hn w0) as (onchain & w' & E);
      destruct (Hk _ _ _ E) as [Hst Hlg]
  end.
  rewrite (bind_Returned _ _ _ _ _ E).
  eexists _, w'. split; [reflexivity|]. split; [now repeat split|].
  now split.
Qed.

Lemma portfolio_loop_fields tokens performances totalValueSol totalFees w :
  exists news w',
    portfolio_loop tokens performances totalValueSol totalFees w
    = (Returned ((performances ++ news)%list,
                 fold_left (fun v _ => (v + 0)%float) tokens totalValueSol,
                 fold_left
                   (fun f t => (f + DeployedToken.totalFeesEarned t)%float)
                   tokens totalFees),
       w')
    /\ map TokenPerformance.mint news = map DeployedToken.mint tokens
    /\ map TokenPerformance.status news = map DeployedToken.status tokens
    /\ World.state w' = World.state w /\ World.logs w' = World.logs w.
Proof.
  revert performances totalValueSol totalFees w.
  induction tokens as [|token rest IH]; intros performances value fees w; cbn.
  - exists [], w. rewrite app_nil_r. now repeat split.
  - destruct (getTokenPerformance_fields token w)
      as (perf & w1 & E & (Hm & Hs & Hf & _ & Hr) & Hst & Hlg).
    rewrite (bind_Returned _ _ _ _ _ E).
    destruct (IH (performances ++ [perf])%list
                 (value + TokenPerformance.retainedValue perf)%float
                 (fees + TokenPerformance.feesEarned perf)%float w1)
      as (news & w' & E' & Hms & Hss & Hst' & Hlg').
    exists (perf :: news), w'. rewrite E', <- app_assoc, Hr, Hf.
    split; [reflexivity|]. cbn. rewrite Hm, Hs, Hms, Hss.
    repeat split; congruence.
Qed.

Lemma no_value_added (tokens : list DeployedToken.t) :
  fold_left (fun v _ => (v + 0)%float) tokens 0%float = 0%float.
Proof. induction tokens as [|t rest IH]; [reflexivity|exact IH]. Qed.

Lemma active_and_dead_counted (tokens : list DeployedToken.t) :
  (List.length (filter DeployedToken.is_active tokens)
   + List.length (filter DeployedToken.is_dead tokens)
   <= List.length tokens)%nat.
Proof.
  induction tokens as [|t rest IH]; cbn; [lia|].
  unfold DeployedToken.is_active, DeployedToken.is_dead in *.
  destruct (DeployedToken.status t); cbn; lia.
Qed.

(** X10.  [getFullPortfolio] always returns and leaves state and log alone.
    Its summary lists the positions in the order of the registry, with their
    statuses; the counts of active and dead positions do not exceed the total;
    [totalFeesEarned] is the sum, from the left, of the fees the records
    carry; and [totalValueSol] is 0 for every registry, since the monitor
    reports a retained value of 0 for every position. *)
Theorem portfolio_summary_shape tokens w :
  exists summary w',
    getFullPortfolio tokens w = (Returned summary, w')
    /\ World.state w' = World.state w /\ World.logs w' = World.logs w
    /\ map TokenPerformance.mint (PortfolioSummary.tokens summary)
       = map DeployedToken.mint tokens
    /\ map TokenPerformance.status (PortfolioSummary.tokens summary)
       = map DeployedToken.status tokens
    /\ PortfolioSummary.totalTokens summary = Z.of_nat (List.length tokens)
    /\ (0 <= PortfolioSummary.activeTokens summary)%Z
    /\ (0 <= PortfolioSummary.deadTokens summary)%Z
    /\ (PortfolioSummary.activeTokens summary
        + PortfolioSummary.deadTokens summary
        <= PortfolioSummary.totalTokens summary)%Z
    /\ PortfolioSummary.totalValueSol summary = 0%float
    /\ PortfolioSummary.totalFeesEarned summary
       = fold_left (fun f t => (f + DeployedToken.totalFeesEarned t)%float)
           tokens 0%float.
Proof.
  unfold Skill.getFullPortfolio.
  destruct (portfolio_loop_fields tokens [] 0%float 0%float w)
    as (news & w' & E & Hm & Hs & Hst & Hlg).
  rewrite (bind_Returned _ _ _ _ _ E). cbn [app].
  eexists _, w'. split; [reflexivity|].
  cbn [PortfolioSummary.tokens PortfolioSummary.totalTokens
         PortfolioSummary.activeTokens PortfolioSummary.deadTokens
         PortfolioSummary.totalValueSol PortfolioSummary.totalFeesEarned].
  pose proof (active_and_dead_counted tokens).
  unfold Skill.activeCount.
  repeat split; try assumption; try lia. apply no_value_added.
Qed.

(** *** Failing look-ups *)

(** X11.  A position whose holder look-up throws is reported with no holders
    and a price of 0, and the price is not requested; one whose price request
    throws keeps its holder count and is reported with a price of 0.  In both
    cases [getTokenPerformance] returns. *)
Theorem performance_survives_failed_lookups token w :
  let e1 := snd (Date_now sys (World.ext w)) in
  (forall message e2,
     getTokenLargestAccounts sys (DeployedToken.mint token) e1
     = (Thrown message, e2) ->
     exists perf,
       getTokenPerformance token w
       = (Returned perf, World.make (World.state w) (World.logs w) e2)
       /\ TokenPerformance.holders perf = 0%Z
       /\ TokenPerformance.price perf = 0%float)
  /\ (forall holders e2 message e3,
        getTokenLargestAccounts sys (DeployedToken.mint token) e1
        = (Returned holders, e2) ->
        fetchDexScreenerPrice sys (DeployedToken.mint token) e2
        = (Thrown message, e3) ->
        exists perf,
          getTokenPerformance token w
          = (Returned perf, World.make (World.state w) (World.logs w) e3)
          /\ TokenPerformance.holders perf = holders
          /\ TokenPerformance.price perf = 0%float).
Proof.
  intros e1. split.
  - intros message e2 Hh. unfold Skill.getTokenPerformance.
    rewrite (bind_Returned _ _ _ _ _ (now_eq sys w)). fold e1.
    unfold try_catch, bind, await, ret. cbn [World.ext World.state World.logs].
    rewrite Hh. eexists. split; [reflexivity|]. now split.
  - intros holders e2 message e3 Hh Hp. unfold Skill.getTokenPerformance.
    rewrite (bind_Returned _ _ _ _ _ (now_eq sys w)). fold e1.
    unfold try_catch, bind, await, ret. cbn [World.ext World.state World.logs].
    rewrite Hh. cbn [World.ext World.state World.logs]. rewrite Hp.
    eexists. split; [reflexivity|]. now split.
Qed.

(** *** The heartbeat without the assumption on mints *)

Lemma kill_by_mint_first m before tk after :
  (forall t, In t before -> DeployedToken.mint t <> m) ->
  DeployedToken.mint tk = m ->
  kill_by_mint m (before ++ tk :: after)
  = (before ++ DeployedToken.with_status dead tk :: after)%list.
Proof.
  unfold Skill.kill_by_mint. intros Hb Hm.
  induction before as [|b rest IH]; cbn.
  - apply String.eqb_eq in Hm. now rewrite Hm.
  - destruct (String.eqb_spec (DeployedToken.mint b) m) as [Heq|_].
    + exfalso. apply (Hb b); [now left|exact Heq].
    + assert (Hrest : forall t, In t rest -> DeployedToken.mint t <> m)
        by (intros t Ht; apply Hb; now right).
      specialize (IH Hrest).
      destruct (JS.findIndex _ (rest ++ tk :: after)%list) as [i|].
      * cbn. now rewrite IH.
      * cbn. now rewrite <- IH.
Qed.

(** X12.  [tokens.findIndex] stops at the first record that has the mint: that
    record is the one set to dead, whichever record the performance entry came
    from, and a later record with the same mint is left as it is.  A mint the
    registry does not have changes nothing. *)
Theorem kill_by_mint_first_match m before tk after :
  (forall t, In t before -> DeployedToken.mint t <> m) ->
  (DeployedToken.mint tk = m ->
   kill_by_mint m (before ++ tk :: after)
   = (before ++ DeployedToken.with_status dead tk :: after)%list)
  /\ kill_by_mint m before = before.
Proof.
  intros Hb. split; [now apply kill_by_mint_first|].
  unfold Skill.kill_by_mint.
  induction before as [|b rest IH]; cbn; [reflexivity|].
  destruct (String.eqb_spec (DeployedToken.mint b) m) as [Heq|_].
  - exfalso. apply (Hb b); [now left|exact Heq].
  - assert (Hrest : forall t, In t rest -> DeployedToken.mint t <> m)
      by (intros t Ht; apply Hb; now right).
    specialize (IH Hrest).
    destruct (JS.findIndex _ rest) as [i|]; [|reflexivity].
    cbn. now rewrite IH.
Qed.

Lemma only_kills_refl (tokens : list DeployedToken.t) :
  Forall2 (fun old new => new = old \/ new = DeployedToken.with_status dead old)
    tokens tokens.
Proof. induction tokens; constructor; auto. Qed.

Lemma only_kills_trans (l1 l2 l3 : list DeployedToken.t) :
  Forall2 (fun old new => new = old \/ new = DeployedToken.with_status dead old)
    l1 l2 ->
  Forall2 (fun old new => new = old \/ new = DeployedToken.with_status dead old)
    l2 l3 ->
  Forall2 (fun old new => new = old \/ new = DeployedToken.with_status dead old)
    l1 l3.
Proof.
  intros H12. revert l3.
  induction H12 as [|a b l1 l2 Hab _ IH]; intros l3 H23.
  - inversion H23. constructor.
  - inversion H23 as [|? c ? l3' Hbc H23']; subst.
    constructor; [|now apply IH].
    destruct Hab as [->| ->], Hbc as [->| ->]; auto.
Qed.

Lemma kill_by_mint_only_kills m tokens :
  Forall2 (fun old new => new = old \/ new = DeployedToken.with_status dead old)
    tokens (kill_by_mint m tokens).
Proof.
  unfold Skill.kill_by_mint.
  induction tokens as [|tk rest IH]; cbn; [constructor|].
  destruct (String.eqb (DeployedToken.mint tk) m).
  - cbn. constructor; [now right|apply only_kills_refl].
  - destruct (JS.findIndex _ rest) as [i|]; cbn.
    + constructor; [now left|exact IH].
    + apply only_kills_refl.
Qed.

Lemma sweep_only_kills performances e tokens :
  Forall2 (fun old new => new = old \/ new = DeployedToken.with_status dead old)
    tokens (sweep sys performances e tokens).
Proof.
  revert e tokens. induction performances as [|p rest IH]; intros e tokens.
  - apply only_kills_refl.
  - cbn [sweep]. eapply only_kills_trans; [|apply IH].
    destruct (_ <? _)%Z; [apply kill_by_mint_only_kills|apply only_kills_refl].
Qed.

(** X13.  Whatever the registry holds, also records that share a mint, one run
    of [portfolio_check] returns, and all it does to the state is set
    positions to dead: the registry keeps its length and its order, every
    record is the one that was there or that one with [status = "dead"], and
    the cooldown timestamp and the ledger are as they were.  It logs at most
    one line. *)
Theorem portfolio_check_only_kills w :
  exists w',
    portfolio_check w = (Returned tt, w')
    /\ Forall2
         (fun old new => new = old \/ new = DeployedToken.with_status dead old)
         (JS.or_array (HostState.deployedTokens (World.state w)))
         (JS.or_array (HostState.deployedTokens (World.state w')))
    /\ HostState.lastDeployTimestamp (World.state w')
       = HostState.lastDeployTimestamp (World.state w)
    /\ HostState.totalInvested (World.state w')
       = HostState.totalInvested (World.state w)
    /\ HostState.totalEarned (World.state w')
       = HostState.totalEarned (World.state w)
    /\ (World.logs w' = World.logs w
        \/ exists line, World.logs w' = (World.logs w ++ [line])%list).
Proof.
  unfold Skill.portfolio_check.
  rewrite (bind_Returned getState _ w (World.state w) w eq_refl).
  destruct (List.length _ =? 0)%nat.
  - exists w. split; [reflexivity|]. split; [apply only_kills_refl|].
    repeat split. now left.
  - destruct (getFullPortfolio_spec sys js
                (JS.or_array (HostState.deployedTokens (World.state w))) w)
      as (summary & w1 & E & HF & Hst & Hlg).
    pose proof (mirrors_no_volume _ _ HF) as Hvol.
    rewrite (bind_Returned _ _ _ _ _ E).
    unfold bind at 1. unfold log at 1.
    match goal with
    | |- context [bind (mark_dead _ ?tks) _ ?w0] =>
        destruct (mark_dead_sweep sys (PortfolioSummary.tokens summary) tks w0 Hvol)
          as (w2 & E2 & Hst2 & Hlg2)
    end.
    rewrite (bind_Returned _ _ _ _ _ E2). unfold setState.
    eexists. split; [reflexivity|].
    cbn [World.state World.logs World.ext HostState.set_deployedTokens
           HostState.deployedTokens HostState.lastDeployTimestamp
           HostState.totalInvested HostState.totalEarned JS.or_array] in *.
    split; [apply sweep_only_kills|].
    rewrite Hst2, Hlg2, Hst, Hlg. repeat split. right. now eexists.
Qed.

End Registry.

(** ** More on the treasury and the deployments *)

Section Deployments.

Context {Ext : Type}.
Variable sys : Collaborators Ext.
Variable config : Config.t.
Variable js : Builtins.
Variable walletAddress : string.

Local Abbreviation getTreasuryState := (Skill.getTreasuryState sys walletAddress).
Local Abbreviation check_treasury := (Skill.check_treasury sys walletAddress).
Local Abbreviation deploy_memecoin :=
  (Skill.deploy_memecoin sys config js walletAddress).
Local Abbreviation deploy_utility_token := (Skill.deploy_utility_token sys config).
Local Abbreviation deploy_direct_with_pool :=
  (Skill.deploy_direct_with_pool sys config).
Local Abbreviation run_deployer := (Skill.run_deployer sys config).
Local Abbreviation totalCost := Skill.totalCost.
Local Abbreviation method_of := Skill.method_of.
Local Abbreviation new_token := Skill.new_token.

(** *** The treasury query *)

(** X14.  Once the balance query has answered, [getTreasuryState] returns: the
    SOL balance is the lamports over 10^9, the Conway credits are the constant
    0, and a USDC query that throws is a USDC balance of 0. *)
Theorem treasury_state_absorbs_missing_usdc w lamports e1 :
  getBalance sys (World.ext w) = (Returned lamports, e1) ->
  exists treasury w',
    getTreasuryState w = (Returned treasury, w')
    /\ World.state w' = World.state w /\ World.logs w' = World.logs w
    /\ Treasury.solBalance treasury = (lamports / 1000000000)%float
    /\ Treasury.conwayCredits treasury = 0%float
    /\ Treasury.walletAddress treasury = walletAddress
    /\ (forall message e2,
          getUsdcAmount sys e1 = (Thrown message, e2) ->
          Treasury.usdcBalance treasury = 0%float /\ World.ext w' = e2)
    /\ (forall amount e2,
          getUsdcAmount sys e1 = (Returned amount, e2) ->
          Treasury.usdcBalance treasury = (amount / 1000000)%float
          /\ World.ext w' = e2).
Proof.
  intros Hb. unfold Skill.getTreasuryState, try_catch, bind, await, ret.
  rewrite Hb. cbn [World.ext World.state World.logs].
  destruct (getUsdcAmount sys e1) as [[amount|message] e2];
    eexists _, _; (split; [reflexivity|]);
    cbn [World.ext World.state World.logs Treasury.solBalance
           Treasury.conwayCredits Treasury.walletAddress Treasury.usdcBalance];
    repeat split; try reflexivity;
    match goal with
    | H : (_, _) = (_, _) |- _ => inversion H; subst; reflexivity
    end.
Qed.

(** X15.  What [check_treasury] reports, when it does: the net result is
    earned minus invested, on the ledger as read with [|| 0]; the active
    positions are among the deployed ones; the credits shown are 0; state and
    log are untouched. *)
Theorem check_treasury_report w report w' :
  check_treasury w = (Returned (TreasuryPayload report), w') ->
  World.state w' = World.state w /\ World.logs w' = World.logs w
  /\ TreasuryReport.totalInvested report
     = JS.or_number (HostState.totalInvested (World.state w)) 0
  /\ TreasuryReport.totalEarned report
     = JS.or_number (HostState.totalEarned (World.state w)) 0
  /\ TreasuryReport.netPnl report
     = (TreasuryReport.totalEarned report
        - TreasuryReport.totalInvested report)%float
  /\ (0 <= TreasuryReport.activeTokens report
      <= TreasuryReport.deployedTokenCount report)%Z
  /\ Treasury.conwayCredits (TreasuryReport.treasury report) = 0%float.
Proof.
  unfold Skill.check_treasury.
  rewrite (bind_Returned getState _ w (World.state w) w eq_refl).
  unfold bind at 1.
  destruct (Skill.getTreasuryState sys walletAddress w) as [[tr|e] w1] eqn:E;
    [|discriminate].
  destruct (getTreasuryState_keeps_host sys walletAddress _ _ _ E) as [Hst Hlg].
  assert (Hc : Treasury.conwayCredits tr = 0%float).
  { revert E. unfold Skill.getTreasuryState, try_catch, bind, await, ret.
    destruct (getBalance sys (World.ext w)) as [[l|m] e1]; [|discriminate].
    cbn [World.ext World.state World.logs].
    destruct (getUsdcAmount sys e1) as [[a|m] e2]; intros H; now inversion H. }
  unfold ret. intros H. inversion H; subst. clear H.
  cbn [TreasuryReport.totalInvested TreasuryReport.totalEarned
         TreasuryReport.netPnl TreasuryReport.activeTokens
         TreasuryReport.deployedTokenCount TreasuryReport.treasury].
  repeat split; try assumption; unfold Skill.activeCount; try lia.
  apply inj_le, filter_length_le.
Qed.

(** *** Successful deployments *)

Lemma deploy_memecoin_success params w result w' :
  deploy_memecoin params w = (Returned (DeploySuccess result), w') ->
  exists w2 w3,
    World.state w2 = World.state w /\ World.logs w2 = World.logs w
    /\ run_deployer params (method_of params) w2 = (Returned result, w3)
    /\ w' = recorded sys params (totalCost params) result w3.
Proof.
  destruct (Skill.getTreasuryState sys walletAddress w) as [[tr|e] w1] eqn:E.
  2:{ unfold Skill.deploy_memecoin. now rewrite (bind_Thrown _ _ _ _ _ E). }
  destruct (getTreasuryState_keeps_host sys walletAddress _ _ _ E) as [Hst Hlg].
  rewrite (deploy_memecoin_after_query sys config js walletAddress _ _ _ _ E).
  destruct (_ <=? _)%Z; [discriminate|].
  unfold Skill.solvency_gate. destruct (_ <? _)%float; [discriminate|].
  rewrite cooldown_gate_eq. cbv zeta.
  destruct (_ <? _)%Z; [discriminate|].
  rewrite deploy_and_record_eq.
  match goal with
  | |- context [Skill.run_deployer sys config params ?m ?w0] =>
      destruct (Skill.run_deployer sys config params m w0) as [[r|e] w3] eqn:Er;
      [|discriminate];
      intros H; inversion H; subst; exists w0, w3
  end.
  now repeat split.
Qed.

(** X16.  The cooldown follows a success.  After a [deploy_memecoin] that
    succeeded, the state holds a [lastDeployTimestamp], and any later
    request on that state whose first clock reading is less than the
    cooldown after it is turned down with an error and changes nothing,
    whatever it asks for and whatever the wallet holds. *)
Theorem cooldown_follows_success params w result w' :
  deploy_memecoin params w = (Returned (DeploySuccess result), w') ->
  exists lastDeploy,
    HostState.lastDeployTimestamp (World.state w') = Some lastDeploy
    /\ forall params' w2 treasury w3,
         World.state w2 = World.state w' ->
         getTreasuryState w2 = (Returned treasury, w3) ->
         (clock_reading sys 0 (World.ext w3) - lastDeploy
          < Config.deployCooldownMs config)%Z ->
         exists message w4,
           deploy_memecoin params' w2 = (Returned (ErrorResult message), w4)
           /\ World.state w4 = World.state w'.
Proof.
  intros H. destruct (deploy_memecoin_success _ _ _ _ H)
    as (w0 & w1 & _ & _ & _ & ->).
  eexists. split; [reflexivity|].
  intros params' w2 treasury w3 Hstate Hq Hclock.
  destruct (getTreasuryState_keeps_host sys walletAddress _ _ _ Hq) as [Hst Hlg].
  rewrite (deploy_memecoin_after_query sys config js walletAddress _ _ _ _ Hq).
  destruct (_ <=? _)%Z; [eexists _, _; split; [reflexivity|congruence]|].
  unfold Skill.solvency_gate.
  destruct (_ <? _)%float; [eexists _, _; split; [reflexivity|congruence]|].
  rewrite cooldown_gate_eq. cbv zeta. rewrite Hst, Hstate.
  cbn [recorded World.state HostState.lastDeployTimestamp JS.or_int] in *.
  match goal with
  | |- context [if (?a - ?l <? ?c)%Z then _ else _] =>
      assert (Hl : (a - l <? c)%Z = true)
  end.
  { apply Z.ltb_lt. destruct (clock_reading sys 1 (World.ext w1) =? 0)%Z eqn:Ez.
    - apply Z.eqb_eq in Ez. rewrite Ez in Hclock. exact Hclock.
    - exact Hclock. }
  rewrite Hl. eexists _, _. split; [reflexivity|]. reflexivity.
Qed.

(** X17.  With pump.fun disabled, a request that names no method is deployed
    by [deployDirect] (with its pool), and still recorded with [method =
    "pumpfun"]: the registry then holds a bonding-curve position that has no
    bonding curve. *)
Theorem direct_deploy_recorded_as_pumpfun params w result w' :
  Config.pumpfunEnabled config = false ->
  DeployParams.method params = None ->
  deploy_memecoin params w = (Returned (DeploySuccess result), w') ->
  exists w2 w3 deployedAt,
    World.state w2 = World.state w
    /\ deploy_direct_with_pool params w2 = (Returned result, w3)
    /\ JS.or_array (HostState.deployedTokens (World.state w'))
       = (JS.or_array (HostState.deployedTokens (World.state w))
          ++ [new_token params pumpfun deployedAt result])%list
    /\ DeployedToken.method (new_token params pumpfun deployedAt result)
       = pumpfun.
Proof.
  intros Hoff Hnone H.
  destruct (deploy_memecoin_success _ _ _ _ H)
    as (w2 & w3 & Hst & _ & Hrun & ->).
  exists w2, w3. eexists. split; [exact Hst|].
  revert Hrun. unfold Skill.run_deployer, Skill.method_of.
  rewrite Hnone, Hoff, andb_false_r. intros Hrun. split; [exact Hrun|].
  assert (Hk : World.state w3 = World.state w2).
  { revert Hrun. unfold Skill.deploy_direct_with_pool. intros Hrun.
    apply (keeps_host_bind (await (deployDirect sys params))
             (Skill.attach_pool sys config params)) in Hrun; [tauto| |].
    - apply keeps_host_await.
    - intros r. unfold Skill.attach_pool.
      destruct (DeployParams.lpSol params); auto 10 with frame. }
  cbn [recorded World.state HostState.deployedTokens JS.or_array].
  unfold Skill.method_of. rewrite Hnone, Hk, Hst. now split.
Qed.

(** X18.  A pool that cannot be created loses the token to the registry: when
    the utility deployer has returned a mint and [createPool] throws,
    [deploy_utility_token] returns the error and records nothing, so the mint
    that now exists on chain is in no state key. *)
Theorem utility_token_unrecorded_on_pool_failure
  params w result e1 lpSol message e2 :
  utilityDeploy sys params (World.ext w) = (Returned result, e1) ->
  DeployParams.lpSol params = Some lpSol ->
  Config.raydiumEnabled config && JS.truthy lpSol = true ->
  createPool sys (DeployResult.mint result) lpSol e1 = (Thrown message, e2) ->
  deploy_utility_token params w
  = (Returned (ErrorResult message),
     World.make (World.state w) (World.logs w) e2).
Proof.
  intros Hd Hlp Hon Hpool.
  unfold Skill.deploy_utility_token, Skill.attach_pool, try_catch, bind, await.
  rewrite Hd, Hlp, Hon. cbn [World.ext World.state World.logs].
  now rewrite Hpool.
Qed.

End Deployments.

(** ** The survival check, the swap and the periodic tasks *)

Section PeriodicTasks.

Context {Ext : Type}.
Variable sys : Collaborators Ext.
Variable jupiter : Jupiter Ext.
Variable feeds : Feeds Ext.
Variable config : Config.t.
Variable js : Builtins.
Variable walletAddress : string.
Variable toISOString : Z -> string.
Variable Math_floor : float -> float.

Local Abbreviation checkStatus := (Skill.checkStatus sys js).
Local Abbreviation determine_tier := Skill.determine_tier.
Local Abbreviation needs_bridge := Skill.needs_bridge.
Local Abbreviation swapSolToUsdc := (Periodic.swapSolToUsdc jupiter Math_floor).
Local Abbreviation swap_to_usdc := (Periodic.swap_to_usdc jupiter Math_floor).
Local Abbreviation treasury_rebalance :=
  (Periodic.treasury_rebalance sys jupiter config js walletAddress Math_floor).
Local Abbreviation strategy_review := (Periodic.strategy_review sys js toISOString).
Local Abbreviation performanceData := Periodic.performanceData.
Local Abbreviation bestPerformer := Periodic.bestPerformer.
Local Abbreviation analyze := (Periodic.analyze sys feeds).
Local Abbreviation analyze_source := (Periodic.analyze_source sys feeds).
Local Abbreviation analyze_loop := (Periodic.analyze_loop sys feeds).

(** *** The automatic bridge *)

(** X19.  Outside the tiers low_compute and critical, or with a USDC balance
    that is not above 1, [checkStatus] calls no collaborator at all: the world
    is untouched and the action is the text of the tier. *)
Theorem auto_bridge_guarded treasury w :
  needs_bridge (tier_of (Treasury.conwayCredits treasury))
  && (1 <? Treasury.usdcBalance treasury)%float = false ->
  exists status,
    checkStatus treasury w = (Returned status, w)
    /\ SurvivalStatus.tier status = tier_of (Treasury.conwayCredits treasury)
    /\ SurvivalStatus.action status
       = snd (fst (determine_tier (Treasury.conwayCredits treasury))).
Proof.
  unfold Skill.checkStatus, tier_of.
  destruct (Skill.determine_tier (Treasury.conwayCredits treasury))
    as [[tier action] costPerHour].
  cbn [fst snd]. intros Hguard. rewrite Hguard.
  eexists. split; [reflexivity|]. now split.
Qed.

(** X20.  When the bridge is attempted, the amount is [Math.min(usdc * 0.8,
    50)], at most 50.  A bridge that throws is reported in the action text and
    the credits are not topped up; a top-up that throws after the bridge has
    gone through is reported with the same words.  [checkStatus] returns in
    both cases. *)
Theorem auto_bridge_failure_is_reported treasury w :
  needs_bridge (tier_of (Treasury.conwayCredits treasury)) = true ->
  (1 <? Treasury.usdcBalance treasury)%float = true ->
  let amount := JS.Math_min (Treasury.usdcBalance treasury * 0.8)%float 50 in
  let action := snd (fst (determine_tier (Treasury.conwayCredits treasury))) in
  (is_nan (Treasury.usdcBalance treasury * 0.8)%float = false ->
   (amount <=? 50)%float = true)
  /\ (forall message e1,
        bridgeUsdcToBase sys amount (World.ext w) = (Thrown message, e1) ->
        exists status,
          checkStatus treasury w
          = (Returned status, World.make (World.state w) (World.logs w) e1)
          /\ SurvivalStatus.action status
             = (action ++ " Bridge attempt failed: " ++ message)%string)
  /\ (forall e1 message e2,
        bridgeUsdcToBase sys amount (World.ext w) = (Returned tt, e1) ->
        topUpConwayCredits sys amount e1 = (Thrown message, e2) ->
        exists status,
          checkStatus treasury w
          = (Returned status, World.make (World.state w) (World.logs w) e2)
          /\ SurvivalStatus.action status
             = (action ++ " Bridge attempt failed: " ++ message)%string).
Proof.
  intros Htier Husdc amount action. split; [|split].
  - intros Hnan. unfold amount, JS.Math_min. rewrite Hnan.
    change (is_nan 50) with false. cbv iota.
    destruct (_ <? 50)%float eqn:E; [now apply ltb_leb|reflexivity].
  - intros message e1 Hb. revert Htier. unfold Skill.checkStatus, tier_of.
    subst action amount.
    destruct (Skill.determine_tier (Treasury.conwayCredits treasury))
      as [[tier act] costPerHour].
    cbn [fst snd]. intros Htier. rewrite Htier, Husdc. cbn [andb].
    unfold try_catch, bind, await, ret. rewrite Hb.
    eexists. split; reflexivity.
  - intros e1 message e2 Hb Ht. revert Htier. unfold Skill.checkStatus, tier_of.
    subst action amount.
    destruct (Skill.determine_tier (Treasury.conwayCredits treasury))
      as [[tier act] costPerHour].
    cbn [fst snd]. intros Htier. rewrite Htier, Husdc. cbn [andb].
    unfold try_catch, bind, await, ret. rewrite Hb.
    cbn [World.ext World.state World.logs]. rewrite Ht.
    eexists. split; reflexivity.
Qed.

(** *** The swap *)

Lemma swapSolToUsdc_keeps_host solAmount : keeps_host (swapSolToUsdc solAmount).
Proof.
  unfold Periodic.swapSolToUsdc.
  apply keeps_host_bind; [apply keeps_host_await|]. intros quoteResp.
  apply keeps_host_if; [intros w r w' H; now inversion H|].
  apply keeps_host_bind; [intros w r w' H; now inversion H|]. intros quoteData.
  apply keeps_host_bind; [apply keeps_host_await|]. intros swapResp.
  apply keeps_host_if; [intros w r w' H; now inversion H|].
  apply keeps_host_bind; [intros w r w' H; now inversion H|]. intros tx.
  apply keeps_host_bind; [apply keeps_host_await|]. intros signature.
  apply keeps_host_ret.
Qed.

(** X21.  [swap_to_usdc] never throws and writes nothing: whatever Jupiter and
    the node do, it returns a swap result or [{ error }], with state and log
    as they were. *)
Theorem swap_to_usdc_never_throws amountSol w :
  exists r w',
    swap_to_usdc amountSol w = (Returned r, w')
    /\ World.state w' = World.state w /\ World.logs w' = World.logs w.
Proof.
  unfold Periodic.swap_to_usdc, try_catch. unfold bind at 1.
  destruct (Periodic.swapSolToUsdc jupiter Math_floor amountSol w)
    as [[r|message] w'] eqn:E;
    destruct (swapSolToUsdc_keeps_host _ _ _ _ E) as [Hst Hlg];
    eexists _, _; (split; [reflexivity|]); now split.
Qed.

(** X22.  The swap stops at the first response that is not [ok]: a refused
    quote is the error [Jupiter quote failed: <statusText>] and no swap
    transaction is requested; a refused swap request is [Jupiter swap failed:
    <statusText>] and nothing is signed or sent.  When all three steps go
    through, the result reports the amount asked for as the input and the
    quote's [outAmount / 10^6] as the output. *)
Theorem swap_stops_at_refused_response amountSol w quoteResp e1 :
  fetchQuote jupiter
    (Math_floor (amountSol * Skill.LAMPORTS_PER_SOL)%float) (World.ext w)
  = (Returned quoteResp, e1) ->
  (Response.ok quoteResp = false ->
   swap_to_usdc amountSol w
   = (Returned (SwapError ("Jupiter quote failed: "
                           ++ Response.statusText quoteResp)),
      World.make (World.state w) (World.logs w) e1))
  /\ (forall quoteData swapResp e2,
        Response.ok quoteResp = true ->
        Response.json quoteResp = Returned quoteData ->
        fetchSwap jupiter quoteData e1 = (Returned swapResp, e2) ->
        (Response.ok swapResp = false ->
         swap_to_usdc amountSol w
         = (Returned (SwapError ("Jupiter swap failed: "
                                 ++ Response.statusText swapResp)),
            World.make (World.state w) (World.logs w) e2))
        /\ (forall swapTransaction signature e3,
              Response.ok swapResp = true ->
              Response.json swapResp = Returned swapTransaction ->
              sendAndConfirm jupiter swapTransaction e2
              = (Returned signature, e3) ->
              swap_to_usdc amountSol w
              = (Returned
                   (SwapPayload
                      (SwapResult.make amountSol
                         (Quote.outAmount quoteData / 1000000)%float
                         signature)),
                 World.make (World.state w) (World.logs w) e3))).
Proof.
  intros Hq. split.
  - intros Hok.
    unfold Periodic.swap_to_usdc, Periodic.swapSolToUsdc, try_catch, bind,
      await, ret.
    rewrite Hq, Hok. reflexivity.
  - intros quoteData swapResp e2 Hok Hjson Hs. split.
    + intros Hok2.
      unfold Periodic.swap_to_usdc, Periodic.swapSolToUsdc, try_catch, bind,
        await, ret.
      rewrite Hq, Hok. cbn [negb]. rewrite Hjson.
      cbn [World.ext World.state World.logs]. rewrite Hs, Hok2. reflexivity.
    + intros swapTransaction signature e3 Hok2 Hjson2 Hsend.
      unfold Periodic.swap_to_usdc, Periodic.swapSolToUsdc, try_catch, bind,
        await, ret.
      rewrite Hq, Hok. cbn [negb]. rewrite Hjson.
      cbn [World.ext World.state World.logs]. rewrite Hs, Hok2. cbn [negb].
      rewrite Hjson2. cbn [World.ext World.state World.logs].
      rewrite Hsend. reflexivity.
Qed.

(** *** The [treasury_rebalance] heartbeat *)

Lemma getTreasuryState_no_credits w treasury w1 :
  Skill.getTreasuryState sys walletAddress w = (Returned treasury, w1) ->
  Treasury.conwayCredits treasury = 0%float.
Proof.
  unfold Skill.getTreasuryState, try_catch, bind, await, ret.
  destruct (getBalance sys (World.ext w)) as [[l|m] e1]; [|discriminate].
  cbn [World.ext World.state World.logs].
  destruct (getUsdcAmount sys e1) as [[a|m] e2]; intros H; now inversion H.
Qed.

Lemma checkStatus_no_credits treasury w :
  Treasury.conwayCredits treasury = 0%float ->
  exists status,
    checkStatus treasury w = (Returned status, w)
    /\ SurvivalStatus.tier status = tier_dead
    /\ SurvivalStatus.action status = "No credits remaining. Agent will stop.".
Proof.
  intros Hc. unfold Skill.checkStatus. rewrite Hc.
  eexists. split; [reflexivity|]. now split.
Qed.

(** X23.  The treasury query reports 0 Conway credits whatever the wallet
    holds, so the survival check of [treasury_rebalance] finds the tier dead
    on every run: a run that returns has not touched the state, has bridged
    nothing, and its last log line is the warning for the dead tier.  Only
    the treasury query can make the heartbeat throw.  Between the treasury
    line and the warning the log has the line of the swap and nothing
    else: none when the excess over the reserve and 0.5 SOL is not above
    0.1, else the amount swapped, or the message of the swap that
    failed. *)
Theorem treasury_rebalance_always_reports_dead w treasury w1 :
  Skill.getTreasuryState sys walletAddress w = (Returned treasury, w1) ->
  exists w' earlier,
    treasury_rebalance w = (Returned tt, w')
    /\ World.state w' = World.state w
    /\ World.logs w'
       = (World.logs w
          ++ ("[heartbeat] Treasury: "
              ++ Number_toFixed js 4 (Treasury.solBalance treasury) ++ " SOL, "
              ++ Number_toFixed js 2 (Treasury.usdcBalance treasury)
              ++ " USDC")%string
          :: earlier
          ++ ["[heartbeat] ⚠️ Survival tier: dead - No credits remaining. Agent will stop."])%list
    /\ earlier
       = (let excessSol :=
            (Treasury.solBalance treasury - Config.survivalReserveSol config
             - 0.5)%float in
          let swapAmount := (excessSol * 0.5)%float in
          if (0.1 <? excessSol)%float
          then
            [match
               fst (swapSolToUsdc swapAmount
                      (World.make (World.state w)
                         (World.logs w
                          ++ [("[heartbeat] Treasury: "
                               ++ Number_toFixed js 4
                                    (Treasury.solBalance treasury)
                               ++ " SOL, "
                               ++ Number_toFixed js 2
                                    (Treasury.usdcBalance treasury)
                               ++ " USDC")%string])%list
                         (World.ext w1)))
             with
             | Returned _ =>
                 ("[heartbeat] Swapped " ++ Number_toFixed js 4 swapAmount
                  ++ " SOL → USDC")%string
             | Thrown message =>
                 ("[heartbeat] USDC swap failed: " ++ message)%string
             end]
          else []).
Proof.
  intros Hq.
  destruct (getTreasuryState_keeps_host sys walletAddress _ _ _ Hq) as [Hst Hlg].
  pose proof (getTreasuryState_no_credits _ _ _ Hq) as Hc.
  unfold Periodic.treasury_rebalance.
  rewrite (bind_Returned _ _ _ _ _ Hq).
  unfold bind at 1. unfold log at 1. rewrite Hst, Hlg.
  unfold Periodic.excessSol. cbv zeta.
  set (line := ("[heartbeat] Treasury: "
                ++ Number_toFixed js 4 (Treasury.solBalance treasury)
                ++ " SOL, "
                ++ Number_toFixed js 2 (Treasury.usdcBalance treasury)
                ++ " USDC")%string).
  set (excessSol := (Treasury.solBalance treasury
                     - Config.survivalReserveSol config - 0.5)%float).
  set (w0 := World.make (World.state w) (World.logs w ++ [line])%list
               (World.ext w1)).
  match goal with
  | |- context [bind ?m ?k w0] =>
      assert (Hswap : exists w2 earlier,
                 m w0 = (Returned tt, w2)
                 /\ World.state w2 = World.state w0
                 /\ World.logs w2 = (World.logs w0 ++ earlier)%list
                 /\ earlier
                    = (if (0.1 <? excessSol)%float
                       then
                         [match
                            fst (swapSolToUsdc (excessSol * 0.5)%float w0)
                          with
                          | Returned _ =>
                              ("[heartbeat] Swapped "
                               ++ Number_toFixed js 4 (excessSol * 0.5)%float
                               ++ " SOL → USDC")%string
                          | Thrown message =>
                              ("[heartbeat] USDC swap failed: "
                               ++ message)%string
                          end]
                       else []))
  end.
  { destruct (0.1 <? excessSol)%float.
    - unfold try_catch. unfold bind at 1.
      destruct (Periodic.swapSolToUsdc jupiter Math_floor
                  (excessSol * 0.5)%float w0)
        as [[r|message] w2] eqn:E;
        destruct (swapSolToUsdc_keeps_host _ _ _ _ E) as [Hst2 Hlg2].
      + unfold log. eexists _, _. split; [reflexivity|].
        cbn [World.state World.logs fst]. rewrite Hst2, Hlg2. now repeat split.
      + unfold log. eexists _, _. split; [reflexivity|].
        cbn [World.state World.logs fst]. rewrite Hst2, Hlg2. now repeat split.
    - eexists _, []. split; [reflexivity|]. now rewrite app_nil_r. }
  destruct Hswap as (w2 & earlier & Hs & Hst2 & Hlg2 & Hearlier).
  rewrite (bind_Returned _ _ _ _ _ Hs).
  destruct (checkStatus_no_credits treasury w2 Hc) as (status & E & Ht & Ha).
  rewrite (bind_Returned _ _ _ _ _ E). rewrite Ht, Ha. unfold log.
  eexists _, earlier. split; [reflexivity|].
  cbn [World.state World.logs] in *. rewrite Hst2, Hlg2.
  split; [reflexivity|]. split; [|exact Hearlier].
  subst w0. cbn [World.logs]. now rewrite <- !app_assoc.
Qed.

(** *** The [strategy_review] heartbeat *)

(** X24.  The review returns; the history it stores is the old one with
    today's entry pushed, cut to its last 30 entries: never more than 30,
    today's entry last, older entries dropped from the front only.  The entry
    is computed from the state the heartbeat started with, which it leaves as
    it was. *)
Theorem strategy_review_keeps_thirty_days dailyPerformance w :
  let entry :=
    performanceData (World.state w)
      (toISOString (clock_reading sys 0 (World.ext w))) in
  exists history w',
    strategy_review dailyPerformance w = (Returned history, w')
    /\ World.state w' = World.state w
    /\ List.length history
       = Nat.min 30 (S (List.length (JS.or_array dailyPerformance)))
    /\ (exists kept, history = (kept ++ [entry])%list)
    /\ (exists dropped,
          (JS.or_array dailyPerformance ++ [entry])%list
          = (dropped ++ history)%list).
Proof.
  intros entry. unfold Periodic.strategy_review.
  rewrite (bind_Returned getState _ w (World.state w) w eq_refl).
  unfold bind at 1. unfold log at 1.
  rewrite (bind_Returned _ _ _ _ _ (now_eq sys _)).
  cbn [World.ext World.state World.logs]. unfold ret.
  eexists _, _. split; [reflexivity|]. split; [reflexivity|].
  change (fst (Date_now sys (World.ext w)))
    with (clock_reading sys 0 (World.ext w)).
  fold entry. unfold JSArray.slice_last.
  set (h := JS.or_array dailyPerformance).
  rewrite length_app. cbn [List.length].
  split; [rewrite length_skipn, length_app; cbn [List.length]; lia|].
  split.
  - exists (skipn (List.length h + 1 - 30) h).
    rewrite skipn_app.
    replace (List.length h + 1 - 30 - List.length h)%nat with 0%nat by lia.
    reflexivity.
  - exists (firstn (List.length h + 1 - 30) (h ++ [entry])%list).
    now rewrite firstn_skipn.
Qed.

(** X25.  The best performer of a review is a record of the registry, and
    there is one exactly when some record carries fees above 0: for a registry
    whose records all have [totalFeesEarned = 0] the entry says [null]. *)
Theorem bestPerformer_needs_fees tokens :
  (bestPerformer tokens = None <->
   Forall (fun t => (0 <? DeployedToken.totalFeesEarned t)%float = false) tokens)
  /\ (forall best, bestPerformer tokens = Some best -> In best tokens)
  /\ (Forall (fun t => DeployedToken.totalFeesEarned t = 0%float) tokens ->
      bestPerformer tokens = None).
Proof.
  unfold Periodic.bestPerformer.
  set (step := fun (best : option DeployedToken.t) (t : DeployedToken.t) =>
                 if (JS.or_number
                       (option_map DeployedToken.totalFeesEarned best) 0
                     <? DeployedToken.totalFeesEarned t)%float
                 then Some t else best).
  assert (Hsome : forall l b, exists b', fold_left step l (Some b) = Some b'
                                         /\ (b' = b \/ In b' l)).
  { induction l as [|t rest IH]; intros b; cbn.
    - exists b. auto.
    - unfold step at 2. destruct (_ <? _)%float.
      + destruct (IH t) as (b' & E & [Hb|Hin]); exists b'; subst; auto.
      + destruct (IH b) as (b' & E & [Hb|Hin]); exists b'; auto. }
  assert (Hnone : forall l,
            (fold_left step l None = None <->
             Forall (fun t => (0 <? DeployedToken.totalFeesEarned t)%float = false) l)
            /\ (forall b, fold_left step l None = Some b -> In b l)).
  { induction l as [|t rest [IH1 IH2]]; cbn.
    - split; [split; [constructor|reflexivity]|discriminate].
    - unfold step at 2 4. cbn [option_map JS.or_number].
      destruct (0 <? DeployedToken.totalFeesEarned t)%float eqn:E.
      + destruct (Hsome rest t) as (b' & E' & Hb'). rewrite E'. split.
        * split; [discriminate|]. intros HF. inversion HF; congruence.
        * intros b Hb. injection Hb as <-.
          destruct Hb' as [Heq|Hin]; [left; now symmetry|now right].
      + split.
        * rewrite IH1. split; [now constructor|]. intros HF. now inversion HF.
        * intros b Hb. right. now apply IH2. }
  destruct (Hnone tokens) as [H1 H2]. split; [exact H1|]. split; [exact H2|].
  intros HF. apply H1. eapply Forall_impl; [|exact HF].
  intros t Ht. cbn beta in Ht. now rewrite Ht.
Qed.

(** *** The trend analyzer *)

Lemma analyze_source_spec source run :
  analyze_source source = Some run ->
  forall w, exists r w',
    run w = (Returned r, w')
    /\ World.state w' = World.state w /\ World.logs w' = World.logs w
    /\ TrendData.source r = source
    /\ (List.length (TrendData.trends r) <= 10)%nat
    /\ (List.length (TrendData.topTokens r) <= 10)%nat.
Proof.
  unfold Periodic.analyze_source.
  destruct (String.eqb_spec source "dexscreener") as [->|_].
  { intros H w. inversion H; subst run. clear H.
    unfold Periodic.analyzeDexScreener, Periodic.empty_trends, try_catch,
      bind, await, now, ret.
    destruct (fetchBoosts feeds (World.ext w)) as [[data|message] e1];
      cbn [World.ext World.state World.logs];
      destruct (Date_now sys e1) as [t e2];
      eexists _, _; (split; [reflexivity|]);
      cbn [World.state World.logs TrendData.source TrendData.trends
             TrendData.topTokens List.length];
      repeat split; try lia;
      rewrite length_map; apply firstn_le_length. }
  destruct (String.eqb_spec source "twitter") as [->|_].
  { intros H w. inversion H; subst run. clear H.
    unfold Periodic.analyzeTwitterTrends, Periodic.empty_trends, bind, now, ret.
    destruct (Date_now sys (World.ext w)) as [t e2].
    eexists _, _. split; [reflexivity|]. cbn. repeat split; lia. }
  destruct (String.eqb_spec source "reddit") as [->|_]; [|discriminate].
  intros H w. inversion H; subst run. clear H.
  unfold Periodic.analyzeRedditTrends, Periodic.empty_trends, try_catch,
    bind, await, now, ret.
  destruct (fetchRedditHot feeds (World.ext w)) as [[posts|message] e1];
    cbn [World.ext World.state World.logs];
    destruct (Date_now sys e1) as [t e2];
    eexists _, _; (split; [reflexivity|]);
    cbn [World.state World.logs TrendData.source TrendData.trends
           TrendData.topTokens List.length];
    repeat split; try lia; apply firstn_le_length.
Qed.

(** X26.  [analyze] never throws, whatever the feeds do, and writes nothing.
    It answers with one entry per source it knows, in the order asked, a
    source it does not know being passed over in silence; no entry has more
    than 10 trends or 10 top tokens. *)
Theorem analyze_answers_known_sources sources w :
  exists results w',
    analyze sources w = (Returned results, w')
    /\ World.state w' = World.state w /\ World.logs w' = World.logs w
    /\ map TrendData.source results
       = filter (fun s => match analyze_source s with
                          | Some _ => true
                          | None => false
                          end) sources
    /\ Forall (fun r => (List.length (TrendData.trends r) <= 10)%nat
                        /\ (List.length (TrendData.topTokens r) <= 10)%nat)
         results.
Proof.
  unfold Periodic.analyze.
  assert (Hloop : forall l acc w0,
            exists news w',
              analyze_loop l acc w0 = (Returned (acc ++ news)%list, w')
              /\ World.state w' = World.state w0
              /\ World.logs w' = World.logs w0
              /\ map TrendData.source news
                 = filter (fun s => match analyze_source s with
                                    | Some _ => true
                                    | None => false
                                    end) l
              /\ Forall (fun r => (List.length (TrendData.trends r) <= 10)%nat
                                  /\ (List.length (TrendData.topTokens r) <= 10)%nat)
                   news).
  { induction l as [|source rest IH]; intros acc w0; cbn [Periodic.analyze_loop filter].
    - exists [], w0. rewrite app_nil_r. now repeat split.
    - destruct (Periodic.analyze_source sys feeds source) as [run|] eqn:Es.
      + destruct (analyze_source_spec _ _ Es w0)
          as (r & w1 & E & Hst & Hlg & Hsrc & Ht & Htt).
        rewrite (bind_Returned _ _ _ _ _ E).
        destruct (IH (acc ++ [r])%list w1)
          as (news & w' & E' & Hst' & Hlg' & Hmap & HF).
        exists (r :: news), w'. rewrite E', <- app_assoc.
        split; [reflexivity|]. cbn [map]. rewrite Hmap, Hsrc.
        repeat split; try congruence. constructor; [now split|exact HF].
      + apply IH. }
  destruct (Hloop sources [] w) as (news & w' & E & H). now exists news, w'.
Qed.

End PeriodicTasks.

(** ** Tools that catch what their collaborators throw *)

(** X27.  [deploy_utility_token], [harvest_fees] and [check_portfolio] return
    for every input and every behaviour of the node, the deployers, the pool
    manager and the wallet: what a collaborator throws reaches the caller as
    [{ error }] or as a default value, never as an exception. *)
Theorem guarded_tools_never_throw {Ext : Type} (sys : Collaborators Ext)
  (config : Config.t) (js : Builtins) (walletAddress : string) :
  (forall params, never_throws (Skill.deploy_utility_token sys config params))
  /\ (forall tokenMint,
        never_throws (Skill.harvest_fees sys config js walletAddress tokenMint))
  /\ never_throws (Skill.check_portfolio sys js).
Proof.
  split; [|split].
  - intros params. apply deploy_utility_token_never_throws.
  - intros tokenMint. apply harvest_fees_never_throws.
  - apply check_portfolio_never_throws.
Qed.

(** ** Instruction data *)

Section Wire.

Lemma of_number_value v :
  Z.of_N (Byte.to_N (Buffer.of_number v)) = (v mod 256)%Z.
Proof.
  unfold Buffer.of_number.
  pose proof (Z.mod_pos_bound v 256 eq_refl) as Hb.
  destruct (Byte.of_N (Z.to_N (v mod 256))) as [b|] eqn:E.
  - apply Byte.to_of_N in E. rewrite E. apply Z2N.id. lia.
  - apply Byte.of_N_None_iff in E. lia.
Qed.

Lemma length_little_endian width v :
  List.length (Buffer.little_endian width v) = width.
Proof.
  revert v. induction width as [|n IH]; intros v; cbn; [reflexivity|].
  now rewrite IH.
Qed.

Lemma read_little_endian_inverse width v :
  (0 <= v < 2 ^ (8 * Z.of_nat width))%Z ->
  Buffer.read_little_endian (Buffer.little_endian width v) = v.
Proof.
  revert v. induction width as [|n IH]; intros v Hv.
  - cbn in *. lia.
  - cbn [Buffer.little_endian Buffer.read_little_endian].
    rewrite of_number_value, IH.
    + pose proof (Z.div_mod v 256). lia.
    + replace (8 * Z.of_nat (S n))%Z with (8 + 8 * Z.of_nat n)%Z in Hv by lia.
      rewrite Z.pow_add_r in Hv by lia. change (2 ^ 8)%Z with 256%Z in Hv.
      split; [apply Z.div_pos; lia|].
      apply Z.div_lt_upper_bound; lia.
Qed.

Lemma writeUIntLE_Some width v bytes :
  Buffer.writeUIntLE width v = Some bytes ->
  List.length bytes = width /\ Buffer.read_little_endian bytes = v
  /\ (0 <= v < 2 ^ (8 * Z.of_nat width))%Z.
Proof.
  unfold Buffer.writeUIntLE.
  destruct (0 <=? v)%Z eqn:E1; [|discriminate].
  destruct (v <? 2 ^ (8 * Z.of_nat width))%Z eqn:E2; [|discriminate].
  cbn [andb]. intros H. inversion H; subst bytes.
  apply Z.leb_le in E1. apply Z.ltb_lt in E2.
  split; [apply length_little_endian|].
  split; [now apply read_little_endian_inverse|lia].
Qed.

Lemma writeUIntLE_in_range width v :
  (0 <= v < 2 ^ (8 * Z.of_nat width))%Z ->
  Buffer.writeUIntLE width v = Some (Buffer.little_endian width v).
Proof.
  intros [H1 H2]. unfold Buffer.writeUIntLE.
  apply Z.leb_le in H1. apply Z.ltb_lt in H2. now rewrite H1, H2.
Qed.

Lemma app_same_length {A : Type} (l1 l2 r1 r2 : list A) :
  (l1 ++ r1 = l2 ++ r2)%list -> List.length l1 = List.length l2 ->
  l1 = l2 /\ r1 = r2.
Proof.
  revert l2. induction l1 as [|a l1 IH]; intros [|b l2]; cbn;
    try discriminate; intros H Hlen; [now split|].
  inversion H; subst. destruct (IH l2) as [-> ->]; [assumption|lia|].
  now split.
Qed.

Lemma written_fields_agree width v v' b b' (rest rest' : list Byte.byte) :
  Buffer.writeUIntLE width v = Some b ->
  Buffer.writeUIntLE width v' = Some b' ->
  (b ++ rest = b' ++ rest')%list ->
  v = v' /\ rest = rest'.
Proof.
  intros H H' Heq.
  destruct (writeUIntLE_Some _ _ _ H) as (Hl & Hr & _).
  destruct (writeUIntLE_Some _ _ _ H') as (Hl' & Hr' & _).
  destruct (app_same_length _ _ _ _ Heq) as [-> ->]; [congruence|].
  split; congruence.
Qed.

Variable Buffer_from : string -> list Byte.byte.

Local Abbreviation length_prefixed := (Instruction.length_prefixed Buffer_from).
Local Abbreviation creator_bytes := Instruction.creator_bytes.
Local Abbreviation creators_bytes := Instruction.creators_bytes.
Local Abbreviation serializeCreateMetadataV3 :=
  (Instruction.serializeCreateMetadataV3 Buffer_from).
Local Abbreviation createOnChainMetadata_data :=
  (Instruction.createOnChainMetadata_data Buffer_from).
Local Abbreviation buildPumpFunBuyInstruction_data :=
  Instruction.buildPumpFunBuyInstruction_data.

Lemma length_prefixed_agree text text' field field' (rest rest' : list Byte.byte) :
  length_prefixed text = Some field ->
  length_prefixed text' = Some field' ->
  (field ++ rest = field' ++ rest')%list ->
  Buffer_from text = Buffer_from text' /\ rest = rest'.
Proof.
  unfold Instruction.length_prefixed, Buffer.writeUInt32LE.
  destruct (Buffer.writeUIntLE 4 _) as [len|] eqn:E; [|discriminate].
  destruct (Buffer.writeUIntLE 4 (Z.of_nat (List.length (Buffer_from text'))))
    as [len'|] eqn:E'; [|discriminate].
  intros H H' Heq. inversion H; inversion H'; subst. clear H H'.
  rewrite <- !app_assoc in Heq.
  destruct (written_fields_agree _ _ _ _ _ _ _ E E' Heq) as [Hlen Hrest].
  apply app_same_length in Hrest; [exact Hrest|lia].
Qed.

Lemma length_creator_bytes c :
  List.length (Creator.address c) = 32%nat ->
  List.length (creator_bytes c) = 34%nat.
Proof.
  intros H. unfold Instruction.creator_bytes. rewrite !length_app, H.
  reflexivity.
Qed.

Lemma creator_list_agree cs cs' (rest rest' : list Byte.byte) :
  Forall (fun c => List.length (Creator.address c) = 32%nat) cs ->
  Forall (fun c => List.length (Creator.address c) = 32%nat) cs' ->
  List.length cs = List.length cs' ->
  (List.concat (map creator_bytes cs) ++ rest
   = List.concat (map creator_bytes cs') ++ rest')%list ->
  map creator_bytes cs = map creator_bytes cs' /\ rest = rest'.
Proof.
  intros HF. revert cs'.
  induction HF as [|c cs Hc _ IH]; intros [|c' cs'] HF' Hlen Heq;
    try discriminate Hlen.
  - now split.
  - inversion HF' as [|? ? Hc' HF'']; subst.
    cbn [map List.concat] in Heq. rewrite <- !app_assoc in Heq.
    apply app_same_length in Heq.
    2:{ rewrite !length_creator_bytes by assumption. reflexivity. }
    destruct Heq as [Hhead Htail].
    destruct (IH cs' HF'' ltac:(cbn in Hlen; lia) Htail) as [Hmap Hrest].
    cbn [map]. now rewrite Hhead, Hmap.
Qed.

Lemma creators_agree creators creators' field field' (rest rest' : list Byte.byte) :
  (forall cs, creators = Some cs ->
     Forall (fun c => List.length (Creator.address c) = 32%nat) cs) ->
  (forall cs, creators' = Some cs ->
     Forall (fun c => List.length (Creator.address c) = 32%nat) cs) ->
  creators_bytes creators = Some field ->
  creators_bytes creators' = Some field' ->
  (field ++ rest = field' ++ rest')%list ->
  option_map (map creator_bytes) creators
  = option_map (map creator_bytes) creators'
  /\ rest = rest'.
Proof.
  intros Hk Hk'. unfold Instruction.creators_bytes, Buffer.writeUInt32LE.
  destruct creators as [cs|], creators' as [cs'|].
  - destruct (Buffer.writeUIntLE 4 (Z.of_nat (List.length cs)))
      as [count|] eqn:E; [|discriminate].
    destruct (Buffer.writeUIntLE 4 (Z.of_nat (List.length cs')))
      as [count'|] eqn:E'; [|discriminate].
    intros H H' Heq. inversion H; inversion H'; subst. clear H H'.
    cbn [app] in Heq. inversion Heq as [Heq']. clear Heq.
    rewrite <- !app_assoc in Heq'.
    destruct (written_fields_agree _ _ _ _ _ _ _ E E' Heq') as [Hlen Hrest].
    destruct (creator_list_agree cs cs' rest rest')
      as [Hmap Hr]; auto; [lia|].
    cbn [option_map]. now rewrite Hmap.
  - destruct (Buffer.writeUIntLE 4 _); [|discriminate].
    intros H H' Heq. inversion H; inversion H'; subst.
    cbn [app] in Heq. now inversion Heq.
  - destruct (Buffer.writeUIntLE 4 _); [|discriminate].
    intros H H' Heq. inversion H; inversion H'; subst.
    cbn [app] in Heq. now inversion Heq.
  - intros H H' Heq. inversion H; inversion H'; subst.
    cbn [app] in Heq. inversion Heq. now split.
Qed.

(** X28.  The serialization is unambiguous.  With public keys of 32 bytes, two
    arguments that [serializeCreateMetadataV3] turns into the same bytes have
    the same encoded name, symbol and URI, the same fee, and the same
    creators, Byte.byte for Byte.byte: a reader of the instruction data cannot
    take one token's metadata for another's. *)
Theorem serialized_metadata_is_unambiguous a b bytes :
  (forall cs, MetadataArgs.creators a = Some cs ->
     Forall (fun c => List.length (Creator.address c) = 32%nat) cs) ->
  (forall cs, MetadataArgs.creators b = Some cs ->
     Forall (fun c => List.length (Creator.address c) = 32%nat) cs) ->
  serializeCreateMetadataV3 a = Some bytes ->
  serializeCreateMetadataV3 b = Some bytes ->
  Buffer_from (MetadataArgs.name a) = Buffer_from (MetadataArgs.name b)
  /\ Buffer_from (MetadataArgs.symbol a) = Buffer_from (MetadataArgs.symbol b)
  /\ Buffer_from (MetadataArgs.uri a) = Buffer_from (MetadataArgs.uri b)
  /\ MetadataArgs.sellerFeeBasisPoints a = MetadataArgs.sellerFeeBasisPoints b
  /\ option_map (map creator_bytes) (MetadataArgs.creators a)
     = option_map (map creator_bytes) (MetadataArgs.creators b).
Proof.
  intros Hka Hkb. unfold Instruction.serializeCreateMetadataV3.
  destruct (length_prefixed (MetadataArgs.name a)) as [n|] eqn:En;
    [|discriminate].
  destruct (length_prefixed (MetadataArgs.symbol a)) as [s|] eqn:Es;
    [|discriminate].
  destruct (length_prefixed (MetadataArgs.uri a)) as [u|] eqn:Eu;
    [|discriminate].
  destruct (Buffer.writeUInt16LE (MetadataArgs.sellerFeeBasisPoints a))
    as [f|] eqn:Ef; [|discriminate].
  destruct (creators_bytes (MetadataArgs.creators a)) as [c|] eqn:Ec;
    [|discriminate].
  destruct (length_prefixed (MetadataArgs.name b)) as [n'|] eqn:En';
    [|discriminate].
  destruct (length_prefixed (MetadataArgs.symbol b)) as [s'|] eqn:Es';
    [|discriminate].
  destruct (length_prefixed (MetadataArgs.uri b)) as [u'|] eqn:Eu';
    [|discriminate].
  destruct (Buffer.writeUInt16LE (MetadataArgs.sellerFeeBasisPoints b))
    as [f'|] eqn:Ef'; [|discriminate].
  destruct (creators_bytes (MetadataArgs.creators b)) as [c'|] eqn:Ec';
    [|discriminate].
  intros Ha Hb. rewrite <- Hb in Ha. clear Hb.
  inversion Ha as [H0]. clear Ha.
  destruct (length_prefixed_agree _ _ _ _ _ _ En En' H0) as [Hn H1].
  destruct (length_prefixed_agree _ _ _ _ _ _ Es Es' H1) as [Hs H2].
  destruct (length_prefixed_agree _ _ _ _ _ _ Eu Eu' H2) as [Hu H3].
  destruct (written_fields_agree _ _ _ _ _ _ _ Ef Ef' H3) as [Hf H4].
  destruct (creators_agree _ _ _ _ _ _ Hka Hkb Ec Ec' H4) as [Hc _].
  now repeat split.
Qed.

(** X29.  The instruction data of [createOnChainMetadata], for a public key of
    32 bytes and a name, a symbol and a URI that, cut to 32, 10 and 200
    characters, encode to fewer than 2^32 bytes: the serializer does not
    throw, the data start with the discriminator 33 and end with the four
    bytes 0, 0, 1, 0, and they are 58 bytes longer than the three encoded
    strings together. *)
Theorem metadata_instruction_layout wallet name symbol uri :
  List.length wallet = 32%nat ->
  (Z.of_nat (List.length (Buffer_from (String.substring 0 32 name)))
   < 2 ^ 32)%Z ->
  (Z.of_nat (List.length (Buffer_from (String.substring 0 10 symbol)))
   < 2 ^ 32)%Z ->
  (Z.of_nat (List.length (Buffer_from (String.substring 0 200 uri)))
   < 2 ^ 32)%Z ->
  exists body,
    createOnChainMetadata_data wallet name symbol uri
    = Some (Buffer.of_number 33 :: body
            ++ [Buffer.of_number 0; Buffer.of_number 0;
                Buffer.of_number 1; Buffer.of_number 0])%list
    /\ List.length body
       = (53 + List.length (Buffer_from (String.substring 0 32 name))
          + List.length (Buffer_from (String.substring 0 10 symbol))
          + List.length (Buffer_from (String.substring 0 200 uri)))%nat.
Proof.
  intros Hw Hname Hsymbol Huri.
  assert (Hfield : forall text,
            (Z.of_nat (List.length (Buffer_from text)) < 2 ^ 32)%Z ->
            length_prefixed text
            = Some (Buffer.little_endian 4
                      (Z.of_nat (List.length (Buffer_from text)))
                    ++ Buffer_from text)%list).
  { intros text Hshort.
    unfold Instruction.length_prefixed, Buffer.writeUInt32LE.
    rewrite writeUIntLE_in_range; [reflexivity|].
    split; [lia|exact Hshort]. }
  exists (Buffer.little_endian 4
            (Z.of_nat (List.length (Buffer_from (String.substring 0 32 name))))
          ++ Buffer_from (String.substring 0 32 name)
          ++ Buffer.little_endian 4
               (Z.of_nat (List.length (Buffer_from (String.substring 0 10 symbol))))
          ++ Buffer_from (String.substring 0 10 symbol)
          ++ Buffer.little_endian 4
               (Z.of_nat (List.length (Buffer_from (String.substring 0 200 uri))))
          ++ Buffer_from (String.substring 0 200 uri)
          ++ Buffer.little_endian 2 0
          ++ Buffer.of_number 1 :: Buffer.little_endian 4 1
          ++ creator_bytes (Creator.make wallet true 100))%list.
  split.
  - unfold Instruction.createOnChainMetadata_data,
      Instruction.serializeCreateMetadataV3.
    cbn [MetadataArgs.name MetadataArgs.symbol MetadataArgs.uri
           MetadataArgs.sellerFeeBasisPoints MetadataArgs.creators].
    rewrite (Hfield _ Hname), (Hfield _ Hsymbol), (Hfield _ Huri).
    unfold Instruction.creators_bytes, Buffer.writeUInt16LE,
      Buffer.writeUInt32LE.
    rewrite (writeUIntLE_in_range 2 0) by (split; [lia|reflexivity]).
    cbn [List.length].
    rewrite (writeUIntLE_in_range 4 (Z.of_nat 1)) by (split; [lia|reflexivity]).
    cbn [map List.concat Z.of_nat Pos.of_succ_nat].
    rewrite app_nil_r. f_equal. cbn [app]. f_equal.
    repeat rewrite <- app_assoc. cbn [app]. reflexivity.
  - rewrite !length_app. cbn [List.length]. rewrite !length_app.
    rewrite length_creator_bytes by exact Hw.
    rewrite !length_little_endian. lia.
Qed.


End Wire.

(** ** Runs *)


(** One pooled position whose pool collects 0.03 SOL and answers with
    the placeholder signature: the fees are in the entry and in the total,
    and no signature is reported. *)
Lemma harvest_signatures_run :
  exists r w',
    Skill.harvest (Scenario.collaborators Cases.placeholder_pays)
      Scenario.wallet "all"
      (JS.or_array (HostState.deployedTokens Cases.one_pool))
      (Scenario.world Cases.one_pool 1100000)
    = (Returned r, w')
    /\ HarvestResult.breakdown r
       = [BreakdownEntry.make "MintA" "GLDR" 0.03 0]
    /\ HarvestResult.totalHarvested r = (0 + (0.03 + 0))%float
    /\ HarvestResult.txSignatures r = [].
Proof.
  destruct (Skill.harvest (Scenario.collaborators Cases.placeholder_pays)
              Scenario.wallet "all"
              (JS.or_array (HostState.deployedTokens Cases.one_pool))
              (Scenario.world Cases.one_pool 1100000))
    as [[r|message] w'] eqn:E; [|vm_compute in E; discriminate].
  destruct (harvest_reports_no_placeholder _ _ _ _ _ _ _ E)
    as (_ & Hsum & Hpos).
  destruct (Hpos [] (Scenario.token "MintA" spl_direct 1000000 (Some "PoolA")
                       active)
              [] "PoolA" Skill.no_harvest
              (Scenario.world Cases.one_pool 1100000)
              (CollectedFees.make 0.03 0 "PLACEHOLDER_TX") 1100000%Z
              eq_refl eq_refl eq_refl ltac:(discriminate) eq_refl)
    as (creatorFees & w2 & rest & later & Hcreator & Hbreakdown & Hrest & _).
  vm_compute in Hcreator. injection Hcreator as <- _.
  destruct rest; [|discriminate Hrest].
  exists r, w'. split; [reflexivity|]. split; [exact Hbreakdown|].
  split; [rewrite Hsum, Hbreakdown; reflexivity|].
  vm_compute in E. now injection E as <- _.
Defined.

(** [harvest_fees] on an empty state: nothing harvested, [totalEarned]
    written as 0. *)
Lemma harvest_of_nothing_run :
  Skill.harvest_fees (Scenario.collaborators Scenario.healthy)
    (Scenario.config 0.5 5 3600000) Scenario.builtins Scenario.wallet None
    (Scenario.world Scenario.empty_state 1100000)
  = (Returned (HarvestPayload Skill.no_harvest),
     Scenario.world (HostState.make None None None (Some 0%float)) 1100000).
Proof.
  rewrite (proj2 (harvest_of_nothing
                    (Scenario.collaborators Scenario.healthy)
                    (Scenario.config 0.5 5 3600000) Scenario.builtins
                    Scenario.wallet None
                    (Scenario.world Scenario.empty_state 1100000) eq_refl)).
  reflexivity.
Defined.

(** A fee transfer of 0.05 SOL followed by a transaction that cannot be
    loaded: the creator fees come out as 0. *)
Lemma creator_fees_lost_run :
  Skill.scan_signatures (Scenario.collaborators Cases.lookup_fails)
    Scenario.wallet ["tx1"] 0
    (Scenario.world Scenario.one_position 1100000)
  = (Returned 0.05%float, Scenario.world Scenario.one_position 1100000)
  /\ Skill.checkPumpFunCreatorFees (Scenario.collaborators Cases.lookup_fails)
       Scenario.wallet "MintA"
       (Scenario.world Scenario.one_position 1100000)
     = (Returned 0%float, Scenario.world Scenario.one_position 1100000).
Proof.
  assert (Hscan :
    Skill.scan_signatures (Scenario.collaborators Cases.lookup_fails)
      Scenario.wallet ["tx1"] 0
      (Scenario.world Scenario.one_position 1100000)
    = (Returned 0.05%float, Scenario.world Scenario.one_position 1100000))
    by (vm_compute; reflexivity).
  split; [exact Hscan|].
  exact (creator_fees_lost_on_failed_lookup
           (Scenario.collaborators Cases.lookup_fails) Scenario.wallet
           "MintA" ["tx1"] "tx2" []
           (Scenario.world Scenario.one_position 1100000) 1100000%Z
           0.05%float (Scenario.world Scenario.one_position 1100000)
           "503 Service Unavailable" 1100000%Z eq_refl Hscan eq_refl).
Defined.

(** Two bonding-curve positions and one fee transfer of 0.05 SOL to the
    wallet: the harvest credits it to both. *)
Lemma creator_fees_counted_twice_run :
  exists r,
    Skill.harvest (Scenario.collaborators Scenario.creator_income)
      Scenario.wallet "all"
      (JS.or_array (HostState.deployedTokens Cases.two_curves))
      (Scenario.world Cases.two_curves 1100000)
    = (Returned r, Scenario.world Cases.two_curves 1100000)
    /\ map BreakdownEntry.creatorFees (HarvestResult.breakdown r)
       = [0.05%float; 0.05%float].
Proof.
  destruct (Skill.harvest (Scenario.collaborators Scenario.creator_income)
              Scenario.wallet "all"
              (JS.or_array (HostState.deployedTokens Cases.two_curves))
              (Scenario.world Cases.two_curves 1100000))
    as [[r|message] w'] eqn:E; [|vm_compute in E; discriminate].
  destruct (creator_fees_repeat_per_position
              (Scenario.collaborators Scenario.creator_income) Scenario.wallet
              (fun e => eq_refl) (fun sig e => eq_refl) (fun a e => eq_refl)
              "all" (JS.or_array (HostState.deployedTokens Cases.two_curves))
              (Scenario.world Cases.two_curves 1100000) r w'
              "MintA" 0.05%float (Scenario.world Cases.two_curves 1100000))
    as [Hw Hfees].
  - vm_compute. reflexivity.
  - exact E.
  - subst w'. exists r. split; [reflexivity|]. rewrite Hfees. reflexivity.
Defined.

(** The same three pools: no LP fees in any entry. *)
Lemma placeholder_pools_run :
  exists r w',
    Skill.harvest (Scenario.collaborators Scenario.healthy)
      Scenario.wallet "all"
      (JS.or_array (HostState.deployedTokens Scenario.three_pools))
      (Scenario.world Scenario.three_pools 1100000)
    = (Returned r, w')
    /\ HarvestResult.txSignatures r = []
    /\ Forall (fun e => BreakdownEntry.lpFees e = 0%float)
         (HarvestResult.breakdown r).
Proof.
  destruct (Skill.harvest (Scenario.collaborators Scenario.healthy)
              Scenario.wallet "all"
              (JS.or_array (HostState.deployedTokens Scenario.three_pools))
              (Scenario.world Scenario.three_pools 1100000))
    as [[r|message] w'] eqn:E; [|vm_compute in E; discriminate].
  exists r, w'. split; [reflexivity|].
  apply (placeholder_pools_pay_nothing
           (Scenario.collaborators Scenario.healthy) _ _ _ _ _ _
           (fun a e => eq_refl) E).
Defined.

(** Creator fees of 0.05 SOL harvested with a split of 0: the ledger is
    written, nothing is sent, nothing is logged. *)
Lemma harvest_without_split_run :
  exists result w',
    Skill.harvest_fees (Scenario.collaborators Scenario.creator_income)
      Cases.split_off Scenario.builtins Scenario.wallet None
      (Scenario.world Scenario.one_position 1100000)
    = (Returned (HarvestPayload result), w')
    /\ World.logs w' = []
    /\ HostState.totalEarned (World.state w')
       = Some (0 + HarvestResult.totalHarvested result)%float.
Proof.
  destruct (harvest_fees_without_split
              (Scenario.collaborators Scenario.creator_income)
              Cases.split_off Scenario.builtins Scenario.wallet None
              (Scenario.world Scenario.one_position 1100000) eq_refl)
    as (result & w1 & _ & E).
  eexists result, _. split; [exact E|]. split; reflexivity.
Defined.

(** A position whose holder look-up is refused. *)
Lemma performance_without_holders_run :
  exists perf w',
    Skill.getTokenPerformance (Scenario.collaborators Cases.indexer_down)
      Scenario.builtins (Scenario.token "MintA" pumpfun 1000000 None active)
      (Scenario.world Scenario.one_position 1100000)
    = (Returned perf, w')
    /\ TokenPerformance.holders perf = 0%Z
    /\ TokenPerformance.price perf = 0%float.
Proof.
  destruct (proj1 (performance_survives_failed_lookups
                     (Scenario.collaborators Cases.indexer_down)
                     Scenario.builtins
                     (Scenario.token "MintA" pumpfun 1000000 None active)
                     (Scenario.world Scenario.one_position 1100000))
              "429 Too Many Requests" 1100001%Z eq_refl)
    as (perf & E & H).
  exists perf. eexists. split; [exact E|exact H].
Defined.

(** Two records with one mint: the first is the one set to dead. *)
Lemma kill_by_mint_twins_run :
  Skill.kill_by_mint "MintT" Cases.twins
  = [Scenario.token "MintT" pumpfun 99999000 None dead;
     Scenario.token "MintT" pumpfun 0 None active].
Proof.
  refine (proj1 (kill_by_mint_first_match "MintT" []
                   (Scenario.token "MintT" pumpfun 99999000 None active)
                   [Scenario.token "MintT" pumpfun 0 None active] _) eq_refl).
  intros t [].
Defined.

(** The heartbeat on the two records with one mint, a day and more after
    the deployment of the second: the record that is a second old is set to
    dead, and the old one stays active. *)
Lemma portfolio_check_twins_run :
  exists w',
    Skill.portfolio_check (Scenario.collaborators Scenario.healthy)
      Scenario.builtins (Scenario.world Cases.twin_registry 100000000)
    = (Returned tt, w')
    /\ JS.or_array (HostState.deployedTokens (World.state w'))
       = [Scenario.token "MintT" pumpfun 99999000 None dead;
          Scenario.token "MintT" pumpfun 0 None active].
Proof.
  destruct (portfolio_check_only_kills
              (Scenario.collaborators Scenario.healthy) Scenario.builtins
              (Scenario.world Cases.twin_registry 100000000))
    as (w' & E & _).
  exists w'. split; [exact E|].
  vm_compute in E. injection E as <-. reflexivity.
Defined.

(** The treasury of a wallet with 2 SOL and no USDC account. *)
Lemma treasury_state_run :
  exists treasury w',
    Skill.getTreasuryState (Scenario.collaborators Scenario.healthy)
      Scenario.wallet (Scenario.world Scenario.empty_state 1100000)
    = (Returned treasury, w')
    /\ Treasury.solBalance treasury = 2%float
    /\ Treasury.usdcBalance treasury = 0%float
    /\ Treasury.conwayCredits treasury = 0%float.
Proof.
  destruct (treasury_state_absorbs_missing_usdc
              (Scenario.collaborators Scenario.healthy) Scenario.wallet
              (Scenario.world Scenario.empty_state 1100000)
              2000000000%float 1100000%Z eq_refl)
    as (treasury & w' & E & _ & _ & Hsol & Hcredits & _ & Hthrown & _).
  exists treasury, w'. split; [exact E|].
  split; [rewrite Hsol; reflexivity|].
  split; [|exact Hcredits].
  exact (proj1 (Hthrown "TokenAccountNotFoundError" 1100000%Z eq_refl)).
Defined.

(** The report on one position that cost 1.55 SOL and earned nothing. *)
Lemma check_treasury_run :
  exists report w',
    Skill.check_treasury (Scenario.collaborators Scenario.healthy)
      Scenario.wallet (Scenario.world Scenario.one_position 1100000)
    = (Returned (TreasuryPayload report), w')
    /\ TreasuryReport.netPnl report = (0 - 1.55)%float
    /\ (0 <= TreasuryReport.activeTokens report
        <= TreasuryReport.deployedTokenCount report)%Z.
Proof.
  destruct (Skill.check_treasury (Scenario.collaborators Scenario.healthy)
              Scenario.wallet (Scenario.world Scenario.one_position 1100000))
    as [[[r|r|s|report|err]|message] w'] eqn:E;
    try (vm_compute in E; discriminate).
  exists report, w'. split; [reflexivity|].
  destruct (check_treasury_report _ _ _ _ _ E)
    as (_ & _ & Hinv & Hearn & Hpnl & Hcount & _).
  split; [|exact Hcount].
  rewrite Hpnl, Hinv, Hearn. reflexivity.
Defined.

(** A first deployment on an empty state, then a second request on the
    state it left: the second is turned down. *)
Lemma cooldown_after_deploy_run :
  exists result w' message w4,
    Skill.deploy_memecoin (Scenario.collaborators Scenario.healthy)
      (Scenario.config 0 5 3600000) Scenario.builtins Scenario.wallet
      Scenario.params (Scenario.world Scenario.empty_state 100000000)
    = (Returned (DeploySuccess result), w')
    /\ Skill.deploy_memecoin (Scenario.collaborators Scenario.healthy)
         (Scenario.config 0 5 3600000) Scenario.builtins Scenario.wallet
         Scenario.params w'
       = (Returned (ErrorResult message), w4)
    /\ World.state w4 = World.state w'.
Proof.
  destruct (Skill.deploy_memecoin (Scenario.collaborators Scenario.healthy)
              (Scenario.config 0 5 3600000) Scenario.builtins Scenario.wallet
              Scenario.params (Scenario.world Scenario.empty_state 100000000))
    as [[[result|r|s|report|err]|thrown] w'] eqn:E;
    try (vm_compute in E; discriminate).
  destruct (cooldown_follows_success _ _ _ _ _ _ _ _ E)
    as (deployedAt & Hlast & Hlater).
  pose proof E as E0. vm_compute in E0. injection E0 as <- <-.
  vm_compute in Hlast. injection Hlast as <-.
  destruct (Hlater Scenario.params _ Scenario.two_sol _ eq_refl eq_refl)
    as (message & w4 & E4 & Hstate).
  - vm_compute. reflexivity.
  - eexists _, _, message, w4. split; [reflexivity|]. split; [exact E4|exact Hstate].
Defined.

(** With pump.fun disabled, the default request is deployed by
    [deployDirect] (mint [MintB]) and recorded as a pump.fun position. *)
Lemma direct_deploy_label_run :
  exists result w',
    Skill.deploy_memecoin (Scenario.collaborators Scenario.healthy)
      Cases.pumpfun_off Scenario.builtins Scenario.wallet
      Scenario.params (Scenario.world Scenario.empty_state 100000000)
    = (Returned (DeploySuccess result), w')
    /\ DeployResult.mint result = "MintB"
    /\ map DeployedToken.method
         (JS.or_array (HostState.deployedTokens (World.state w')))
       = [pumpfun].
Proof.
  destruct (Skill.deploy_memecoin (Scenario.collaborators Scenario.healthy)
              Cases.pumpfun_off Scenario.builtins Scenario.wallet
              Scenario.params (Scenario.world Scenario.empty_state 100000000))
    as [[[result|r|s|report|err]|thrown] w'] eqn:E;
    try (vm_compute in E; discriminate).
  destruct (direct_deploy_recorded_as_pumpfun
              (Scenario.collaborators Scenario.healthy) Cases.pumpfun_off
              Scenario.builtins Scenario.wallet Scenario.params _ _ _
              eq_refl eq_refl E)
    as (w2 & w3 & deployedAt & _ & _ & Hreg & _).
  exists result, w'. split; [reflexivity|].
  split; [|rewrite Hreg; reflexivity].
  vm_compute in E. now injection E as <- _.
Defined.

(** The utility deployer returns [MintU], the pool is refused: the tool
    answers with the error and the registry still has its one position. *)
Lemma utility_pool_refused_run :
  Skill.deploy_utility_token (Scenario.collaborators Cases.pool_refused)
    (Scenario.config 0.5 5 3600000) Cases.with_pool
    (Scenario.world Scenario.one_position 1100000)
  = (Returned (ErrorResult "insufficient funds for rent"),
     Scenario.world Scenario.one_position 1100000).
Proof.
  exact (utility_token_unrecorded_on_pool_failure
           (Scenario.collaborators Cases.pool_refused)
           (Scenario.config 0.5 5 3600000) Cases.with_pool
           (Scenario.world Scenario.one_position 1100000)
           (Scenario.deployed "MintU") 1100000%Z 1%float
           "insufficient funds for rent" 1100000%Z
           eq_refl eq_refl eq_refl eq_refl).
Defined.

(** Without credits the tier is dead and nothing is bridged. *)
Lemma no_bridge_run :
  exists status,
    Skill.checkStatus (Scenario.collaborators Scenario.healthy)
      Scenario.builtins Scenario.two_sol
      (Scenario.world Scenario.empty_state 1100000)
    = (Returned status, Scenario.world Scenario.empty_state 1100000)
    /\ SurvivalStatus.tier status = tier_dead.
Proof.
  destruct (auto_bridge_guarded (Scenario.collaborators Scenario.healthy)
              Scenario.builtins Scenario.two_sol
              (Scenario.world Scenario.empty_state 1100000) eq_refl)
    as (status & E & Htier & _).
  exists status. split; [exact E|]. rewrite Htier. reflexivity.
Defined.

(** 5 credits and 100 USDC: 50 USDC are to be bridged, and the bridge
    fails. *)
Lemma bridge_failure_run :
  JS.Math_min (100 * 0.8)%float 50 = 50%float
  /\ exists status w',
       Skill.checkStatus (Scenario.collaborators Cases.bridge_down)
         Scenario.builtins Cases.low_on_credits
         (Scenario.world Scenario.empty_state 1100000)
       = (Returned status, w')
       /\ SurvivalStatus.action status
          = "Low credits. Switch to cheaper model. Prioritize fee harvesting. Bridge attempt failed: attestation timed out".
Proof.
  split; [reflexivity|].
  destruct (auto_bridge_failure_is_reported
              (Scenario.collaborators Cases.bridge_down) Scenario.builtins
              Cases.low_on_credits
              (Scenario.world Scenario.empty_state 1100000) eq_refl eq_refl)
    as (_ & Hbridge & _).
  destruct (Hbridge "attestation timed out" 1100000%Z eq_refl)
    as (status & E & Haction).
  exists status. eexists. split; [exact E|]. rewrite Haction. reflexivity.
Defined.

(** A quote endpoint that answers 503. *)
Lemma swap_refused_run :
  Periodic.swap_to_usdc Cases.jupiter_down (fun x => x) 1
    (Scenario.world Scenario.empty_state 1100000)
  = (Returned (SwapError "Jupiter quote failed: Service Unavailable"),
     Scenario.world Scenario.empty_state 1100000).
Proof.
  refine (proj1 (swap_stops_at_refused_response Cases.jupiter_down
                   (fun x => x) 1
                   (Scenario.world Scenario.empty_state 1100000)
                   _ 1100000%Z eq_refl) eq_refl).
Defined.

(** The heartbeat on a wallet with 2 SOL and a reserve of 0.5: half of the
    excess is swapped, and the run ends on the warning. *)
Lemma treasury_rebalance_run :
  exists w',
    Periodic.treasury_rebalance (Scenario.collaborators Scenario.healthy)
      Cases.jupiter_up (Scenario.config 0.5 5 3600000) Scenario.builtins
      Scenario.wallet (fun x => x)
      (Scenario.world Scenario.empty_state 1100000)
    = (Returned tt, w')
    /\ World.state w' = Scenario.empty_state
    /\ World.logs w'
       = ["[heartbeat] Treasury: <number> SOL, <number> USDC";
          "[heartbeat] Swapped <number> SOL → USDC";
          "[heartbeat] ⚠️ Survival tier: dead - No credits remaining. Agent will stop."].
Proof.
  destruct (treasury_rebalance_always_reports_dead
              (Scenario.collaborators Scenario.healthy) Cases.jupiter_up
              (Scenario.config 0.5 5 3600000) Scenario.builtins
              Scenario.wallet (fun x => x)
              (Scenario.world Scenario.empty_state 1100000)
              Scenario.two_sol
              (Scenario.world Scenario.empty_state 1100000) eq_refl)
    as (w' & earlier & E & Hstate & _).
  exists w'. split; [exact E|]. split; [exact Hstate|].
  vm_compute in E. injection E as <-. reflexivity.
Defined.

(** Three sources asked, one of them unknown, the Reddit feed down: two
    entries, ten trends from the eleven Solana boosts, none from Reddit. *)
Lemma analyze_run :
  exists results w',
    Periodic.analyze (Scenario.collaborators Scenario.healthy) Cases.feeds_up
      ["dexscreener"; "tiktok"; "reddit"]
      (Scenario.world Scenario.empty_state 1100000)
    = (Returned results, w')
    /\ map TrendData.source results = ["dexscreener"; "reddit"]
    /\ map (fun r => List.length (TrendData.trends r)) results
       = [10%nat; 0%nat].
Proof.
  destruct (analyze_answers_known_sources
              (Scenario.collaborators Scenario.healthy) Cases.feeds_up
              ["dexscreener"; "tiktok"; "reddit"]
              (Scenario.world Scenario.empty_state 1100000))
    as (results & w' & E & _ & _ & Hsources & _).
  exists results, w'. split; [exact E|].
  split; [rewrite Hsources; reflexivity|].
  vm_compute in E. injection E as <- _. reflexivity.
Defined.

(** Two arguments that differ in a share by 256 are the same bytes, and
    the same creators byte for byte. *)
Lemma metadata_share_run :
  Instruction.serializeCreateMetadataV3 Cases.ascii_bytes (Cases.metadata 100)
  = Instruction.serializeCreateMetadataV3 Cases.ascii_bytes (Cases.metadata 356)
  /\ option_map (map Instruction.creator_bytes)
       (MetadataArgs.creators (Cases.metadata 100))
     = option_map (map Instruction.creator_bytes)
         (MetadataArgs.creators (Cases.metadata 356)).
Proof.
  split; [vm_compute; reflexivity|].
  destruct (Instruction.serializeCreateMetadataV3 Cases.ascii_bytes
              (Cases.metadata 100)) as [bytes|] eqn:E;
    [|vm_compute in E; discriminate].
  pose proof E as E0. vm_compute in E0. injection E0 as <-.
  refine (proj2 (proj2 (proj2 (proj2
    (serialized_metadata_is_unambiguous Cases.ascii_bytes
       (Cases.metadata 100) (Cases.metadata 356) _ _ _ E _))))).
  - intros cs H. injection H as <-. repeat constructor.
  - intros cs H. injection H as <-. repeat constructor.
  - vm_compute. reflexivity.
Defined.

(** The instruction data for a token named Glider: 58 bytes and the 43
    bytes of the three strings. *)
Lemma metadata_layout_run :
  exists data,
    Instruction.createOnChainMetadata_data Cases.ascii_bytes Cases.key
      "Glider" "GLDR" "data:application/json;base64,e30="
    = Some data
    /\ List.length data = 101%nat
    /\ hd_error data = Some (Buffer.of_number 33).
Proof.
  destruct (metadata_instruction_layout Cases.ascii_bytes Cases.key
              "Glider" "GLDR" "data:application/json;base64,e30="
              eq_refl eq_refl eq_refl eq_refl)
    as (body & E & Hlen).
  eexists. split; [exact E|]. split; [|reflexivity].
  cbn [List.length]. rewrite length_app, Hlen. reflexivity.
Defined.


(** A utility token with a pool, on a state with one position: the record
    is appended with the pool address, deployed at the clock reading of the
    call, and the cooldown timestamp and the ledger keep their values. *)
Lemma utility_token_write_run :
  snd (Skill.deploy_utility_token (Scenario.collaborators Scenario.healthy)
         (Scenario.config 0.5 5 3600000) Cases.with_pool
         (Scenario.world Scenario.one_position 1100000))
  = World.make
      (HostState.make
         (Some [DeployedToken.make "MintA" "Glider" "GLDR" pumpfun 1000000
                  None 1000000000 0 0 active;
                DeployedToken.make "MintU" "Util" "UTL" spl_direct 1100000
                  (Some "PLACEHOLDER_POOL_ADDRESS") 1000000000 0 0 active])
         (Some 1000000%Z) (Some 1.55%float) None)
      [] 1100001%Z.
Proof.
  pose proof (deploy_utility_token_writes
                (Scenario.collaborators Scenario.healthy)
                (Scenario.config 0.5 5 3600000) Cases.with_pool
                (Scenario.world Scenario.one_position 1100000)) as T.
  cbv zeta in T. destruct T as [T _].
  destruct (T (DeployResult.make "MintU" 1000000000 0
                 (Some "PLACEHOLDER_POOL_ADDRESS") "sig") eq_refl)
    as (e & He & _ & Hrun).
  vm_compute in He. injection He as <-.
  rewrite Hrun. reflexivity.
Defined.
